(** * The annotation canvas: geometry, history, clipboard and pointer handlers

    A shallow embedding of [src/types.ts] and of the interaction engine of
    [src/components/AnnotationCanvas.tsx].

    Numbers.  A TypeScript [number] is modelled as a real number [R]: the
    arithmetic of the handlers ([+], [-], [/], [Math.min], [Math.max],
    [Math.abs], [Math.sqrt], [Math.pow]) is read as exact arithmetic, and
    [NaN] and the infinities are outside the model.  The comparisons the
    code branches on are booleans obtained from the decision procedures of
    the reals.  A division by the view scale is the real division as long
    as the scale is positive, which the view maintains (every write of
    the scale clamps it to [0.1, 5] or resets it to 1); the properties that
    speak of a quantity divided by the scale assume it.

    The program computes with IEEE 754 binary64 numbers, whose sums,
    differences, products and quotients are rounded.  The properties stated
    over the reals are therefore those that do not rest on an identity of
    exact arithmetic: they compare numbers, or give a result by the
    expression the code computes it with.  Where a sentence of the spec
    needs such an identity, [Doubles] holds the functions concerned once
    more, on binary64 numbers, and the sentence is replayed there on a
    concrete input.

    State.  The component's [useState] cells are the fields of one record
    [Canvas]; a handler is a function from the canvas before the event to the
    canvas after it, each [setX] call being a field update. *)

From Stdlib Require Import Reals Lra List Ascii String Bool Arith Lia.
From Stdlib Require Floats.
Import ListNotations.

Open Scope R_scope.

(** ** Numbers and optional fields *)

Definition Rltb (a b : R) : bool := if Rlt_dec a b then true else false.
Definition Rleb (a b : R) : bool := if Rle_dec a b then true else false.
Definition Rgtb (a b : R) : bool := Rltb b a.
Definition Rgeb (a b : R) : bool := Rleb b a.

(** [v || 0] and the destructuring default [v = 0]: an absent number reads
    as zero (and a present zero is zero already). *)
Definition orZero (v : option R) : R :=
  match v with Some r => r | None => 0 end.

(** [Math.min(...xs)] and [Math.max(...xs)] of a non-empty spread array,
    whose head is passed apart ([Math.min()] of no argument is [Infinity],
    which the model of numbers does not hold). *)
Definition minOf (x : R) (xs : list R) : R := fold_left Rmin xs x.
Definition maxOf (x : R) (xs : list R) : R := fold_left Rmax xs x.

(** [s.includes(sub)] on strings. *)
Definition includes (s sub : string) : bool :=
  match String.index 0 sub s with Some _ => true | None => false end.

(** ** src/types.ts *)

Inductive Tool : Set :=
| hand | selection | rectangle | diamond | ellipse | arrow | line | pencil
| text | image | eraser | long_position | short_position | path | laser.

Scheme Equality for Tool.

(** [Point]: its [x] and [y] are [px] and [py] here, [x] and [y] being the
    origin fields of [DrawingElement]. *)
Record Point : Set := mkPoint { px : R; py : R }.

Inductive StrokeStyle : Set := solid | dashed | dotted.
Inductive Arrowhead : Set := head_arrow | head_dot.
Inductive TextAlign : Set := align_left | align_center | align_right.

(** [customData?: { entryRatio?: number }]. *)
Record CustomData : Set := mkCustomData { entryRatio : option R }.

(** The fields of [DrawingElement] that no geometric operation reads:
    stroke, arrowheads, text, image and font. *)
Record Attrs : Set := mkAttrs {
  strokeColor : string;
  backgroundColor : string;
  strokeWidth : R;
  strokeStyle : option StrokeStyle;
  opacity : option R;
  startArrowhead : option Arrowhead;
  endArrowhead : option Arrowhead;
  elText : option string;
  imageData : option string;
  fontSize : option R;
  fontFamily : option string;
  fontWeight : option string;
  fontStyle : option string;
  textAlign : option TextAlign
}.

Record DrawingElement : Set := mkElement {
  id : string;
  type : Tool;
  x : R;
  y : R;
  width : option R;
  height : option R;
  points : option (list Point);
  customData : option CustomData;
  attrs : Attrs
}.

(** [element.x] and [element.y] under names that a handler's own [x] and
    [y] (the pointer position) do not hide. *)
Definition elX (e : DrawingElement) : R := x e.
Definition elY (e : DrawingElement) : R := y e.

(** Object spreads [{ ...el, field: v }] of the handlers. *)
Definition withId (i : string) (e : DrawingElement) : DrawingElement :=
  mkElement i (type e) (x e) (y e) (width e) (height e) (points e)
            (customData e) (attrs e).

Definition withOrigin (nx ny : R) (e : DrawingElement) : DrawingElement :=
  mkElement (id e) (type e) nx ny (width e) (height e) (points e)
            (customData e) (attrs e).

Definition withSize (w h : option R) (e : DrawingElement) : DrawingElement :=
  mkElement (id e) (type e) (x e) (y e) w h (points e)
            (customData e) (attrs e).

Definition withPoints (ps : option (list Point)) (e : DrawingElement)
  : DrawingElement :=
  mkElement (id e) (type e) (x e) (y e) (width e) (height e) ps
            (customData e) (attrs e).

Definition withCustomData (c : option CustomData) (e : DrawingElement)
  : DrawingElement :=
  mkElement (id e) (type e) (x e) (y e) (width e) (height e) (points e)
            c (attrs e).

(** [element.type === 'path' || element.type === 'pencil'] *)
Definition isPointSeq (t : Tool) : bool :=
  Tool_beq t path || Tool_beq t pencil.

(** [['rectangle', 'diamond', 'ellipse', 'image', 'long_position',
      'short_position'].includes(element.type)] *)
Definition isBoxLike (t : Tool) : bool :=
  existsb (Tool_beq t)
          [rectangle; diamond; ellipse; image; long_position; short_position].

(** [type === 'long_position' || type === 'short_position'] *)
Definition isPosition (t : Tool) : bool :=
  Tool_beq t long_position || Tool_beq t short_position.

(** ** Geometry helpers *)

Module Geometry.

Definition HANDLE_SIZE : R := 8.

Record Bounds : Set := mkBounds { minX : R; maxX : R; minY : R; maxY : R }.

(** [getElementBounds], lines 79-92. *)
Definition getElementBounds (element : DrawingElement) : Bounds :=
  if isPointSeq (type element) then
    match points element with
    | None | Some [] =>
        mkBounds (x element) (x element) (y element) (y element)
    | Some (p :: ps) =>
        mkBounds (minOf (px p) (map px ps)) (maxOf (px p) (map px ps))
                 (minOf (py p) (map py ps)) (maxOf (py p) (map py ps))
    end
  else
    let x := x element in
    let y := y element in
    let width := orZero (width element) in
    let height := orZero (height element) in
    mkBounds (Rmin x (x + width)) (Rmax x (x + width))
             (Rmin y (y + height)) (Rmax y (y + height)).

(** [isPointInElement], lines 434-439; [scale] is the view scale. *)
Definition isPointInElement (scale x y : R) (element : DrawingElement) : bool :=
  let buffer := 10 / scale in
  let bounds := getElementBounds element in
  Rgeb x (minX bounds - buffer) && Rleb x (maxX bounds + buffer) &&
  Rgeb y (minY bounds - buffer) && Rleb y (maxY bounds + buffer).

(** The resize handles, [InteractionState.resizeHandle]. *)
Inductive ResizeHandle : Set :=
| h_tl | h_tr | h_bl | h_br | h_n | h_s | h_entry.

(** The string each handle is in the source. *)
Definition handleName (h : ResizeHandle) : string :=
  match h with
  | h_tl => "tl" | h_tr => "tr" | h_bl => "bl" | h_br => "br"
  | h_n => "n" | h_s => "s" | h_entry => "entry"
  end.

(** [Math.abs(a - c) < r && Math.abs(b - d) < r] *)
Definition near (r a b c d : R) : bool :=
  Rltb (Rabs (a - c)) r && Rltb (Rabs (b - d)) r.

(** [getResizeHandleAtPosition], lines 441-466. *)
Definition getResizeHandleAtPosition (scale x y : R) (element : DrawingElement)
  : option ResizeHandle :=
  if negb (isBoxLike (type element)) then None else
  let ex := elX element in
  let ey := elY element in
  let w := orZero (width element) in
  let h := orZero (height element) in
  let handleRadius := (HANDLE_SIZE / 2) / scale in
  let x1 := Rmin ex (ex + w) in
  let x2 := Rmax ex (ex + w) in
  let y1 := Rmin ey (ey + h) in
  let y2 := Rmax ey (ey + h) in
  if near handleRadius x y x1 y1 then Some h_tl else
  if near handleRadius x y x2 y1 then Some h_tr else
  if near handleRadius x y x1 y2 then Some h_bl else
  if near handleRadius x y x2 y2 then Some h_br else
  if isPosition (type element) then
    let midX := x1 + (x2 - x1) / 2 in
    if near handleRadius x y midX y1 then Some h_n else
    if near handleRadius x y midX y2 then Some h_s else
    let entryRatio :=
      match customData element with
      | Some c => match entryRatio c with Some r => r | None => 0.5 end
      | None => 0.5
      end in
    let entryY := y1 + Rabs h * entryRatio in
    if near handleRadius x y x2 entryY then Some h_entry else None
  else None.

(** [normalizeElement], lines 468-482. *)
Definition normalizeElement (element : DrawingElement) : DrawingElement :=
  if isBoxLike (type element) then
    let x := x element in
    let y := y element in
    let width := orZero (width element) in
    let height := orZero (height element) in
    if Rltb width 0 || Rltb height 0 then
      withSize (Some (Rabs width)) (Some (Rabs height))
        (withOrigin (if Rltb width 0 then x + width else x)
                    (if Rltb height 0 then y + height else y) element)
    else element
  else element.

End Geometry.

(** ** The component state *)

Inductive Mode : Set :=
| m_none | m_drawing | m_moving | m_resizing | m_panning | m_selection_box.

Scheme Equality for Mode.

(** [Map<string, DrawingElement>]: keys in insertion order, [set] on a key
    already present replaces its value in place. *)
Definition ElementMap : Set := list (string * DrawingElement).

Fixpoint mapSet (k : string) (v : DrawingElement) (m : ElementMap)
  : ElementMap :=
  match m with
  | [] => [(k, v)]
  | (k', v') :: m' =>
      if String.eqb k' k then (k, v) :: m' else (k', v') :: mapSet k v m'
  end.

Fixpoint mapGet (k : string) (m : ElementMap) : option DrawingElement :=
  match m with
  | [] => None
  | (k', v) :: m' => if String.eqb k' k then Some v else mapGet k m'
  end.

Record InteractionState : Set := mkInteraction {
  mode : Mode;
  resizeHandle : option Geometry.ResizeHandle;
  startMousePos : Point;
  startElementSnapshot : option DrawingElement;
  startElementSnapshots : option ElementMap
}.

(** The style cells a new element is stamped with. *)
Record StyleState : Set := mkStyle {
  curStrokeColor : string;
  curStrokeWidth : R;
  curStrokeStyle : StrokeStyle;
  curOpacity : R;
  curStartArrowhead : option Arrowhead;
  curEndArrowhead : option Arrowhead
}.

Record Canvas : Set := mkCanvas {
  tool : Tool;
  lockTool : bool;
  elements : list DrawingElement;
  currentElement : option DrawingElement;
  clipboard : list DrawingElement;
  history : list (list DrawingElement);
  historyIndex : nat;
  style : StyleState;
  eraserSize : R;
  panOffset : Point;
  scale : R;
  isSpacePressed : bool;
  selectedElementIds : list string;
  selectionBox : option (Point * Point);
  interactionState : InteractionState;
  isDarkMode : bool
}.

(** The state of a freshly mounted component (the [useState] initial
    values), for a given theme. *)
Definition initialCanvas (dark : bool) : Canvas :=
  mkCanvas selection false [] None [] [[]] 0
           (mkStyle "#000000" 2 solid 100 None None)
           30 (mkPoint 0 0) 1 false [] None
           (mkInteraction m_none None (mkPoint 0 0) None None) dark.

(** The [setX] calls. *)
Definition setTool (v : Tool) (c : Canvas) : Canvas :=
  mkCanvas v (lockTool c) (elements c) (currentElement c) (clipboard c)
    (history c) (historyIndex c) (style c) (eraserSize c) (panOffset c)
    (scale c) (isSpacePressed c) (selectedElementIds c) (selectionBox c)
    (interactionState c) (isDarkMode c).

Definition setElements (v : list DrawingElement) (c : Canvas) : Canvas :=
  mkCanvas (tool c) (lockTool c) v (currentElement c) (clipboard c)
    (history c) (historyIndex c) (style c) (eraserSize c) (panOffset c)
    (scale c) (isSpacePressed c) (selectedElementIds c) (selectionBox c)
    (interactionState c) (isDarkMode c).

Definition setCurrentElement (v : option DrawingElement) (c : Canvas)
  : Canvas :=
  mkCanvas (tool c) (lockTool c) (elements c) v (clipboard c)
    (history c) (historyIndex c) (style c) (eraserSize c) (panOffset c)
    (scale c) (isSpacePressed c) (selectedElementIds c) (selectionBox c)
    (interactionState c) (isDarkMode c).

Definition setClipboard (v : list DrawingElement) (c : Canvas) : Canvas :=
  mkCanvas (tool c) (lockTool c) (elements c) (currentElement c) v
    (history c) (historyIndex c) (style c) (eraserSize c) (panOffset c)
    (scale c) (isSpacePressed c) (selectedElementIds c) (selectionBox c)
    (interactionState c) (isDarkMode c).

Definition setHistory (v : list (list DrawingElement)) (c : Canvas) : Canvas :=
  mkCanvas (tool c) (lockTool c) (elements c) (currentElement c) (clipboard c)
    v (historyIndex c) (style c) (eraserSize c) (panOffset c)
    (scale c) (isSpacePressed c) (selectedElementIds c) (selectionBox c)
    (interactionState c) (isDarkMode c).

Definition setHistoryIndex (v : nat) (c : Canvas) : Canvas :=
  mkCanvas (tool c) (lockTool c) (elements c) (currentElement c) (clipboard c)
    (history c) v (style c) (eraserSize c) (panOffset c)
    (scale c) (isSpacePressed c) (selectedElementIds c) (selectionBox c)
    (interactionState c) (isDarkMode c).

Definition setPanOffset (v : Point) (c : Canvas) : Canvas :=
  mkCanvas (tool c) (lockTool c) (elements c) (currentElement c) (clipboard c)
    (history c) (historyIndex c) (style c) (eraserSize c) v
    (scale c) (isSpacePressed c) (selectedElementIds c) (selectionBox c)
    (interactionState c) (isDarkMode c).

Definition setSelectedElementIds (v : list string) (c : Canvas) : Canvas :=
  mkCanvas (tool c) (lockTool c) (elements c) (currentElement c) (clipboard c)
    (history c) (historyIndex c) (style c) (eraserSize c) (panOffset c)
    (scale c) (isSpacePressed c) v (selectionBox c)
    (interactionState c) (isDarkMode c).

Definition setSelectionBox (v : option (Point * Point)) (c : Canvas)
  : Canvas :=
  mkCanvas (tool c) (lockTool c) (elements c) (currentElement c) (clipboard c)
    (history c) (historyIndex c) (style c) (eraserSize c) (panOffset c)
    (scale c) (isSpacePressed c) (selectedElementIds c) v
    (interactionState c) (isDarkMode c).

Definition setInteractionState (v : InteractionState) (c : Canvas) : Canvas :=
  mkCanvas (tool c) (lockTool c) (elements c) (currentElement c) (clipboard c)
    (history c) (historyIndex c) (style c) (eraserSize c) (panOffset c)
    (scale c) (isSpacePressed c) (selectedElementIds c) (selectionBox c)
    v (isDarkMode c).

(** [const effectiveTool = isSpacePressed ? 'hand' : tool] *)
Definition effectiveTool (c : Canvas) : Tool :=
  if isSpacePressed c then hand else tool c.

(** ** History *)

Module History.

(** [pushToHistory], lines 165-170: [slice(0, historyIndex + 1)], [push],
    index to the new tail. *)
Definition pushToHistory (newElements : list DrawingElement) (c : Canvas)
  : Canvas :=
  let newHistory :=
    firstn (historyIndex c + 1)%nat (history c) ++ [newElements] in
  setHistoryIndex (List.length newHistory - 1)%nat (setHistory newHistory c).

(** The commit the handlers perform on a mutation:
    [setElements(newElements); pushToHistory(newElements)]. *)
Definition commit (newElements : list DrawingElement) (c : Canvas) : Canvas :=
  pushToHistory newElements (setElements newElements c).

(** [history[i]]: [undefined] past the end is not reached, the index being
    guarded; the empty scene stands for it. *)
Definition snapshotAt (i : nat) (c : Canvas) : list DrawingElement :=
  nth i (history c) [].

(** [undo], lines 172-178. *)
Definition undo (c : Canvas) : Canvas :=
  if (0 <? historyIndex c)%nat then
    setSelectedElementIds []
      (setElements (snapshotAt (historyIndex c - 1)%nat c)
         (setHistoryIndex (historyIndex c - 1)%nat c))
  else c.

(** [redo], lines 180-186. *)
Definition redo (c : Canvas) : Canvas :=
  if (historyIndex c <? List.length (history c) - 1)%nat then
    setSelectedElementIds []
      (setElements (snapshotAt (historyIndex c + 1)%nat c)
         (setHistoryIndex (historyIndex c + 1)%nat c))
  else c.

End History.

(** ** Copy, paste, delete *)

Module Clipboard.

(** What the environment answers during one run of [handlePaste]: the
    [i]-th evaluation of [Date.now().toString()] and of
    [Math.random().toString(36).substr(2, 5)]. *)
Record IdSource : Set := mkIdSource {
  nowAt : nat -> string;
  randomAt : nat -> string
}.

(** [handleCopy], lines 189-196; [JSON.parse(JSON.stringify(els))] copies
    the values. *)
Definition handleCopy (c : Canvas) : Canvas :=
  if (0 <? List.length (selectedElementIds c))%nat then
    let els :=
      filter (fun e => existsb (String.eqb (id e)) (selectedElementIds c))
             (elements c) in
    if (0 <? List.length els)%nat then setClipboard els c else c
  else c.

(** The body of the [clipboard.map] callback of [handlePaste]. *)
Definition pasteItem (offset : R) (newId : string) (item : DrawingElement)
  : DrawingElement :=
  let newEl := withOrigin (x item + offset) (y item + offset)
                          (withId newId item) in
  if isPointSeq (type newEl) then
    match points newEl with
    | Some ps =>
        withPoints
          (Some (map (fun p => mkPoint (px p + offset) (py p + offset)) ps))
          newEl
    | None => newEl
    end
  else newEl.

(** [clipboard.map(item => ...)] together with the [newIds] the callback
    pushes: at each item the callback draws an identifier, pushes it and
    returns the pasted copy; [i] counts the items done. *)
Fixpoint pasteAll (src : IdSource) (offset : R) (i : nat)
         (items : list DrawingElement) : list string * list DrawingElement :=
  match items with
  | [] => ([], [])
  | item :: rest =>
      let newId := (nowAt src i ++ randomAt src i)%string in
      let r := pasteAll src offset (S i) rest in
      (newId :: fst r, pasteItem offset newId item :: snd r)
  end.

(** [handlePaste], lines 198-222. *)
Definition handlePaste (src : IdSource) (c : Canvas) : Canvas :=
  if (0 <? List.length (clipboard c))%nat then
    let offset := 20 / scale c in
    let r := pasteAll src offset 0 (clipboard c) in
    let newIds := fst r in
    let pastedElements := snd r in
    let newElements := elements c ++ pastedElements in
    setSelectedElementIds newIds (History.commit newElements c)
  else c.

(** [handleDelete], lines 224-236; [confirmed] is the answer of
    [window.confirm]. *)
Definition handleDelete (confirmed : bool) (c : Canvas) : Canvas :=
  if (0 <? List.length (selectedElementIds c))%nat then
    let newElements :=
      filter (fun el =>
                negb (existsb (String.eqb (id el)) (selectedElementIds c)))
             (elements c) in
    setSelectedElementIds [] (History.commit newElements c)
  else if (0 <? List.length (elements c))%nat && confirmed then
    History.commit [] c
  else c.

End Clipboard.

(** ** Pointer handlers *)

Module Interaction.

Import Geometry.

(** What a handler reads of a pointer event and of its surroundings:
    the client position, the modifier and click count, the canvas'
    bounding rectangle ([getBoundingClientRect]), the clock reading
    [Date.now().toString()] and, on release, the outcome of the reference
    comparison [elements !== history[historyIndex]] (a comparison of array
    identity, [true] as soon as a move replaced the array). *)
Record MouseEvent : Set := mkEvent {
  clientX : R;
  clientY : R;
  shiftKey : bool;
  detail : nat;
  rectLeft : R;
  rectTop : R;
  now : string;
  sceneReplaced : bool
}.

(** [getMousePos], lines 425-432, the canvas being mounted. *)
Definition getMousePos (c : Canvas) (e : MouseEvent) : Point :=
  mkPoint ((clientX e - rectLeft e - px (panOffset c)) / scale c)
          ((clientY e - rectTop e - py (panOffset c)) / scale c).

Definition idle : InteractionState :=
  mkInteraction m_none None (mkPoint 0 0) None None.

(** The truthiness of a string that may be [null]. *)
Definition truthy (s : option string) : bool :=
  match s with Some i => negb (String.eqb i "") | None => false end.

(** The topmost element under the point: the loop from the last element
    down to the first. *)
Definition topmostAt (c : Canvas) (x y : R) : option string :=
  option_map id (find (isPointInElement (scale c) x y) (rev (elements c))).

(** [{ ...el, x, y, width, height }] on an element whose points, when it
    has some, are recomputed into origin and extent (double-click of the
    path tool, release of the pencil).  With an empty point array the
    source takes [Math.min()] of nothing; an element in progress always
    holds a point, and the model leaves such an element as it is. *)
Definition fitToPoints (e : DrawingElement) : DrawingElement :=
  match points e with
  | Some (p :: ps) =>
      let nx := minOf (px p) (map px ps) in
      let ny := minOf (py p) (map py ps) in
      withSize (Some (maxOf (px p) (map px ps) - nx))
               (Some (maxOf (py p) (map py ps) - ny))
               (withOrigin nx ny e)
  | _ => e
  end.

(** [pts[pts.length - 1] = v] on a copy of the array; on an empty array
    the assignment lands at index [-1], which is no element. *)
Definition setLast (v : Point) (pts : list Point) : list Point :=
  match pts with
  | [] => []
  | _ => removelast pts ++ [v]
  end.

(** The element a drawing tool starts, lines 1131-1143. *)
Definition newElement (c : Canvas) (newId : string) (t : Tool) (x y : R)
  : DrawingElement :=
  let baseElement :=
    mkElement newId t x y (Some 0) (Some 0) None None
      (mkAttrs (if isDarkMode c then "#e0e0e0" else curStrokeColor (style c))
               "transparent" (curStrokeWidth (style c))
               (Some (curStrokeStyle (style c))) (Some (curOpacity (style c)))
               (curStartArrowhead (style c)) (curEndArrowhead (style c))
               None None None None None None None) in
  if Tool_beq t pencil then
    withPoints (Some [mkPoint x y]) baseElement
  else if isPosition t then
    withCustomData (Some (mkCustomData (Some 0.5)))
      (withSize (Some 100) (Some 100) baseElement)
  else baseElement.

(** The selection tool's part of [handleMouseDown], lines 989-1052. *)
Definition selectionDown (c : Canvas) (e : MouseEvent) (x y : R) : Canvas :=
  let onHandle :=
    match selectedElementIds c with
    | [sel] =>
        match find (fun el => String.eqb (id el) sel) (elements c) with
        | Some selectedEl =>
            match getResizeHandleAtPosition (scale c) x y selectedEl with
            | Some handle => Some (handle, selectedEl)
            | None => None
            end
        | None => None
        end
    | _ => None
    end in
  match onHandle with
  | Some (handle, selectedEl) =>
      setInteractionState
        (mkInteraction m_resizing (Some handle) (mkPoint x y)
                       (Some selectedEl) None) c
  | None =>
      let clicked := topmostAt c x y in
      match clicked with
      | Some clickedId =>
          if truthy clicked then
            let isAlreadySelected :=
              existsb (String.eqb clickedId) (selectedElementIds c) in
            let newSelection :=
              if shiftKey e then
                if isAlreadySelected
                then filter (fun i => negb (String.eqb i clickedId))
                            (selectedElementIds c)
                else selectedElementIds c ++ [clickedId]
              else if isAlreadySelected then selectedElementIds c
                   else [clickedId] in
            let c1 := setSelectedElementIds newSelection c in
            if shiftKey e && isAlreadySelected then c1
            else
              let snapshots :=
                fold_left
                  (fun m el =>
                     if existsb (String.eqb (id el)) newSelection
                     then mapSet (id el) el m else m)
                  (elements c) [] in
              setInteractionState
                (mkInteraction m_moving None (mkPoint x y) None
                               (Some snapshots)) c1
          else
            setInteractionState
              (mkInteraction m_selection_box None (mkPoint x y) None None)
              (setSelectionBox (Some (mkPoint x y, mkPoint x y))
                 (if shiftKey e then c else setSelectedElementIds [] c))
      | None =>
          setInteractionState
            (mkInteraction m_selection_box None (mkPoint x y) None None)
            (setSelectionBox (Some (mkPoint x y, mkPoint x y))
               (if shiftKey e then c else setSelectedElementIds [] c))
      end
  end.

(** The path tool's part of [handleMouseDown], lines 1090-1127. *)
Definition pathDown (c : Canvas) (e : MouseEvent) (x y : R) : Canvas :=
  let finalizing :=
    match currentElement c with
    | Some cur => Nat.eqb (detail e) 2 && Tool_beq (type cur) path
    | None => false
    end in
  match currentElement c with
  | Some cur =>
      if finalizing then
        let finalPath := fitToPoints cur in
        let newElements := elements c ++ [finalPath] in
        let c1 := History.commit newElements c in
        let c2 := setCurrentElement None c1 in
        let c3 := setSelectedElementIds [id finalPath] c2 in
        let c4 :=
          setInteractionState
            (mkInteraction m_none None (mkPoint x y) None None) c3 in
        if lockTool c then c4 else setTool selection c4
      else
        match points cur with
        | Some pts =>
            setCurrentElement
              (Some (withPoints
                       (Some (setLast (mkPoint x y) pts ++ [mkPoint x y]))
                       cur)) c
        | None => c
        end
  | None =>
      setCurrentElement
        (Some (mkElement (now e) path x y None None
                 (Some [mkPoint x y; mkPoint x y]) None
                 (mkAttrs
                    (if isDarkMode c then "#e0e0e0"
                     else curStrokeColor (style c))
                    "transparent" (curStrokeWidth (style c))
                    (Some (curStrokeStyle (style c)))
                    (Some (curOpacity (style c)))
                    (curStartArrowhead (style c)) (curEndArrowhead (style c))
                    None None None None None None None)))
        (setInteractionState
           (mkInteraction m_drawing None (mkPoint x y) None None) c)
  end.

(** [handleMouseDown], lines 973-1144.  The laser's side buffer and the
    repaint are not part of the canvas state; the text tool only schedules
    a prompt, whose answer arrives outside this handler. *)
Definition handleMouseDown (c : Canvas) (e : MouseEvent) : Canvas :=
  let p := getMousePos c e in
  let x := px p in
  let y := py p in
  let t := effectiveTool c in
  if Tool_beq t laser then
    setInteractionState
      (mkInteraction m_drawing None (mkPoint x y) None None) c
  else if Tool_beq t hand then
    setInteractionState
      (mkInteraction m_panning None (mkPoint (clientX e) (clientY e))
                     None None) c
  else if Tool_beq t selection then selectionDown c e x y
  else if Tool_beq t text then c
  else if Tool_beq t path then pathDown c e x y
  else
    setCurrentElement (Some (newElement c (now e) t x y))
      (setInteractionState
         (mkInteraction m_drawing None (mkPoint x y) None None) c).

(** The translation the moving branch applies to a snapshot, lines
    1233-1237. *)
Definition moveBy (dx dy : R) (snapshot : DrawingElement) : DrawingElement :=
  let newEl := withOrigin (x snapshot + dx) (y snapshot + dy) snapshot in
  if Tool_beq (type newEl) pencil || Tool_beq (type newEl) path then
    match points snapshot with
    | Some ps =>
        withPoints (Some (map (fun p => mkPoint (px p + dx) (py p + dy)) ps))
                   newEl
    | None => newEl
    end
  else newEl.

(** [{ ...el.customData }] *)
Definition spreadCustomData (c : option CustomData) : CustomData :=
  match c with Some d => d | None => mkCustomData None end.

(** What the resizing branch makes of the selected element, lines
    1253-1272: [y] is the pointer's world ordinate, [(dx, dy)] the drag
    since pointer-down, [snapshot] the element at pointer-down.  The handle
    is tested as the string it is in the source. *)
Definition resizeElement (handle : ResizeHandle) (snapshot : DrawingElement)
           (y dx dy : R) (el : DrawingElement) : DrawingElement :=
  let nx := elX snapshot in
  let ny := elY snapshot in
  let nw := orZero (width snapshot) in
  let nh := orZero (height snapshot) in
  let newCustomData := spreadCustomData (customData el) in
  let h := handleName handle in
  if String.eqb h "entry" then
    let relY := y - ny in
    let ratio := Rmin (Rmax (relY / Rabs nh) 0.05) 0.95 in
    withCustomData (Some (mkCustomData (Some ratio))) el
  else
    let '(nx, ny, nw, nh) :=
      if String.eqb h "n" then (nx, ny + dy, nw, nh - dy)
      else if String.eqb h "s" then (nx, ny, nw, nh + dy)
      else
        let nw := if includes h "e" then nw + dx else nw in
        let nh := if includes h "s" then nh + dy else nh in
        let '(nx, nw) :=
          if includes h "w" then (nx + dx, nw - dx) else (nx, nw) in
        let '(ny, nh) :=
          if includes h "n" then (ny + dy, nh - dy) else (ny, nh) in
        (nx, ny, nw, nh) in
    withCustomData (Some newCustomData)
      (withSize (Some nw) (Some nh) (withOrigin nx ny el)).

(** The eraser's filter predicate, lines 1304-1305: an element is kept
    when its origin is farther than the radius from the pointer. *)
Definition eraserKeeps (c : Canvas) (x y : R) (el : DrawingElement) : bool :=
  let dist := sqrt (pow (elX el - x) 2 + pow (elY el - y) 2) in
  Rgtb dist (eraserSize c / scale c).

(** [handleMouseMove], lines 1175-1310.  The cursor style and the hovered
    identifier (lines 1183-1211) and the laser's side buffer decorate the
    view and are left out. *)
Definition handleMouseMove (c : Canvas) (e : MouseEvent) : Canvas :=
  let p := getMousePos c e in
  let x := px p in
  let y := py p in
  let t := effectiveTool c in
  let st := interactionState c in
  if Tool_beq t laser && Mode_beq (mode st) m_drawing then c
  else if Mode_beq (mode st) m_panning then
    let dx := clientX e - px (startMousePos st) in
    let dy := clientY e - py (startMousePos st) in
    setInteractionState
      (mkInteraction (mode st) (resizeHandle st)
                     (mkPoint (clientX e) (clientY e))
                     (startElementSnapshot st) (startElementSnapshots st))
      (setPanOffset
         (mkPoint (px (panOffset c) + dx) (py (panOffset c) + dy)) c)
  else if Mode_beq (mode st) m_selection_box then
    setSelectionBox
      (match selectionBox c with
       | Some (start, _) => Some (start, mkPoint x y)
       | None => None
       end) c
  else
  match Mode_beq (mode st) m_moving, startElementSnapshots st with
  | true, Some snapshots =>
      let dx := x - px (startMousePos st) in
      let dy := y - py (startMousePos st) in
      setElements
        (map (fun el =>
                match mapGet (id el) snapshots with
                | Some snapshot => moveBy dx dy snapshot
                | None => el
                end) (elements c)) c
  | _, _ =>
  match Mode_beq (mode st) m_resizing, selectedElementIds c,
        startElementSnapshot st, resizeHandle st with
  | true, [selectedId], Some snapshot, Some handle =>
      let dx := x - px (startMousePos st) in
      let dy := y - py (startMousePos st) in
      setElements
        (map (fun el =>
                if String.eqb (id el) selectedId
                then resizeElement handle snapshot y dx dy el
                else el) (elements c)) c
  | _, _, _, _ =>
  if Mode_beq (mode st) m_drawing then
    match currentElement c with
    | None => c
    | Some prev =>
        if Tool_beq t path then
          match points prev with
          | Some pts =>
              setCurrentElement
                (Some (withPoints (Some (setLast (mkPoint x y) pts)) prev)) c
          | None => c
          end
        else if Tool_beq t pencil then
          setCurrentElement
            (Some (withSize
                     (Some (Rmax (orZero (width prev)) (x - elX prev)))
                     (Some (Rmax (orZero (height prev)) (y - elY prev)))
                     (withPoints
                        (Some (match points prev with
                               | Some pts => pts
                               | None => []
                               end ++ [mkPoint x y])) prev))) c
        else if existsb (Tool_beq t)
                  [rectangle; diamond; ellipse; arrow; line; image;
                   long_position; short_position] then
          setCurrentElement
            (Some (withSize (Some (x - elX prev)) (Some (y - elY prev))
                            prev)) c
        else if Tool_beq t eraser then
          setElements (filter (eraserKeeps c x y) (elements c)) c
        else c
    end
  else c
  end
  end.

(** [Array.from(new Set(l))]: the first occurrence of each string, in
    order. *)
Fixpoint uniqueFrom (seen l : list string) : list string :=
  match l with
  | [] => []
  | a :: rest =>
      if existsb (String.eqb a) seen then uniqueFrom seen rest
      else a :: uniqueFrom (a :: seen) rest
  end.

Definition unique (l : list string) : list string := uniqueFrom [] l.

(** The filter predicate of the box selection, lines 1320-1327, for the
    box between [start] and [current]. *)
Definition insideBox (start current : Point) (el : DrawingElement) : bool :=
  let x1 := Rmin (px start) (px current) in
  let x2 := Rmax (px start) (px current) in
  let y1 := Rmin (py start) (py current) in
  let y2 := Rmax (py start) (py current) in
  let b := getElementBounds el in
  Rgeb (minX b) x1 && Rleb (maxX b) x2 && Rgeb (minY b) y1 && Rleb (maxY b) y2.

(** [handleMouseUp], lines 1312-1371.  Every test reads the state the
    handler was created with; the updates accumulate. *)
Definition handleMouseUp (c : Canvas) (e : MouseEvent) : Canvas :=
  let t := effectiveTool c in
  let m := mode (interactionState c) in
  if Tool_beq t path then c
  else if Tool_beq t laser then setInteractionState idle c
  else
    let c1 :=
      match Mode_beq m m_selection_box, selectionBox c with
      | true, Some (start, current) =>
          let idsInBox :=
            map id (filter (insideBox start current) (elements c)) in
          setSelectionBox None
            (setSelectedElementIds
               (if shiftKey e
                then unique (selectedElementIds c ++ idsInBox)
                else idsInBox) c)
      | _, _ => c
      end in
    let c2 :=
      match Mode_beq m m_drawing, currentElement c with
      | true, Some cur =>
          let fitted :=
            if Tool_beq (type cur) pencil then fitToPoints cur else cur in
          let finalElement := normalizeElement fitted in
          if negb (Tool_beq t eraser) then
            let newElements := elements c ++ [finalElement] in
            History.pushToHistory newElements
              (setSelectedElementIds [id finalElement]
                 (setElements newElements c1))
          else c1
      | _, _ => c1
      end in
    let c3 :=
      if Tool_beq t eraser && Mode_beq m m_drawing && sceneReplaced e
      then History.pushToHistory (elements c) c2 else c2 in
    let c4 :=
      match Mode_beq m m_resizing, selectedElementIds c with
      | true, [sel] =>
          let newElements :=
            map (fun el => if String.eqb (id el) sel
                           then normalizeElement el else el) (elements c) in
          History.pushToHistory newElements (setElements newElements c3)
      | _, _ => c3
      end in
    let c5 :=
      if Mode_beq m m_moving && sceneReplaced e
      then History.pushToHistory (elements c) c4 else c4 in
    let c6 := setCurrentElement None (setInteractionState idle c5) in
    if negb (lockTool c) && Mode_beq m m_drawing
       && negb (Tool_beq t pencil) && negb (Tool_beq t eraser)
    then setTool selection c6 else c6.

End Interaction.

(** ** The view: zoom, pan and the external entry point *)

Module View.

Import Interaction.

Definition setScale (v : R) (c : Canvas) : Canvas :=
  mkCanvas (tool c) (lockTool c) (elements c) (currentElement c) (clipboard c)
    (history c) (historyIndex c) (style c) (eraserSize c) (panOffset c)
    v (isSpacePressed c) (selectedElementIds c) (selectionBox c)
    (interactionState c) (isDarkMode c).

Definition setLockTool (v : bool) (c : Canvas) : Canvas :=
  mkCanvas (tool c) v (elements c) (currentElement c) (clipboard c)
    (history c) (historyIndex c) (style c) (eraserSize c) (panOffset c)
    (scale c) (isSpacePressed c) (selectedElementIds c) (selectionBox c)
    (interactionState c) (isDarkMode c).

(** What [handleWheel] reads of a wheel event and of the canvas'
    bounding rectangle. *)
Record WheelEvent : Set := mkWheel {
  ctrlKey : bool;
  metaKey : bool;
  deltaX : R;
  deltaY : R;
  wheelClientX : R;
  wheelClientY : R;
  wheelRectLeft : R;
  wheelRectTop : R
}.

(** [Math.min(Math.max(0.1, v), 5)], the clamp of both zoom writers. *)
Definition clampScale (v : R) : R := Rmin (Rmax 0.1 v) 5.

(** [handleWheel], lines 1373-1393; [Math.pow(1.001, delta)] is the real
    power. *)
Definition handleWheel (c : Canvas) (e : WheelEvent) : Canvas :=
  if ctrlKey e || metaKey e then
    let delta := - deltaY e in
    let factor := Rpower 1.001 delta in
    let newScale := clampScale (scale c * factor) in
    let mouseX := wheelClientX e - wheelRectLeft e in
    let mouseY := wheelClientY e - wheelRectTop e in
    let worldX := (mouseX - px (panOffset c)) / scale c in
    let worldY := (mouseY - py (panOffset c)) / scale c in
    let newPanX := mouseX - worldX * newScale in
    let newPanY := mouseY - worldY * newScale in
    setPanOffset (mkPoint newPanX newPanY) (setScale newScale c)
  else
    setPanOffset (mkPoint (px (panOffset c) - deltaX e)
                          (py (panOffset c) - deltaY e)) c.

(** [updateZoom], line 1401. *)
Definition updateZoom (delta : R) (c : Canvas) : Canvas :=
  setScale (clampScale (scale c + delta)) c.

(** The reset button, line 1616. *)
Definition resetZoom (c : Canvas) : Canvas :=
  setPanOffset (mkPoint 0 0) (setScale 1 c).

(** [addExternalElement], lines 154-160. *)
Definition addExternalElement (element : DrawingElement) (c : Canvas)
  : Canvas :=
  let next := elements c ++ [element] in
  setElements next (History.pushToHistory next c).

(** The click and the double click of a tool button, lines 1407-1421;
    the image button opens the file picker and changes no state. *)
Definition toolButtonClick (t : Tool) (c : Canvas) : Canvas :=
  if Tool_beq t image then c
  else setCurrentElement None (setSelectedElementIds [] (setTool t c)).

Definition toolButtonDoubleClick (t : Tool) (c : Canvas) : Canvas :=
  if Tool_beq t image then c else setLockTool true (setTool t c).

End View.

(** ** Keyboard shortcuts *)

Module Keyboard.

Definition setIsSpacePressed (v : bool) (c : Canvas) : Canvas :=
  mkCanvas (tool c) (lockTool c) (elements c) (currentElement c) (clipboard c)
    (history c) (historyIndex c) (style c) (eraserSize c) (panOffset c)
    (scale c) v (selectedElementIds c) (selectionBox c)
    (interactionState c) (isDarkMode c).

(** What the key handlers read of a keyboard event and of the document:
    [e.key], [e.code], the modifiers, and the tag name of the element that
    has the focus, when there is one. *)
Record KeyEvent : Set := mkKey {
  key : string;
  code : string;
  keyCtrl : bool;
  keyMeta : bool;
  keyShift : bool;
  activeTag : option string
}.

(** [toLowerCase] on the letters of ASCII, which is all the shortcuts
    compare with. *)
Definition lowerAscii (a : ascii) : ascii :=
  let n := nat_of_ascii a in
  if (65 <=? n)%nat && (n <=? 90)%nat then ascii_of_nat (n + 32) else a.

Fixpoint toLowerCase (s : string) : string :=
  match s with
  | EmptyString => EmptyString
  | String a rest => String (lowerAscii a) (toLowerCase rest)
  end.

(** [handleKeyDown], lines 352-363.  The paste draws its identifiers from
    [src]; [confirmed] is the answer of [window.confirm], asked by
    [handleDelete] when nothing is selected. *)
Definition handleKeyDown (src : Clipboard.IdSource) (confirmed : bool)
           (c : Canvas) (e : KeyEvent) : Canvas :=
  let inField :=
    match activeTag e with
    | Some t => String.eqb t "INPUT" || String.eqb t "TEXTAREA"
    | None => false
    end in
  if inField then c else
  let isCtrlOrMeta := keyCtrl e || keyMeta e in
  let k := toLowerCase (key e) in
  if isCtrlOrMeta && String.eqb k "c" then Clipboard.handleCopy c
  else if isCtrlOrMeta && String.eqb k "v" then Clipboard.handlePaste src c
  else if isCtrlOrMeta && String.eqb k "z" then
    if keyShift e then History.redo c else History.undo c
  else if isCtrlOrMeta && String.eqb k "y" then History.redo c
  else
    let c1 :=
      if String.eqb (code e) "Space" && negb (isSpacePressed c)
      then setIsSpacePressed true c else c in
    if String.eqb (key e) "Delete" || String.eqb (key e) "Backspace"
    then Clipboard.handleDelete confirmed c1 else c1.

(** [handleKeyUp], lines 364-366. *)
Definition handleKeyUp (c : Canvas) (e : KeyEvent) : Canvas :=
  if String.eqb (code e) "Space" then setIsSpacePressed false c else c.

End Keyboard.

(** ** Importing an image *)

Module ImageImport.

Definition MAX_DIM : R := 600.

(** The size an imported image is given, lines 325-331: the larger side
    is brought down to [MAX_DIM], the other one follows the ratio. *)
Definition fitImage (imgWidth imgHeight : R) : R * R :=
  if Rgtb imgWidth MAX_DIM || Rgtb imgHeight MAX_DIM then
    let ratio := imgWidth / imgHeight in
    if Rgtb imgWidth imgHeight then (MAX_DIM, MAX_DIM / ratio)
    else (MAX_DIM * ratio, MAX_DIM)
  else (imgWidth, imgHeight).

(** The element of the [img.onload] callback of [processImageFile], lines
    323-336.  [captured] is the state of the render that created the
    callback: pan offset and scale are read from it.  [innerWidth] and
    [innerHeight] are the window's. *)
Definition imageElement (captured : Canvas) (newId data : string)
           (imgWidth imgHeight innerWidth innerHeight : R) : DrawingElement :=
  let size := fitImage imgWidth imgHeight in
  let width := fst size in
  let height := snd size in
  let centerX := (innerWidth / 2 - px (panOffset captured)) / scale captured in
  let centerY :=
    (innerHeight / 2 - py (panOffset captured)) / scale captured in
  mkElement newId image (centerX - width / 2) (centerY - height / 2)
    (Some width) (Some height) None None
    (mkAttrs "transparent" "transparent" 0 None None None None None
             (Some data) None None None None None).

(** The state update of the callback, lines 338-343: the scene is the
    current one with the image on top ([setElements(prev => ...)]), the
    history is pushed from the history the callback captured, and the
    selection tool is chosen. *)
Definition imageLoaded (captured : Canvas) (newId data : string)
           (imgWidth imgHeight innerWidth innerHeight : R) (c : Canvas)
  : Canvas :=
  let newEl := imageElement captured newId data imgWidth imgHeight
                            innerWidth innerHeight in
  let next := elements c ++ [newEl] in
  let pushed := History.pushToHistory next captured in
  setTool selection
    (setElements next
       (setHistoryIndex (historyIndex pushed)
          (setHistory (history pushed) c))).

End ImageImport.

(** ** What is painted around the scene *)

Module Render.

Import Geometry.


(** The two loops of [drawRulers], lines 527-529, [fuel] bounding the
    number of tests of a loop condition. *)
Fixpoint growStep (fuel : nat) (scale step : R) : option R :=
  match fuel with
  | O => None
  | S f =>
      if Rltb (step * scale) 60 then growStep f scale (step * 2)
      else Some step
  end.

Fixpoint shrinkStep (fuel : nat) (scale step : R) : option R :=
  match fuel with
  | O => None
  | S f =>
      if Rgtb (step * scale) 140 then shrinkStep f scale (step / 2)
      else Some step
  end.

Definition rulerStep (fuel : nat) (scale : R) : option R :=
  match growStep fuel scale 100 with
  | Some step => shrinkStep fuel scale step
  | None => None
  end.








End Render.

(** ** The geometry on the program's numbers *)

Module Doubles.

Import Floats.

(** [Math.min(a, b)] and [Math.max(a, b)], neither number being [NaN]. *)
Definition min2 (a b : float) : float := if PrimFloat.ltb b a then b else a.
Definition max2 (a b : float) : float := if PrimFloat.ltb a b then b else a.

Definition minOf (x : float) (xs : list float) : float := fold_left min2 xs x.
Definition maxOf (x : float) (xs : list float) : float := fold_left max2 xs x.

Definition orZero (v : option float) : float :=
  match v with Some r => r | None => 0%float end.

Record Point : Set := mkPoint { px : float; py : float }.

(** The fields of [DrawingElement] the geometry reads or writes; the
    others are carried along by the spreads and play no part. *)
Record DrawingElement : Set := mkElement {
  id : string;
  type : Tool;
  x : float;
  y : float;
  width : option float;
  height : option float;
  points : option (list Point)
}.

Record Bounds : Set :=
  mkBounds { minX : float; maxX : float; minY : float; maxY : float }.

(** [getElementBounds], lines 79-92. *)
Definition getElementBounds (element : DrawingElement) : Bounds :=
  if isPointSeq (type element) then
    match points element with
    | None | Some [] =>
        mkBounds (x element) (x element) (y element) (y element)
    | Some (p :: ps) =>
        mkBounds (minOf (px p) (map px ps)) (maxOf (px p) (map px ps))
                 (minOf (py p) (map py ps)) (maxOf (py p) (map py ps))
    end
  else
    let x := x element in
    let y := y element in
    let width := orZero (width element) in
    let height := orZero (height element) in
    mkBounds (min2 x (x + width)) (max2 x (x + width))
             (min2 y (y + height)) (max2 y (y + height)).

(** [normalizeElement], lines 468-482. *)
Definition normalizeElement (element : DrawingElement) : DrawingElement :=
  if isBoxLike (type element) then
    let x := x element in
    let y := y element in
    let width := orZero (width element) in
    let height := orZero (height element) in
    if PrimFloat.ltb width 0 || PrimFloat.ltb height 0 then
      mkElement (id element) (type element)
                (if PrimFloat.ltb width 0 then x + width else x)
                (if PrimFloat.ltb height 0 then y + height else y)
                (Some (abs width)) (Some (abs height)) (points element)
    else element
  else element.

(** The translation of the moving branch, lines 1233-1237. *)
Definition moveBy (dx dy : float) (snapshot : DrawingElement)
  : DrawingElement :=
  let newEl :=
    mkElement (id snapshot) (type snapshot)
              (x snapshot + dx) (y snapshot + dy)
              (width snapshot) (height snapshot) (points snapshot) in
  if Tool_beq (type newEl) pencil || Tool_beq (type newEl) path then
    match points snapshot with
    | Some ps =>
        mkElement (id newEl) (type newEl) (x newEl) (y newEl)
                  (width newEl) (height newEl)
                  (Some (map (fun p => mkPoint (px p + dx) (py p + dy)) ps))
    | None => newEl
    end
  else newEl.

End Doubles.

(** ** Notions the claims are phrased with *)

(** The handles an element shows, each with its centre, in the order
    [getResizeHandleAtPosition] tests them: the four corners of the box,
    then, on a position marker, the two midpoints and the entry handle. *)
Definition handlesOf (e : DrawingElement)
  : list (Geometry.ResizeHandle * Point) :=
  let w := orZero (width e) in
  let h := orZero (height e) in
  let x1 := Rmin (x e) (x e + w) in
  let x2 := Rmax (x e) (x e + w) in
  let y1 := Rmin (y e) (y e + h) in
  let y2 := Rmax (y e) (y e + h) in
  [(Geometry.h_tl, mkPoint x1 y1); (Geometry.h_tr, mkPoint x2 y1);
   (Geometry.h_bl, mkPoint x1 y2); (Geometry.h_br, mkPoint x2 y2)]
  ++ (if isPosition (type e) then
        let midX := x1 + (x2 - x1) / 2 in
        let entryRatio :=
          match customData e with
          | Some c => match entryRatio c with Some r => r | None => 0.5 end
          | None => 0.5
          end in
        [(Geometry.h_n, mkPoint midX y1); (Geometry.h_s, mkPoint midX y2);
         (Geometry.h_entry, mkPoint x2 (y1 + Rabs h * entryRatio))]
      else []).

(** The point [(x, y)] is within [r] of the centre [c] on both axes,
    strictly. *)
Definition withinBox (r x y : R) (c : Point) : Prop :=
  Rabs (x - px c) < r /\ Rabs (y - py c) < r.

(** The distance from an element's origin to a point. *)
Definition originDistance (el : DrawingElement) (p : Point) : R :=
  sqrt ((x el - px p) ^ 2 + (y el - py p) ^ 2).

(** The bounds of an element lie within the rectangle spanned by two
    corners. *)
Definition boundsWithin (start current : Point) (el : DrawingElement)
  : Prop :=
  let b := Geometry.getElementBounds el in
  Rmin (px start) (px current) <= Geometry.minX b /\
  Geometry.maxX b <= Rmax (px start) (px current) /\
  Rmin (py start) (py current) <= Geometry.minY b /\
  Geometry.maxY b <= Rmax (py start) (py current).

(** The identifier [handlePaste] gives its [i]-th copy. *)
Definition pastedId (src : Clipboard.IdSource) (i : nat) : string :=
  (Clipboard.nowAt src i ++ Clipboard.randomAt src i)%string.

(** The history invariant: the index points at a snapshot. *)
Definition historyWellFormed (c : Canvas) : Prop :=
  (historyIndex c < List.length (history c))%nat.

(** ** Sample data for the worked cases *)

Definition plainAttrs : Attrs :=
  mkAttrs "#000000" "transparent" 2 (Some solid) (Some 100) None None
          None None None None None None None.

(** An element of kind [t] with identifier [i], origin [(x, y)] and extent
    [(w, h)], no points and no custom data. *)
Definition shape (i : string) (t : Tool) (x y w h : R) : DrawingElement :=
  mkElement i t x y (Some w) (Some h) None None plainAttrs.

(** A source that answers the same clock reading and the same random
    suffix at every call. *)
Definition stuckSource : Clipboard.IdSource :=
  Clipboard.mkIdSource (fun _ => "1700000000000"%string)
                       (fun _ => "k3x9q"%string).

(** A canvas holding the scene [els], the selection [sel] and the
    clipboard [clip], everything else as on a fresh mount. *)
Definition canvasWith (els : list DrawingElement) (sel : list string)
           (clip : list DrawingElement) : Canvas :=
  setClipboard clip
    (setSelectedElementIds sel (setElements els (initialCanvas false))).

(** A pointer event at client position [(cx, cy)] over a canvas whose
    bounding rectangle starts at the client origin. *)
Definition eventAt (cx cy : R) (shift : bool) : Interaction.MouseEvent :=
  Interaction.mkEvent cx cy shift 1 0 0 "1700000000000" true.

(** A fresh canvas with the tool [t] chosen. *)
Definition canvasWithTool (t : Tool) : Canvas :=
  setTool t (initialCanvas false).

(** A resize in progress: the square [shape "a" rectangle 0 0 10 10] is the
    scene and the selection, and its bottom-right handle was pressed at
    [(10, 10)]. *)
Definition resizingCanvas : Canvas :=
  setInteractionState
    (mkInteraction m_resizing (Some Geometry.h_br) (mkPoint 10 10)
                   (Some (shape "a" rectangle 0 0 10 10)) None)
    (canvasWith [shape "a" rectangle 0 0 10 10] ["a"%string] []).

(** An erasure in progress over a scene of one element whose origin is
    [(130, 100)]; the eraser size is the initial 30 and the scale 1. *)
Definition erasingCanvas : Canvas :=
  setCurrentElement (Some (shape "e" eraser 0 0 0 0))
    (setInteractionState
       (mkInteraction m_drawing None (mkPoint 0 0) None None)
       (setTool eraser
          (canvasWith [shape "a" rectangle 130 100 10 10] [] []))).

(** The eraser chosen while the drawing mode is on and no element is in
    progress, as after a press and a release with the path tool (the
    release returns at line 1313 and leaves the mode) followed by a click
    on the eraser's button (lines 1410-1412: tool, selection and element in
    progress are set, the mode is not); the scene is one element whose
    origin is [(100, 100)]. *)
Definition idleEraserCanvas : Canvas :=
  setCurrentElement None
    (setInteractionState
       (mkInteraction m_drawing None (mkPoint 0 0) None None)
       (setTool eraser
          (canvasWith [shape "b" rectangle 100 100 10 10] [] []))).

(** A box selection in progress from [(0, 0)] to [(50, 50)] over a scene
    of a square inside the box and a square straddling its right side. *)
Definition boxSelectingCanvas : Canvas :=
  setSelectionBox (Some (mkPoint 0 0, mkPoint 50 50))
    (setInteractionState
       (mkInteraction m_selection_box None (mkPoint 0 0) None None)
       (canvasWith [shape "in" rectangle 10 10 20 20;
                    shape "across" rectangle 40 10 20 20] [] [])).

(** A box selection in progress from [(-5, -5)] to [(20, 20)] over two
    zones that bear the same identifier, as two elements added from outside
    can: one inside the box, one far from it. *)
Definition sharedIdCanvas : Canvas :=
  setSelectionBox (Some (mkPoint (-5) (-5), mkPoint 20 20))
    (setInteractionState
       (mkInteraction m_selection_box None (mkPoint (-5) (-5)) None None)
       (canvasWith [shape "z" rectangle 0 0 10 10;
                    shape "z" rectangle 100 100 10 10] [] [])).

(** The snapshots of a move are filed under the identifier of the element
    they are a snapshot of. *)
Definition keyedById (m : ElementMap) : Prop :=
  forall k v, mapGet k m = Some v -> id v = k.

(** The entry ratio a position marker is drawn and hit-tested with:
    [element.customData?.entryRatio ?? 0.5]. *)
Definition entryRatioOf (e : DrawingElement) : R :=
  match customData e with
  | Some c => match entryRatio c with Some r => r | None => 0.5 end
  | None => 0.5
  end.

(** No resize handle of a sole selected element is under the point: the
    condition on which a press with the selection tool goes on to look for
    an element under the pointer. *)
Definition noHandleUnder (c : Canvas) (x y : R) : Prop :=
  forall sel el,
    selectedElementIds c = [sel] ->
    find (fun el => String.eqb (id el) sel) (elements c) = Some el ->
    Geometry.getResizeHandleAtPosition (scale c) x y el = None.

(** A move in progress: the square [shape "a" rectangle 0 0 10 10] and a
    line are the scene, the square was pressed at [(5, 5)] and snapshotted. *)
Definition movingCanvas : Canvas :=
  setInteractionState
    (mkInteraction m_moving None (mkPoint 5 5) None
                   (Some [("a"%string, shape "a" rectangle 0 0 10 10)]))
    (canvasWith [shape "a" rectangle 0 0 10 10; shape "z" line 0 0 5 5]
                ["a"%string] []).

(** The pointer events the canvas receives while a path is built: moves,
    presses and releases, each handed to its handler. *)
Inductive PointerStep : Set :=
| Move (e : Interaction.MouseEvent)
| Press (e : Interaction.MouseEvent)
| Release (e : Interaction.MouseEvent).

Definition pointerStep (c : Canvas) (s : PointerStep) : Canvas :=
  match s with
  | Move e => Interaction.handleMouseMove c e
  | Press e => Interaction.handleMouseDown c e
  | Release e => Interaction.handleMouseUp c e
  end.

(** The presses of a run of events, and the condition that none of them is
    the second press of a double click. *)
Definition isPress (s : PointerStep) : bool :=
  match s with Press _ => true | _ => false end.

Definition singlePress (s : PointerStep) : Prop :=
  match s with Press e => Interaction.detail e <> 2%nat | _ => True end.

(** The state of a path in progress: the path tool in effect, the drawing
    mode, and a path element in progress with at least two points. *)
Definition building (c : Canvas) (cur : DrawingElement) (pts : list Point)
  : Prop :=
  effectiveTool c = path /\ mode (interactionState c) = m_drawing /\
  currentElement c = Some cur /\ type cur = path /\
  points cur = Some pts /\ (2 <= List.length pts)%nat.

(** The fields no pointer handler writes. *)
Definition untouched (c c' : Canvas) : Prop :=
  scale c' = scale c /\ clipboard c' = clipboard c /\
  eraserSize c' = eraserSize c /\ style c' = style c /\
  isDarkMode c' = isDarkMode c /\ lockTool c' = lockTool c /\
  isSpacePressed c' = isSpacePressed c.

(** * Properties *)

(** ** Comparisons and extrema of reals *)

Lemma Rltb_true (a b : R) : Rltb a b = true <-> a < b.
Proof. unfold Rltb; destruct (Rlt_dec a b); split; intros; try easy. Qed.

Lemma Rltb_false (a b : R) : Rltb a b = false <-> b <= a.
Proof.
  unfold Rltb; destruct (Rlt_dec a b); split; intros; try easy; lra.
Qed.

Lemma Rleb_true (a b : R) : Rleb a b = true <-> a <= b.
Proof. unfold Rleb; destruct (Rle_dec a b); split; intros; try easy. Qed.

Lemma Rleb_false (a b : R) : Rleb a b = false <-> b < a.
Proof.
  unfold Rleb; destruct (Rle_dec a b); split; intros; try easy; lra.
Qed.

(** Case analysis on every comparison, minimum, maximum and absolute value
    in sight, each case closed by linear arithmetic. *)
Ltac rcases :=
  unfold Rgtb, Rgeb, Rltb, Rleb, Rmin, Rmax, Rabs in *;
  repeat match goal with
         | |- context [Rlt_dec ?a ?b] => destruct (Rlt_dec a b)
         | |- context [Rle_dec ?a ?b] => destruct (Rle_dec a b)
         | |- context [Rcase_abs ?a] => destruct (Rcase_abs a)
         | H : context [Rlt_dec ?a ?b] |- _ => destruct (Rlt_dec a b)
         | H : context [Rle_dec ?a ?b] |- _ => destruct (Rle_dec a b)
         | H : context [Rcase_abs ?a] |- _ => destruct (Rcase_abs a)
         end;
  simpl in *; try discriminate; try lra.

(** Evaluation on numerals: minima and maxima first, then absolute values,
    then the comparisons, a branch being dropped as soon as arithmetic
    refutes it. *)
Ltac rdecide_le :=
  repeat match goal with
         | |- context [Rle_dec ?a ?b] =>
             destruct (Rle_dec a b); try (exfalso; lra)
         end.
Ltac rdecide_lt :=
  repeat match goal with
         | |- context [Rlt_dec ?a ?b] =>
             destruct (Rlt_dec a b); try (exfalso; lra)
         end.
Ltac rdecide_abs :=
  repeat match goal with
         | |- context [Rcase_abs ?a] =>
             destruct (Rcase_abs a); try (exfalso; lra)
         end.
Ltac reval :=
  unfold Rmin, Rmax; rdecide_le; simpl;
  unfold Rabs; rdecide_abs; simpl;
  unfold Rgtb, Rgeb, Rltb, Rleb; rdecide_lt; rdecide_le;
  simpl; try reflexivity; try lra.

Lemma minOf_shift (d a : R) (l : list R) :
  minOf (a + d) (map (fun v => v + d) l) = minOf a l + d.
Proof.
  unfold minOf. revert a.
  induction l as [|b l IH]; intros a; simpl; [reflexivity|].
  rewrite <- IH. f_equal. rcases.
Qed.

Lemma maxOf_shift (d a : R) (l : list R) :
  maxOf (a + d) (map (fun v => v + d) l) = maxOf a l + d.
Proof.
  unfold maxOf. revert a.
  induction l as [|b l IH]; intros a; simpl; [reflexivity|].
  rewrite <- IH. f_equal. rcases.
Qed.

Lemma minOf_le_start (a : R) (l : list R) : minOf a l <= a.
Proof.
  unfold minOf. revert a.
  induction l as [|b l IH]; intros a; simpl; [lra|].
  eapply Rle_trans; [apply IH|]. rcases.
Qed.

Lemma maxOf_ge_start (a : R) (l : list R) : a <= maxOf a l.
Proof.
  unfold maxOf. revert a.
  induction l as [|b l IH]; intros a; simpl; [lra|].
  eapply Rle_trans; [|apply IH]. rcases.
Qed.

(** The two spellings of "pencil or path" in the source agree. *)
Lemma isPointSeq_either_order (t : Tool) :
  isPointSeq t = Tool_beq t pencil || Tool_beq t path.
Proof. destruct t; reflexivity. Qed.

(** ** Geometry *)

Module GeometryFacts.

Import Geometry Interaction.

Lemma isBoxLike_not_pointSeq (t : Tool) :
  isBoxLike t = true -> isPointSeq t = false.
Proof. destruct t; simpl; intros H; try reflexivity; discriminate H. Qed.

Lemma normalize_size_nonneg (e : DrawingElement) :
  isBoxLike (type e) = true ->
  orZero (width e) < 0 \/ orZero (height e) < 0 ->
  width (normalizeElement e) = Some (Rabs (orZero (width e))) /\
  height (normalizeElement e) = Some (Rabs (orZero (height e))).
Proof.
  intros Hbox Hneg. unfold normalizeElement. rewrite Hbox.
  assert (Hb : Rltb (orZero (width e)) 0 || Rltb (orZero (height e)) 0 = true).
  { apply orb_true_iff. rewrite !Rltb_true. exact Hneg. }
  rewrite Hb. split; reflexivity.
Qed.

Lemma normalize_fixed_when_nonneg (e : DrawingElement) :
  0 <= orZero (width e) -> 0 <= orZero (height e) ->
  normalizeElement e = e.
Proof.
  intros Hw Hh. unfold normalizeElement.
  destruct (isBoxLike (type e)); [|reflexivity].
  assert (Hb : Rltb (orZero (width e)) 0 || Rltb (orZero (height e)) 0 = false).
  { apply orb_false_iff. rewrite !Rltb_false. split; assumption. }
  rewrite Hb. reflexivity.
Qed.

Lemma normalize_fixed_when_not_box (e : DrawingElement) :
  isBoxLike (type e) = false -> normalizeElement e = e.
Proof. intros Hbox. unfold normalizeElement. rewrite Hbox. reflexivity. Qed.

(** C6, as the code has it.  Normalising twice is normalising once, for
    every element.  A box-like element (rectangle, diamond, ellipse, image,
    position marker) with a negative width or height comes out with the
    absolute values of its width and height, which are not negative, its
    origin moved by each negative extent; the lower bounds [minX] and
    [minY] are those of the element, and the upper bounds are the new
    origin plus the new extents. *)
Theorem normalize_idempotent_nonnegative_keeps_lower_bounds :
  (forall e, normalizeElement (normalizeElement e) = normalizeElement e) /\
  (forall e,
      isBoxLike (type e) = true ->
      orZero (width e) < 0 \/ orZero (height e) < 0 ->
      let w := orZero (width e) in
      let h := orZero (height e) in
      let n := normalizeElement e in
      width n = Some (Rabs w) /\ height n = Some (Rabs h) /\
      0 <= Rabs w /\ 0 <= Rabs h /\
      x n = (if Rltb w 0 then x e + w else x e) /\
      y n = (if Rltb h 0 then y e + h else y e) /\
      minX (getElementBounds n) = minX (getElementBounds e) /\
      minY (getElementBounds n) = minY (getElementBounds e) /\
      maxX (getElementBounds n) = x n + Rabs w /\
      maxY (getElementBounds n) = y n + Rabs h).
Proof.
  split.
  - intros e.
    destruct (Rle_dec 0 (orZero (width e))) as [Hw|Hw];
      [destruct (Rle_dec 0 (orZero (height e))) as [Hh|Hh]|].
    + rewrite !(normalize_fixed_when_nonneg e Hw Hh). reflexivity.
    + destruct (isBoxLike (type e)) eqn:Hbox.
      * destruct (normalize_size_nonneg e Hbox) as [Ew Eh]; [right; lra|].
        apply normalize_fixed_when_nonneg.
        -- rewrite Ew. simpl. apply Rabs_pos.
        -- rewrite Eh. simpl. apply Rabs_pos.
      * rewrite !(normalize_fixed_when_not_box e Hbox). reflexivity.
    + destruct (isBoxLike (type e)) eqn:Hbox.
      * destruct (normalize_size_nonneg e Hbox) as [Ew Eh]; [left; lra|].
        apply normalize_fixed_when_nonneg.
        -- rewrite Ew. simpl. apply Rabs_pos.
        -- rewrite Eh. simpl. apply Rabs_pos.
      * rewrite !(normalize_fixed_when_not_box e Hbox). reflexivity.
  - intros e Hbox Hneg. cbv zeta.
    assert (Hb : Rltb (orZero (width e)) 0
                 || Rltb (orZero (height e)) 0 = true).
    { apply orb_true_iff. rewrite !Rltb_true. exact Hneg. }
    assert (Hn : normalizeElement e
                 = withSize (Some (Rabs (orZero (width e))))
                            (Some (Rabs (orZero (height e))))
                     (withOrigin
                        (if Rltb (orZero (width e)) 0
                         then x e + orZero (width e) else x e)
                        (if Rltb (orZero (height e)) 0
                         then y e + orZero (height e) else y e) e)).
    { unfold normalizeElement. rewrite Hbox, Hb. reflexivity. }
    rewrite Hn. unfold getElementBounds.
    cbn [type withSize withOrigin x y width height orZero].
    rewrite (isBoxLike_not_pointSeq _ Hbox).
    cbn [minX maxX minY maxY].
    pose proof (Rabs_pos (orZero (width e))) as Pw.
    pose proof (Rabs_pos (orZero (height e))) as Ph.
    repeat split; try assumption; try reflexivity; rcases.
Qed.

Lemma bounds_of_shape (e : DrawingElement) :
  isPointSeq (type e) = false ->
  getElementBounds e =
  mkBounds (Rmin (x e) (x e + orZero (width e)))
           (Rmax (x e) (x e + orZero (width e)))
           (Rmin (y e) (y e + orZero (height e)))
           (Rmax (y e) (y e + orZero (height e))).
Proof. intros H. unfold getElementBounds. rewrite H. reflexivity. Qed.

Lemma moveBy_pointSeq (dx dy : R) (e : DrawingElement) :
  isPointSeq (type e) = true ->
  moveBy dx dy e =
  withPoints
    (option_map (map (fun p => mkPoint (px p + dx) (py p + dy))) (points e))
    (withOrigin (x e + dx) (y e + dy) e).
Proof.
  intros H. unfold moveBy. simpl.
  rewrite <- isPointSeq_either_order, H.
  destruct e as [i t ex ey w h [ps|] cd a]; reflexivity.
Qed.

Lemma moveBy_shape (dx dy : R) (e : DrawingElement) :
  isPointSeq (type e) = false ->
  moveBy dx dy e = withOrigin (x e + dx) (y e + dy) e.
Proof.
  intros H. unfold moveBy. simpl.
  rewrite <- isPointSeq_either_order, H.
  reflexivity.
Qed.

(** C9, as the code has it.  Translating an element by [(dx, dy)] (its
    origin and, for pencil and path, every point: the translation the move
    gesture applies) translates each of the four bounds of a pencil or path
    element by the same amounts.  The bounds of any other element are
    computed anew from the translated origin and the extent: the bound on
    the side of the origin (the lower one for an extent that is not
    negative, the upper one for an extent that is not positive) is the old
    one translated, the opposite bound is the translated origin plus the
    extent. *)
Theorem bounds_follow_translation (e : DrawingElement) (dx dy : R) :
  (isPointSeq (type e) = true ->
   getElementBounds (moveBy dx dy e) =
   mkBounds (minX (getElementBounds e) + dx) (maxX (getElementBounds e) + dx)
            (minY (getElementBounds e) + dy)
            (maxY (getElementBounds e) + dy)) /\
  (isPointSeq (type e) = false ->
   let w := orZero (width e) in
   let h := orZero (height e) in
   let b := getElementBounds e in
   let b' := getElementBounds (moveBy dx dy e) in
   b' = mkBounds (Rmin (x e + dx) (x e + dx + w))
                 (Rmax (x e + dx) (x e + dx + w))
                 (Rmin (y e + dy) (y e + dy + h))
                 (Rmax (y e + dy) (y e + dy + h)) /\
   (0 <= w -> minX b' = minX b + dx) /\ (w <= 0 -> maxX b' = maxX b + dx) /\
   (0 <= h -> minY b' = minY b + dy) /\ (h <= 0 -> maxY b' = maxY b + dy)).
Proof.
  split; intros Hseq.
  - rewrite (moveBy_pointSeq dx dy e Hseq).
    unfold getElementBounds. simpl. rewrite Hseq.
    destruct (points e) as [[|p ps]|]; simpl; try reflexivity.
    rewrite !map_map. simpl.
    rewrite <- (map_map px (fun v => v + dx)), <- (map_map py (fun v => v + dy)).
    rewrite !minOf_shift, !maxOf_shift. reflexivity.
  - cbv zeta. rewrite (moveBy_shape dx dy e Hseq).
    rewrite !bounds_of_shape by (simpl; assumption).
    cbn [x y width height withOrigin minX maxX minY maxY].
    split; [reflexivity|]. repeat split; intros Hsign; rcases.
Qed.

(** A pencil stroke through [(1, 2)] and [(5, 3)], translated by
    [(10, 20)]. *)
Lemma bounds_of_translated_stroke :
  getElementBounds
    (moveBy 10 20
       (mkElement "p" pencil 1 2 None None
                  (Some [mkPoint 1 2; mkPoint 5 3]) None plainAttrs))
  = mkBounds
      (minX (getElementBounds
               (mkElement "p" pencil 1 2 None None
                          (Some [mkPoint 1 2; mkPoint 5 3]) None plainAttrs))
       + 10)
      (maxX (getElementBounds
               (mkElement "p" pencil 1 2 None None
                          (Some [mkPoint 1 2; mkPoint 5 3]) None plainAttrs))
       + 10)
      (minY (getElementBounds
               (mkElement "p" pencil 1 2 None None
                          (Some [mkPoint 1 2; mkPoint 5 3]) None plainAttrs))
       + 20)
      (maxY (getElementBounds
               (mkElement "p" pencil 1 2 None None
                          (Some [mkPoint 1 2; mkPoint 5 3]) None plainAttrs))
       + 20).
Proof.
  apply (proj1 (bounds_follow_translation
                  (mkElement "p" pencil 1 2 None None
                             (Some [mkPoint 1 2; mkPoint 5 3]) None
                             plainAttrs) 10 20)).
  reflexivity.
Defined.

(** C10.  A pencil or path element whose point sequence is absent or empty
    has the degenerate bounds at its origin; and the bounds of every
    element are ordered ([minX <= maxX], [minY <= maxY]), which the pair of
    an empty minimum and an empty maximum would not be. *)
Theorem bounds_of_empty_point_sequence :
  (forall e,
      isPointSeq (type e) = true ->
      points e = None \/ points e = Some [] ->
      getElementBounds e = mkBounds (x e) (x e) (y e) (y e)) /\
  (forall e,
      minX (getElementBounds e) <= maxX (getElementBounds e) /\
      minY (getElementBounds e) <= maxY (getElementBounds e)).
Proof.
  split.
  - intros e Hseq [Hp|Hp]; unfold getElementBounds; rewrite Hseq, Hp;
      reflexivity.
  - intros e. unfold getElementBounds.
    destruct (isPointSeq (type e)).
    + destruct (points e) as [[|p ps]|]; simpl; try lra.
      split.
      * eapply Rle_trans; [apply minOf_le_start|apply maxOf_ge_start].
      * eapply Rle_trans; [apply minOf_le_start|apply maxOf_ge_start].
    + simpl. split; rcases.
Qed.

Lemma resize_handle_is_first_hit (scale x y : R) (e : DrawingElement) :
  isBoxLike (type e) = true ->
  getResizeHandleAtPosition scale x y e =
  option_map fst
    (find (fun hc => near (HANDLE_SIZE / 2 / scale) x y
                          (px (snd hc)) (py (snd hc)))
          (handlesOf e)).
Proof.
  intros Hbox. unfold getResizeHandleAtPosition, handlesOf, elX, elY.
  rewrite Hbox. simpl.
  repeat match goal with
         | |- context [near ?r ?a ?b ?c ?d] =>
             destruct (near r a b c d); [reflexivity|]
         end;
    destruct (isPosition (type e)); simpl; try reflexivity.
  repeat match goal with
         | |- context [near ?r ?a ?b ?c ?d] =>
             destruct (near r a b c d); [reflexivity|]
         end.
  reflexivity.
Qed.

Lemma near_withinBox (r x y : R) (c : Point) :
  near r x y (px c) (py c) = true <-> withinBox r x y c.
Proof.
  unfold near, withinBox. rewrite andb_true_iff, !Rltb_true. reflexivity.
Qed.

Lemma handle_radius_is_four (scale : R) : HANDLE_SIZE / 2 / scale = 4 / scale.
Proof. unfold HANDLE_SIZE. lra. Qed.

(** C8, as the code has it, at a positive scale (the view keeps it within
    [0.1, 5]).  On a kind that is not box-like no handle is reported,
    wherever the point is.  On a box-like element a handle is
    reported exactly when the point lies within the hit box of one of the
    element's handles, the square of half-side [(HANDLE_SIZE / 2) / scale],
    that is 4 screen pixels over the scale, around the handle's centre, the
    sides excluded; the handle reported is the first, in the order top-left,
    top-right, bottom-left, bottom-right, north, south, entry, whose box
    holds the point. *)
Theorem resize_handle_reported_iff_within_four_px
        (scale x y : R) (e : DrawingElement) :
  0 < scale ->
  (isBoxLike (type e) = false ->
   getResizeHandleAtPosition scale x y e = None) /\
  (isBoxLike (type e) = true ->
   getResizeHandleAtPosition scale x y e
   = option_map fst
       (find (fun hc => near (4 / scale) x y (px (snd hc)) (py (snd hc)))
             (handlesOf e)) /\
   (forall h, getResizeHandleAtPosition scale x y e = Some h ->
              exists c, In (h, c) (handlesOf e) /\
                        withinBox (4 / scale) x y c) /\
   ((exists h c, In (h, c) (handlesOf e) /\ withinBox (4 / scale) x y c) <->
    (exists h, getResizeHandleAtPosition scale x y e = Some h))).
Proof.
  intros _. split.
  - intros Hbox. unfold getResizeHandleAtPosition. rewrite Hbox. reflexivity.
  - intros Hbox. rewrite (resize_handle_is_first_hit scale x y e Hbox).
    rewrite handle_radius_is_four.
    assert (Hsome : forall h,
               option_map fst
                 (find (fun hc => near (4 / scale) x y
                                       (px (snd hc)) (py (snd hc)))
                       (handlesOf e)) = Some h ->
               exists c, In (h, c) (handlesOf e) /\
                         withinBox (4 / scale) x y c).
    { intros h Hh.
      destruct (find _ (handlesOf e)) as [[h' c]|] eqn:Hfind;
        [|discriminate].
      simpl in Hh. injection Hh as ->.
      apply find_some in Hfind. destruct Hfind as [Hin Hnear].
      exists c. split; [exact Hin|]. apply near_withinBox. exact Hnear. }
    split; [reflexivity|]. split; [exact Hsome|]. split.
    + intros (h & c & Hin & Hwithin).
      destruct (find _ (handlesOf e)) as [[h' c']|] eqn:Hfind.
      * exists h'. reflexivity.
      * exfalso. pose proof (find_none _ _ Hfind _ Hin) as Hno.
        simpl in Hno. apply near_withinBox in Hwithin. congruence.
    + intros [h Hh]. destruct (Hsome h Hh) as [c Hc]. exists h, c. exact Hc.
Qed.

(** C8, the claim as written fails: on a square of side 100 at the origin,
    at scale 1, the point [(5, 0)] is within 8 pixels of the centre of the
    top-left handle, on each axis and in straight-line distance, and no
    handle is reported there. *)
Lemma handle_not_reported_within_eight_px :
  exists c,
    In (h_tl, c) (handlesOf (shape "a" rectangle 0 0 100 100)) /\
    withinBox (8 / 1) 5 0 c /\
    sqrt ((5 - px c) ^ 2 + (0 - py c) ^ 2) < 8 / 1 /\
    getResizeHandleAtPosition 1 5 0 (shape "a" rectangle 0 0 100 100) = None.
Proof.
  exists (mkPoint (Rmin 0 (0 + 100)) (Rmin 0 (0 + 100))).
  split; [left; reflexivity|]. split; [|split].
  - unfold withinBox. simpl. split; reval.
  - simpl. replace (Rmin 0 (0 + 100)) with 0 by reval.
    replace ((5 - 0) * ((5 - 0) * 1) + (0 - 0) * ((0 - 0) * 1))
      with (5 * 5) by lra.
    rewrite sqrt_square; lra.
  - unfold getResizeHandleAtPosition, near, HANDLE_SIZE, elX, elY. simpl.
    reval.
Qed.

(** The scenario of the rectangle drawn from [(50, 50)] back to
    [(10, 10)]: normalisation keeps its lower bounds. *)
Lemma normalize_keeps_lower_bounds_of_backward_rectangle :
  minX (getElementBounds
          (normalizeElement (shape "r" rectangle 50 50 (-40) (-40))))
  = minX (getElementBounds (shape "r" rectangle 50 50 (-40) (-40))) /\
  minY (getElementBounds
          (normalizeElement (shape "r" rectangle 50 50 (-40) (-40))))
  = minY (getElementBounds (shape "r" rectangle 50 50 (-40) (-40))).
Proof.
  destruct (proj2 normalize_idempotent_nonnegative_keeps_lower_bounds
                  (shape "r" rectangle 50 50 (-40) (-40)))
    as (_ & _ & _ & _ & _ & _ & Hx & Hy & _).
  - reflexivity.
  - left. simpl. lra.
  - split; [exact Hx|exact Hy].
Defined.

Example normalize_backward_rectangle :
  let r := normalizeElement (shape "r" rectangle 50 50 (-40) (-40)) in
  x r = 10 /\ y r = 10 /\ width r = Some 40 /\ height r = Some 40.
Proof.
  unfold normalizeElement. simpl. unfold Rltb.
  destruct (Rlt_dec (-40) 0) as [_|H]; [|exfalso; lra]. simpl.
  unfold Rabs. destruct (Rcase_abs (-40)) as [_|H]; [|exfalso; lra].
  repeat split; try lra; f_equal; lra.
Qed.

(** A pencil stroke with an empty point array, at [(3, 4)]. *)
Lemma bounds_of_pointless_pencil :
  getElementBounds
    (mkElement "p" pencil 3 4 None None (Some []) None plainAttrs)
  = mkBounds 3 3 4 4.
Proof.
  apply (proj1 bounds_of_empty_point_sequence
               (mkElement "p" pencil 3 4 None None (Some []) None plainAttrs)).
  - reflexivity.
  - right. reflexivity.
Defined.

(** One pixel inside the top-left corner of a square, a handle is
    reported. *)
Lemma handle_reported_near_corner :
  exists h,
    getResizeHandleAtPosition 1 1 1 (shape "a" rectangle 0 0 100 100)
    = Some h.
Proof.
  apply (proj2 (proj2 (resize_handle_reported_iff_within_four_px
                         1 1 1 (shape "a" rectangle 0 0 100 100) Rlt_0_1)
                      eq_refl)).
  exists h_tl, (mkPoint (Rmin 0 (0 + 100)) (Rmin 0 (0 + 100))).
  split; [left; reflexivity|].
  unfold withinBox. simpl. split; reval.
Defined.

End GeometryFacts.

(** ** The geometry in binary64 *)

Module RoundingFacts.

Import Floats Doubles.

(** A decimal numeral denotes the nearest binary64 number, as it does in
    the program. *)
Local Open Scope float_scope.
Local Set Warnings "-inexact-float".

(** C6, the claim as written fails on the numbers the program computes
    with: the rectangle with origin 0.9 and width -0.2 has the upper bound
    0.9, and once normalized, with origin 0.9 + -0.2 and width 0.2, the
    upper bound (0.9 + -0.2) + 0.2, a different number.  (A rectangle
    drawn leftwards at scale 1.1 meets the same rounding.) *)
Lemma normalize_changes_upper_bound_in_binary64 :
  let e := mkElement "r" rectangle 0.9 0 (Some (-0.2)) (Some (-0.2)) None in
  maxX (getElementBounds e) = 0.9 /\
  maxX (getElementBounds (normalizeElement e)) = 0.8999999999999999 /\
  PrimFloat.eqb (maxX (getElementBounds (normalizeElement e)))
                (maxX (getElementBounds e)) = false.
Proof. repeat split; vm_compute; reflexivity. Qed.

(** C9, the claim as written fails on the numbers the program computes
    with: the rectangle with origin 1.1 and width 0.2 has the upper bound
    1.1 + 0.2; translated by 3.3 it has the upper bound (1.1 + 3.3) + 0.2,
    which is not (1.1 + 0.2) + 3.3. *)
Lemma translated_upper_bound_differs_in_binary64 :
  let e := mkElement "r" rectangle 1.1 0 (Some 0.2) (Some 0) None in
  maxX (getElementBounds (moveBy 3.3 0 e)) = 4.6000000000000005 /\
  maxX (getElementBounds e) + 3.3 = 4.6 /\
  PrimFloat.eqb (maxX (getElementBounds (moveBy 3.3 0 e)))
                (maxX (getElementBounds e) + 3.3) = false.
Proof. repeat split; vm_compute; reflexivity. Qed.

End RoundingFacts.

(** ** History *)

Module HistoryFacts.

Import History.

Lemma push_fields (s : list DrawingElement) (c : Canvas) :
  history (pushToHistory s c) = firstn (historyIndex c + 1) (history c) ++ [s] /\
  historyIndex (pushToHistory s c)
  = List.length (firstn (historyIndex c + 1) (history c)) /\
  elements (pushToHistory s c) = elements c /\
  selectedElementIds (pushToHistory s c) = selectedElementIds c.
Proof.
  unfold pushToHistory. simpl.
  repeat split. rewrite length_app. simpl. lia.
Qed.

Lemma push_index_wf (s : list DrawingElement) (c : Canvas) :
  historyWellFormed c ->
  historyIndex (pushToHistory s c) = (historyIndex c + 1)%nat /\
  List.length (history (pushToHistory s c)) = (historyIndex c + 2)%nat.
Proof.
  unfold historyWellFormed. intros Hwf.
  destruct (push_fields s c) as (Hh & Hi & _).
  rewrite Hh, Hi, length_app, length_firstn. simpl. lia.
Qed.

Lemma push_wf (s : list DrawingElement) (c : Canvas) :
  historyWellFormed (pushToHistory s c).
Proof.
  unfold historyWellFormed.
  destruct (push_fields s c) as (Hh & Hi & _).
  rewrite Hh, Hi, length_app. simpl. lia.
Qed.

Lemma undo_moves (c : Canvas) :
  (0 < historyIndex c)%nat ->
  historyIndex (undo c) = (historyIndex c - 1)%nat /\
  history (undo c) = history c /\
  elements (undo c) = snapshotAt (historyIndex c - 1) c /\
  selectedElementIds (undo c) = [].
Proof.
  intros Hpos. unfold undo.
  apply Nat.ltb_lt in Hpos. rewrite Hpos. repeat split.
Qed.

Lemma redo_moves (c : Canvas) :
  (historyIndex c < List.length (history c) - 1)%nat ->
  historyIndex (redo c) = (historyIndex c + 1)%nat /\
  history (redo c) = history c /\
  elements (redo c) = snapshotAt (historyIndex c + 1) c /\
  selectedElementIds (redo c) = [].
Proof.
  intros Hlt. unfold redo.
  apply Nat.ltb_lt in Hlt. rewrite Hlt. repeat split.
Qed.

Lemma undo_at_bottom (c : Canvas) : historyIndex c = 0%nat -> undo c = c.
Proof. intros H. unfold undo. rewrite H. reflexivity. Qed.

Lemma redo_at_top (c : Canvas) :
  (List.length (history c) - 1 <= historyIndex c)%nat -> redo c = c.
Proof.
  intros H. unfold redo.
  apply Nat.ltb_ge in H. rewrite H. reflexivity.
Qed.

(** The invariant holds initially and every operation keeps it, the
    handlers' [setElements(s); pushToHistory(s)] included. *)
Lemma history_invariant :
  (forall dark, historyWellFormed (initialCanvas dark)) /\
  (forall s c, historyWellFormed (pushToHistory s c)) /\
  (forall s c, historyWellFormed (commit s c)) /\
  (forall c, historyWellFormed c -> historyWellFormed (undo c)) /\
  (forall c, historyWellFormed c -> historyWellFormed (redo c)).
Proof.
  repeat split.
  - intros dark. unfold historyWellFormed. simpl. lia.
  - apply push_wf.
  - intros s c. apply push_wf.
  - intros c Hwf. unfold historyWellFormed in *.
    destruct (Nat.eq_dec (historyIndex c) 0) as [E|E].
    + rewrite (undo_at_bottom c E). exact Hwf.
    + destruct (undo_moves c) as (Hi & Hh & _); [lia|]. rewrite Hi, Hh. lia.
  - intros c Hwf. unfold historyWellFormed in *.
    destruct (Nat.lt_ge_cases (historyIndex c) (List.length (history c) - 1))
      as [L|G].
    + destruct (redo_moves c L) as (Hi & Hh & _). rewrite Hi, Hh. lia.
    + rewrite (redo_at_top c G). exact Hwf.
Qed.

(** The two snapshots on top of the stack after [pushToHistory s1;
    pushToHistory s2], and the one below them. *)
Lemma two_pushes (s1 s2 : list DrawingElement) (c : Canvas) :
  historyWellFormed c ->
  let c2 := pushToHistory s2 (pushToHistory s1 c) in
  historyIndex c2 = (historyIndex c + 2)%nat /\
  List.length (history c2) = (historyIndex c + 3)%nat /\
  nth (historyIndex c + 2) (history c2) [] = s2 /\
  nth (historyIndex c + 1) (history c2) [] = s1 /\
  nth (historyIndex c) (history c2) [] = nth (historyIndex c) (history c) [].
Proof.
  intros Hwf c2.
  pose proof (push_wf s1 c) as Hwf1.
  destruct (push_index_wf s1 c Hwf) as (Hi1 & Hl1).
  destruct (push_index_wf s2 (pushToHistory s1 c) Hwf1) as (Hi2 & Hl2).
  destruct (push_fields s1 c) as (Hh1 & _).
  destruct (push_fields s2 (pushToHistory s1 c)) as (Hh2 & _).
  fold c2 in Hi2, Hl2, Hh2.
  assert (Hfull : firstn (historyIndex (pushToHistory s1 c) + 1)
                         (history (pushToHistory s1 c)) = history (pushToHistory s1 c)).
  { apply firstn_all2. lia. }
  rewrite Hfull, Hh1 in Hh2.
  assert (Hlen : List.length (firstn (historyIndex c + 1) (history c))
                 = (historyIndex c + 1)%nat).
  { unfold historyWellFormed in Hwf. rewrite length_firstn. lia. }
  repeat split; try lia.
  - rewrite Hh2.
    rewrite app_nth2; rewrite length_app; simpl; rewrite Hlen; [|lia].
    replace (historyIndex c + 2 - (historyIndex c + 1 + 1))%nat with 0%nat
      by lia.
    reflexivity.
  - rewrite Hh2.
    rewrite app_nth1 by (rewrite length_app; simpl; lia).
    rewrite app_nth2 by lia. rewrite Hlen.
    replace (historyIndex c + 1 - (historyIndex c + 1))%nat with 0%nat by lia.
    reflexivity.
  - rewrite Hh2.
    rewrite app_nth1 by (rewrite length_app; simpl; lia).
    rewrite app_nth1 by lia.
    rewrite nth_firstn.
    replace (historyIndex c <? historyIndex c + 1)%nat with true
      by (symmetry; apply Nat.ltb_lt; lia).
    reflexivity.
Qed.

(** C5.  From a history whose index points at a snapshot: after
    [pushToHistory s1; pushToHistory s2; undo; redo] the live scene is
    [s2]; after [pushToHistory s1; pushToHistory s2; undo; undo] the live
    scene is the snapshot that
    was current before [s1], the index is back where it was, and, when that
    is the bottom of the stack, one more [undo] changes nothing.  In any
    state an [undo] at index 0 and a [redo] at the last index return the
    state unchanged, and an [undo] or [redo] that moves the index leaves
    the selection empty. *)
Theorem history_round_trip (c : Canvas) (s1 s2 : list DrawingElement) :
  historyWellFormed c ->
  elements (redo (undo (pushToHistory s2 (pushToHistory s1 c)))) = s2 /\
  elements (undo (undo (pushToHistory s2 (pushToHistory s1 c))))
  = snapshotAt (historyIndex c) c /\
  historyIndex (undo (undo (pushToHistory s2 (pushToHistory s1 c)))) = historyIndex c /\
  (historyIndex c = 0%nat ->
   undo (undo (undo (pushToHistory s2 (pushToHistory s1 c))))
   = undo (undo (pushToHistory s2 (pushToHistory s1 c)))) /\
  (forall k, historyIndex k = 0%nat -> undo k = k) /\
  (forall k, historyIndex k = (List.length (history k) - 1)%nat ->
             redo k = k) /\
  (forall k, historyIndex (undo k) <> historyIndex k ->
             selectedElementIds (undo k) = []) /\
  (forall k, historyIndex (redo k) <> historyIndex k ->
             selectedElementIds (redo k) = []).
Proof.
  intros Hwf.
  destruct (two_pushes s1 s2 c Hwf) as (Hi & Hl & Hs2 & Hs1 & Hs0).
  set (c2 := pushToHistory s2 (pushToHistory s1 c)) in *.
  destruct (undo_moves c2) as (Hi3 & Hh3 & He3 & _); [lia|].
  assert (Hundo2 : historyIndex (undo (undo c2)) = historyIndex c /\
                   elements (undo (undo c2)) = snapshotAt (historyIndex c) c).
  { destruct (undo_moves (undo c2)) as (Hi4 & Hh4 & He4 & _); [lia|].
    split; [lia|].
    rewrite He4. unfold snapshotAt. rewrite Hh3, Hi3.
    replace (historyIndex c2 - 1 - 1)%nat with (historyIndex c) by lia.
    exact Hs0. }
  split; [|split; [|split; [|split; [|split; [|split; [|split]]]]]].
  - destruct (redo_moves (undo c2)) as (_ & _ & He & _);
      [rewrite Hi3, Hh3; lia|].
    rewrite He. unfold snapshotAt. rewrite Hh3, Hi3.
    replace (historyIndex c2 - 1 + 1)%nat with (historyIndex c + 2)%nat
      by lia.
    exact Hs2.
  - apply Hundo2.
  - apply Hundo2.
  - intros Hzero. apply undo_at_bottom.
    destruct Hundo2 as [E _]. lia.
  - apply undo_at_bottom.
  - intros k Hk. apply redo_at_top. lia.
  - intros k Hk. unfold undo in *.
    destruct (0 <? historyIndex k)%nat; [reflexivity|congruence].
  - intros k Hk. unfold redo in *.
    destruct (historyIndex k <? List.length (history k) - 1)%nat;
      [reflexivity|congruence].
Qed.

(** The round trip on the freshly mounted canvas. *)
Lemma history_round_trip_on_initial_canvas :
  let s1 := [shape "a" rectangle 0 0 1 1] in
  let s2 := [shape "a" rectangle 0 0 1 1; shape "b" ellipse 2 2 1 1] in
  let c2 := pushToHistory s2 (pushToHistory s1 (initialCanvas false)) in
  elements (redo (undo c2)) = s2 /\
  elements (undo (undo c2)) = [] /\
  undo (undo (undo c2)) = undo (undo c2).
Proof.
  intros s1 s2 c2.
  assert (Hwf : historyWellFormed (initialCanvas false))
    by (unfold historyWellFormed; simpl; lia).
  destruct (history_round_trip (initialCanvas false) s1 s2 Hwf)
    as (H1 & H2 & _ & H4 & _).
  split; [exact H1|]. split; [exact H2|]. apply H4. reflexivity.
Defined.

End HistoryFacts.

(** ** Clipboard *)

Module ClipboardFacts.

Import Clipboard Interaction.


Lemma pasteItem_is_move (offset : R) (newId : string) (item : DrawingElement) :
  pasteItem offset newId item = withId newId (moveBy offset offset item).
Proof.
  unfold pasteItem, moveBy. simpl.
  rewrite <- isPointSeq_either_order.
  destruct (isPointSeq (type item)); [|reflexivity].
  destruct (points item); reflexivity.
Qed.

Lemma pasteAll_spec (src : IdSource) (offset : R)
      (items : list DrawingElement) (i : nat) :
  fst (pasteAll src offset i items)
  = map (pastedId src) (seq i (List.length items)) /\
  map id (snd (pasteAll src offset i items))
  = fst (pasteAll src offset i items) /\
  List.length (snd (pasteAll src offset i items)) = List.length items /\
  (forall j item,
      nth_error items j = Some item ->
      nth_error (snd (pasteAll src offset i items)) j
      = Some (withId (pastedId src (i + j)) (moveBy offset offset item))).
Proof.
  revert i. induction items as [|a items IH]; intros i; simpl.
  - repeat split. intros [|j] item H; discriminate H.
  - destruct (IH (S i)) as (Hids & Hmap & Hlen & Hnth).
    repeat split.
    + rewrite Hids. reflexivity.
    + rewrite Hmap. unfold pasteItem. simpl.
      destruct (isPointSeq (type a)); [destruct (points a)|]; reflexivity.
    + rewrite Hlen. reflexivity.
    + intros [|j] item H; simpl in *.
      * injection H as ->. rewrite pasteItem_is_move.
        rewrite Nat.add_0_r. reflexivity.
      * rewrite (Hnth j item H). rewrite Nat.add_succ_r. reflexivity.
Qed.

(** C7, as the code has it.  At a positive scale, pasting a non-empty
    clipboard of [k] elements appends exactly [k] elements to the scene, the
    [i]-th being the [i]-th clipboard element translated by
    [(20 / scale, 20 / scale)] (every point too, for pencil and path) under
    the identifier drawn for it (clock reading followed by random suffix,
    taken as drawn); the selection becomes exactly the [k] new identifiers
    and the new scene is committed.  Pasting an empty clipboard changes
    nothing. *)
Theorem paste_appends_translated_copies (src : IdSource) (c : Canvas) :
  (0 < scale c -> clipboard c <> [] ->
   exists pasted,
     elements (handlePaste src c) = elements c ++ pasted /\
     List.length pasted = List.length (clipboard c) /\
     (forall i item,
         nth_error (clipboard c) i = Some item ->
         nth_error pasted i
         = Some (withId (pastedId src i)
                        (moveBy (20 / scale c) (20 / scale c) item))) /\
     map id pasted
     = map (pastedId src) (seq 0 (List.length (clipboard c))) /\
     selectedElementIds (handlePaste src c) = map id pasted /\
     History.snapshotAt (historyIndex (handlePaste src c)) (handlePaste src c)
     = elements c ++ pasted) /\
  (clipboard c = [] -> handlePaste src c = c).
Proof.
  split.
  - intros _ Hne.
    destruct (pasteAll_spec src (20 / scale c) (clipboard c) 0)
      as (Hids & Hmap & Hlen & Hnth).
    exists (snd (pasteAll src (20 / scale c) 0 (clipboard c))).
    assert (Hpos : (0 <? List.length (clipboard c))%nat = true).
    { apply Nat.ltb_lt. destruct (clipboard c); [congruence|simpl; lia]. }
    unfold handlePaste. rewrite Hpos. simpl.
    split; [reflexivity|]. split; [exact Hlen|].
    split; [exact Hnth|]. split; [rewrite Hmap; exact Hids|].
    split; [symmetry; exact Hmap|].
    unfold History.snapshotAt. simpl.
    rewrite length_app. simpl.
    rewrite app_nth2 by lia.
    replace (List.length (firstn (historyIndex c + 1) (history c)) + 1 - 1
             - List.length (firstn (historyIndex c + 1) (history c)))%nat
      with 0%nat by lia.
    reflexivity.
  - intros Hempty. unfold handlePaste. rewrite Hempty. reflexivity.
Qed.

(** C7, the claim as written fails twice.  When the clock and the random
    suffix answer the same strings for two items, the two pasted copies
    carry the same identifier; and pasting an empty clipboard leaves a
    non-empty selection as it is. *)
Lemma paste_ids_collide_and_empty_paste_keeps_selection :
  map id
      (elements
         (handlePaste stuckSource
            (canvasWith [] []
               [shape "a" rectangle 0 0 1 1; shape "b" ellipse 5 5 1 1])))
  = ["1700000000000k3x9q"%string; "1700000000000k3x9q"%string] /\
  selectedElementIds
    (handlePaste stuckSource
       (canvasWith [shape "a" rectangle 0 0 1 1] ["a"%string] []))
  = ["a"%string].
Proof. split; reflexivity. Qed.

(** Pasting a clipboard of two elements into a scene of one. *)
Lemma paste_of_two_appends_two :
  exists pasted,
    elements
      (handlePaste stuckSource
         (canvasWith [shape "z" line 0 0 1 1] []
            [shape "a" rectangle 0 0 1 1; shape "b" ellipse 5 5 1 1]))
    = [shape "z" line 0 0 1 1] ++ pasted /\
    List.length pasted = 2%nat.
Proof.
  destruct (proj1 (paste_appends_translated_copies stuckSource
                     (canvasWith [shape "z" line 0 0 1 1] []
                        [shape "a" rectangle 0 0 1 1;
                         shape "b" ellipse 5 5 1 1])))
    as (pasted & Hels & Hlen & _).
  - simpl. lra.
  - discriminate.
  - exists pasted. split; [exact Hels|exact Hlen].
Defined.

End ClipboardFacts.

(** ** Pointer handlers *)

Module InteractionFacts.

Import Geometry Interaction.

Lemma uniqueFrom_spec (l seen : list string) :
  (forall i, In i (uniqueFrom seen l) <-> In i l /\ ~ In i seen) /\
  NoDup (uniqueFrom seen l).
Proof.
  revert seen. induction l as [|a l IH]; intros seen; simpl.
  - split; [intros i; tauto|constructor].
  - destruct (existsb (String.eqb a) seen) eqn:Hseen.
    + destruct (IH seen) as [Hin Hnd]. split; [|exact Hnd].
      intros i. rewrite Hin.
      apply existsb_exists in Hseen. destruct Hseen as (b & Hb & Hab).
      apply String.eqb_eq in Hab. subst b.
      split; [tauto|]. intros [[->|Hi] Hn]; [contradiction|tauto].
    + destruct (IH (a :: seen)) as [Hin Hnd].
      assert (Hnot : ~ In a seen).
      { intros Ha. rewrite <- not_true_iff_false in Hseen. apply Hseen.
        apply existsb_exists. exists a. split; [exact Ha|].
        apply String.eqb_refl. }
      split.
      * intros i. simpl. rewrite Hin. simpl.
        destruct (string_dec a i) as [->|Hne]; [tauto|].
        split; [tauto|]. intros [[E|Hi] Hn]; [contradiction|tauto].
      * constructor; [|exact Hnd].
        rewrite Hin. simpl. tauto.
Qed.

Lemma unique_spec (l : list string) :
  (forall i, In i (unique l) <-> In i l) /\ NoDup (unique l).
Proof.
  destruct (uniqueFrom_spec l []) as [Hin Hnd]. split; [|exact Hnd].
  intros i. unfold unique. rewrite Hin. simpl. tauto.
Qed.

Lemma insideBox_boundsWithin (start current : Point) (el : DrawingElement) :
  insideBox start current el = true <-> boundsWithin start current el.
Proof.
  unfold insideBox, boundsWithin, Rgeb.
  rewrite !andb_true_iff, !Rleb_true. tauto.
Qed.

Lemma Tool_beq_false (a b : Tool) : a <> b -> Tool_beq a b = false.
Proof.
  intros Hne. destruct (Tool_beq a b) eqn:E; [|reflexivity].
  exfalso. apply Hne. revert E. destruct a, b; simpl; congruence.
Qed.

Lemma Tool_beq_eq (a b : Tool) : Tool_beq a b = true <-> a = b.
Proof. destruct a, b; simpl; split; congruence. Qed.

(** What a release does to a box selection in progress. *)
Lemma mouseUp_in_selection_box (c : Canvas) (e : MouseEvent)
      (start current : Point) :
  effectiveTool c <> path -> effectiveTool c <> laser ->
  mode (interactionState c) = m_selection_box ->
  selectionBox c = Some (start, current) ->
  selectedElementIds (handleMouseUp c e)
  = (if shiftKey e
     then unique (selectedElementIds c
                  ++ map id (filter (insideBox start current) (elements c)))
     else map id (filter (insideBox start current) (elements c))) /\
  elements (handleMouseUp c e) = elements c /\
  history (handleMouseUp c e) = history c /\
  selectionBox (handleMouseUp c e) = None /\
  mode (interactionState (handleMouseUp c e)) = m_none.
Proof.
  intros Hpath Hlaser Hmode Hbox. unfold handleMouseUp.
  rewrite (Tool_beq_false _ _ Hpath), (Tool_beq_false _ _ Hlaser).
  rewrite Hmode, Hbox. simpl.
  rewrite !andb_false_r. simpl.
  destruct (shiftKey e); repeat split.
Qed.

(** C4, as the code has it.  On release of a box selection between
    [start] and [current] the identifiers picked are those of the elements
    of the scene whose bounds lie within the rectangle, sides included, in
    scene order: an identifier is picked exactly when an element that bears
    it lies within the rectangle, so that, where identifiers are distinct,
    an element's identifier is picked exactly when the element lies within
    the rectangle, and one that straddles a side is left out.  Without
    shift the selection becomes the identifiers picked, with shift it
    becomes the union, without repeats, of the previous selection and
    them.  The scene is untouched. *)
Theorem box_selection_picks_ids_of_contained_elements
        (c : Canvas) (e : MouseEvent) (start current : Point) :
  effectiveTool c <> path -> effectiveTool c <> laser ->
  mode (interactionState c) = m_selection_box ->
  selectionBox c = Some (start, current) ->
  let idsInBox := map id (filter (insideBox start current) (elements c)) in
  (forall i, In i idsInBox <->
             exists el, In el (elements c) /\ id el = i /\
                        boundsWithin start current el) /\
  (NoDup (map id (elements c)) ->
   forall el, In el (elements c) ->
              (In (id el) idsInBox <-> boundsWithin start current el)) /\
  (shiftKey e = false -> selectedElementIds (handleMouseUp c e) = idsInBox) /\
  (shiftKey e = true ->
   NoDup (selectedElementIds (handleMouseUp c e)) /\
   forall i, In i (selectedElementIds (handleMouseUp c e)) <->
             In i (selectedElementIds c) \/ In i idsInBox) /\
  elements (handleMouseUp c e) = elements c.
Proof.
  intros Hpath Hlaser Hmode Hbox idsInBox.
  destruct (mouseUp_in_selection_box c e start current Hpath Hlaser Hmode Hbox)
    as (Hsel & Hels & _).
  assert (Hids : forall i, In i idsInBox <->
                           exists el, In el (elements c) /\ id el = i /\
                                      boundsWithin start current el).
  { intros i. unfold idsInBox. rewrite in_map_iff. split.
    - intros (el & Hid & Hin). apply filter_In in Hin.
      destruct Hin as [Hin Hinside].
      exists el. split; [exact Hin|]. split; [exact Hid|].
      apply insideBox_boundsWithin. exact Hinside.
    - intros (el & Hin & Hid & Hwithin). exists el. split; [exact Hid|].
      apply filter_In. split; [exact Hin|].
      apply insideBox_boundsWithin. exact Hwithin. }
  split; [exact Hids|]. split; [|split; [|split]].
  - intros Hnd el Hel. rewrite Hids. split.
    + intros (el' & Hin' & Hid & Hwithin).
      assert (el' = el) as <-; [|exact Hwithin].
      clear - Hnd Hid Hel Hin'. revert Hnd Hid Hel Hin'.
      induction (elements c) as [|a l IH]; simpl; [tauto|].
      intros Hnd Hid [->|Hel] [->|Hin'].
      * reflexivity.
      * exfalso. inversion Hnd; subst. apply H1.
        rewrite <- Hid. apply in_map. exact Hin'.
      * exfalso. inversion Hnd; subst. apply H1.
        rewrite Hid. apply in_map. exact Hel.
      * inversion Hnd; subst. apply IH; assumption.
    + intros Hwithin. exists el.
      split; [exact Hel|]. split; [reflexivity|exact Hwithin].
  - intros Hshift. rewrite Hsel, Hshift. reflexivity.
  - intros Hshift. rewrite Hsel, Hshift.
    destruct (unique_spec (selectedElementIds c ++ idsInBox)) as [Hin Hnodup].
    split; [exact Hnodup|].
    intros i. fold idsInBox. rewrite Hin, in_app_iff. reflexivity.
  - exact Hels.
Qed.

(** C4, the claim as written fails: of two zones that bear the same
    identifier, one inside the box and one far outside it, the release
    selects the identifier, and with it the zone outside the box. *)
Lemma box_selection_takes_outside_element_by_shared_id :
  In (shape "z" rectangle 100 100 10 10) (elements sharedIdCanvas) /\
  In (id (shape "z" rectangle 100 100 10 10))
     (selectedElementIds
        (handleMouseUp sharedIdCanvas (eventAt 20 20 false))) /\
  ~ boundsWithin (mkPoint (-5) (-5)) (mkPoint 20 20)
                 (shape "z" rectangle 100 100 10 10).
Proof.
  split; [right; left; reflexivity|]. split.
  - destruct (mouseUp_in_selection_box
                sharedIdCanvas (eventAt 20 20 false)
                (mkPoint (-5) (-5)) (mkPoint 20 20)) as (Hsel & _);
      try discriminate; try reflexivity.
    rewrite Hsel. cbn [shiftKey eventAt]. apply in_map_iff.
    exists (shape "z" rectangle 0 0 10 10). split; [reflexivity|].
    apply filter_In. split; [left; reflexivity|].
    apply insideBox_boundsWithin.
    unfold boundsWithin, getElementBounds. simpl. repeat split; reval.
  - unfold boundsWithin, getElementBounds. simpl.
    intros (_ & H & _). revert H. reval.
Qed.

(** C3, as the code has it.  With a drawing tool in effect, pointer-down
    enters the drawing mode with a new element of the tool's kind whose
    origin is the click point.  For rectangle, diamond, ellipse, arrow and
    line its width and height are zero and it has no points; for pencil
    they are zero too and its points are the click point alone; for the
    position markers its width and height are 100 and its entry ratio
    0.5. *)
Theorem pointer_down_starts_element (c : Canvas) (e : MouseEvent) (t : Tool) :
  effectiveTool c = t ->
  In t [rectangle; diamond; ellipse; arrow; line; pencil;
        long_position; short_position] ->
  exists el,
    currentElement (handleMouseDown c e) = Some el /\
    mode (interactionState (handleMouseDown c e)) = m_drawing /\
    type el = t /\
    x el = px (getMousePos c e) /\ y el = py (getMousePos c e) /\
    (isPosition t = false -> width el = Some 0 /\ height el = Some 0) /\
    (isPosition t = true ->
     width el = Some 100 /\ height el = Some 100 /\
     customData el = Some (mkCustomData (Some 0.5))) /\
    (t = pencil -> points el = Some [getMousePos c e]) /\
    (t <> pencil -> points el = None).
Proof.
  intros Heff Hin. unfold handleMouseDown. rewrite Heff.
  simpl in Hin.
  repeat (destruct Hin as [<-|Hin];
          [simpl; eexists; repeat split; intros;
           try match goal with H : isPosition _ = _ |- _ => cbv in H end;
           congruence|]).
  contradiction.
Qed.

(** C3, the claim as written fails: with the long-position tool the
    element started at pointer-down is 100 wide and 100 high. *)
Lemma position_marker_starts_hundred_wide :
  exists el,
    currentElement (handleMouseDown (canvasWithTool long_position)
                                    (eventAt 40 60 false)) = Some el /\
    width el = Some 100 /\ height el = Some 100 /\
    width el <> Some 0 /\ height el <> Some 0.
Proof.
  eexists. split; [reflexivity|]. simpl.
  repeat split; try reflexivity; intros H; injection H; lra.
Qed.

(** What a pointer-move does while the eraser is drawing. *)
Lemma mouseMove_erasing (c : Canvas) (e : MouseEvent) :
  effectiveTool c = eraser ->
  mode (interactionState c) = m_drawing ->
  currentElement c <> None ->
  handleMouseMove c e
  = setElements
      (filter (eraserKeeps c (px (getMousePos c e)) (py (getMousePos c e)))
              (elements c)) c.
Proof.
  intros Heff Hmode Hcur. unfold handleMouseMove.
  rewrite Heff, Hmode. simpl.
  destruct (currentElement c); [reflexivity|congruence].
Qed.

Lemma eraserKeeps_iff (c : Canvas) (p : Point) (el : DrawingElement) :
  eraserKeeps c (px p) (py p) el = true
  <-> eraserSize c / scale c < originDistance el p.
Proof.
  unfold eraserKeeps, originDistance, Rgtb, elX, elY.
  apply Rltb_true.
Qed.

(** C2, as the code has it, at a positive scale, with the eraser in
    effect in the drawing mode.  When an element is in progress, as it is
    from the eraser's press to its release, a pointer-move at the world
    point [p] keeps, in their order, exactly the elements whose origin is
    farther from [p] than [eraserSize / scale]; every element whose origin
    is at that distance or nearer is removed, the one at the distance
    itself included.  When no element is in progress the move removes
    nothing: scene, selection, history and interaction stay as they
    are. *)
Theorem eraser_removes_origins_within_radius (c : Canvas) (e : MouseEvent) :
  0 < scale c ->
  effectiveTool c = eraser ->
  mode (interactionState c) = m_drawing ->
  (currentElement c <> None ->
   elements (handleMouseMove c e)
   = filter (fun el => Rgtb (originDistance el (getMousePos c e))
                            (eraserSize c / scale c))
            (elements c) /\
   (forall el, In el (elements (handleMouseMove c e)) <->
               In el (elements c) /\
               eraserSize c / scale c < originDistance el (getMousePos c e)) /\
   (forall el, In el (elements c) ->
               originDistance el (getMousePos c e) <= eraserSize c / scale c ->
               ~ In el (elements (handleMouseMove c e)))) /\
  (currentElement c = None -> handleMouseMove c e = c).
Proof.
  intros _ Heff Hmode. split.
  - intros Hcur.
    rewrite (mouseMove_erasing c e Heff Hmode Hcur). simpl.
    assert (Hin : forall el,
               In el (filter (eraserKeeps c (px (getMousePos c e))
                                          (py (getMousePos c e)))
                             (elements c)) <->
               In el (elements c) /\
               eraserSize c / scale c < originDistance el (getMousePos c e)).
    { intros el. rewrite filter_In, eraserKeeps_iff. reflexivity. }
    split; [reflexivity|]. split; [exact Hin|].
    intros el Hel Hnear Hkept. apply Hin in Hkept. lra.
  - intros Hnone. unfold handleMouseMove.
    rewrite Heff, Hmode, Hnone. reflexivity.
Qed.

(** C2, the claim as written fails twice.  With the eraser size 30 at
    scale 1, an element whose origin is at distance exactly 30 from the
    pointer is removed by the move; and with the eraser in effect in the
    drawing mode but no element in progress, an element whose origin is
    under the pointer, at distance 0, stays. *)
Lemma eraser_removes_origin_at_exact_radius :
  originDistance (shape "a" rectangle 130 100 10 10)
                 (getMousePos erasingCanvas (eventAt 100 100 false)) = 30 /\
  eraserSize erasingCanvas / scale erasingCanvas = 30 /\
  elements erasingCanvas = [shape "a" rectangle 130 100 10 10] /\
  elements (handleMouseMove erasingCanvas (eventAt 100 100 false)) = [] /\
  effectiveTool idleEraserCanvas = eraser /\
  mode (interactionState idleEraserCanvas) = m_drawing /\
  originDistance (shape "b" rectangle 100 100 10 10)
                 (getMousePos idleEraserCanvas (eventAt 100 100 false)) = 0 /\
  elements (handleMouseMove idleEraserCanvas (eventAt 100 100 false))
  = [shape "b" rectangle 100 100 10 10].
Proof.
  assert (Hzero : originDistance (shape "b" rectangle 100 100 10 10)
                    (getMousePos idleEraserCanvas (eventAt 100 100 false))
                  = 0).
  { unfold originDistance. simpl.
    match goal with
    | |- sqrt ?a = _ => replace a with 0 by lra
    end.
    apply sqrt_0. }
  assert (Hdist : originDistance (shape "a" rectangle 130 100 10 10)
                    (getMousePos erasingCanvas (eventAt 100 100 false)) = 30).
  { unfold originDistance. simpl.
    match goal with
    | |- sqrt ?a = _ => replace a with (30 * 30) by lra
    end.
    apply sqrt_square. lra. }
  assert (Hradius : eraserSize erasingCanvas / scale erasingCanvas = 30)
    by (simpl; lra).
  repeat split; try assumption; try reflexivity.
  rewrite mouseMove_erasing; try reflexivity; [|discriminate].
  simpl.
  replace (eraserKeeps erasingCanvas
             ((100 - 0 - 0) / 1) ((100 - 0 - 0) / 1)
             (shape "a" rectangle 130 100 10 10)) with false; [reflexivity|].
  symmetry. apply not_true_iff_false. intros Hkeep.
  apply (eraserKeeps_iff erasingCanvas
           (getMousePos erasingCanvas (eventAt 100 100 false))) in Hkeep.
  rewrite Hdist, Hradius in Hkeep. lra.
Qed.

(** The edge handles of a position marker do resize: the north handle
    moves the top side with the pointer, the south handle the bottom
    side. *)
Lemma resize_by_edge_handle (snapshot el : DrawingElement) (py dx dy : R) :
  (let r := resizeElement h_n snapshot py dx dy el in
   y r = y snapshot + dy /\
   height r = Some (orZero (height snapshot) - dy)) /\
  (let r := resizeElement h_s snapshot py dx dy el in
   y r = y snapshot /\
   height r = Some (orZero (height snapshot) + dy)).
Proof. repeat split. Qed.

(** The name of a corner handle holds none of the letters the resizing
    branch looks for. *)
Lemma corner_names_hold_no_compass_letter :
  Forall (fun h => includes (handleName h) "e" = false /\
                   includes (handleName h) "s" = false /\
                   includes (handleName h) "w" = false /\
                   includes (handleName h) "n" = false)
         [h_tl; h_tr; h_bl; h_br].
Proof. repeat constructor. Qed.

Example includes_finds_letters :
  includes "entry" "e" = true /\ includes "entry" "n" = true /\
  includes "s" "s" = true /\ includes "br" "r" = true /\
  includes "br" "e" = false.
Proof. repeat split. Qed.

(** C1, what the code does.  Dragging a corner handle changes neither
    origin nor size: whatever the drag [(dx, dy)], the resizing branch
    gives the element the origin and the size of the drag-start snapshot.
    So on the square of side 10 at the origin, grabbed by its bottom-right
    handle at [(10, 10)] and dragged to [(15, 15)], width and height stay
    10, where the corner convention gives 15. *)
Theorem corner_handle_drag_leaves_geometry :
  (forall snapshot el py dx dy,
      Forall (fun h =>
                let r := resizeElement h snapshot py dx dy el in
                x r = x snapshot /\ y r = y snapshot /\
                width r = Some (orZero (width snapshot)) /\
                height r = Some (orZero (height snapshot)))
             [h_tl; h_tr; h_bl; h_br]) /\
  map (fun el => (x el, y el, width el, height el))
      (elements (handleMouseMove resizingCanvas (eventAt 15 15 false)))
  = [(0, 0, Some 10, Some 10)] /\
  px (getMousePos resizingCanvas (eventAt 15 15 false))
  - px (startMousePos (interactionState resizingCanvas)) = 5.
Proof.
  split; [|split].
  - intros snapshot el py dx dy. repeat constructor.
  - reflexivity.
  - simpl. lra.
Qed.

(** The rectangle tool pressed at [(10, 10)]. *)
Lemma rectangle_starts_with_zero_extent :
  exists el,
    currentElement (handleMouseDown (canvasWithTool rectangle)
                                    (eventAt 10 10 false)) = Some el /\
    width el = Some 0 /\ height el = Some 0.
Proof.
  destruct (pointer_down_starts_element
              (canvasWithTool rectangle) (eventAt 10 10 false) rectangle
              eq_refl (or_introl eq_refl))
    as (el & Hcur & _ & _ & _ & _ & Hzero & _).
  exists el. split; [exact Hcur|]. apply Hzero. reflexivity.
Defined.

(** The eraser moved over [erasingCanvas]. *)
Lemma erasing_filters_the_scene :
  elements (handleMouseMove erasingCanvas (eventAt 100 100 false))
  = filter (fun el =>
              Rgtb (originDistance el (getMousePos erasingCanvas
                                         (eventAt 100 100 false)))
                   (eraserSize erasingCanvas / scale erasingCanvas))
           (elements erasingCanvas).
Proof.
  apply (proj1 (eraser_removes_origins_within_radius
                  erasingCanvas (eventAt 100 100 false)
                  ltac:(simpl; lra) eq_refl eq_refl)).
  discriminate.
Defined.

(** The box from [(0, 0)] to [(50, 50)] picks the square inside it and
    not the one straddling its right side. *)
Lemma box_selection_leaves_out_straddling_square :
  selectedElementIds (handleMouseUp boxSelectingCanvas (eventAt 50 50 false))
  = ["in"%string].
Proof.
  destruct (box_selection_picks_ids_of_contained_elements
              boxSelectingCanvas (eventAt 50 50 false)
              (mkPoint 0 0) (mkPoint 50 50))
    as (_ & _ & Hplain & _).
  - discriminate.
  - discriminate.
  - reflexivity.
  - reflexivity.
  - rewrite (Hplain eq_refl). simpl.
    unfold insideBox, getElementBounds. simpl. reval.
Defined.

End InteractionFacts.

(** ** The view *)

Module ViewFacts.

Import Interaction View.

Lemma clampScale_range (v : R) : 0.1 <= clampScale v <= 5.
Proof. unfold clampScale. rcases. Qed.

Lemma clampScale_fixed (v : R) : 0.1 <= v <= 5 -> clampScale v = v.
Proof. intros H. unfold clampScale. rcases. Qed.

Lemma clampScale_monotone (u v : R) : u <= v -> clampScale u <= clampScale v.
Proof. intros H. unfold clampScale. rcases. Qed.

Lemma zoom_factor_ge_one (d : R) : 0 <= d -> 1 <= Rpower 1.001 d.
Proof.
  intros Hd. apply Rle_trans with (Rpower 1.001 0).
  - rewrite Rpower_O; lra.
  - apply Rle_Rpower; lra.
Qed.

Lemma zoom_factor_le_one (d : R) : d <= 0 -> Rpower 1.001 d <= 1.
Proof.
  intros Hd. apply Rle_trans with (Rpower 1.001 0).
  - apply Rle_Rpower; lra.
  - rewrite Rpower_O; lra.
Qed.

(** The wheel.  With control or meta held a wheel turn zooms: the new
    scale lies within [0.1, 5] and, from a scale within that range, turning
    the wheel up ([deltaY <= 0]) never lowers the scale and turning it down
    never raises it.  Without them it scrolls: the scale stays and the pan
    offset moves against the wheel's deltas.  Either way the scene, the
    selection and the history are untouched. *)
Theorem wheel_zoom_follows_wheel_direction (c : Canvas) (w : WheelEvent) :
  0 < scale c ->
  (ctrlKey w || metaKey w = true ->
   0.1 <= scale (handleWheel c w) <= 5 /\
   (0.1 <= scale c <= 5 -> deltaY w <= 0 ->
    scale c <= scale (handleWheel c w)) /\
   (0.1 <= scale c <= 5 -> 0 <= deltaY w ->
    scale (handleWheel c w) <= scale c)) /\
  (ctrlKey w || metaKey w = false ->
   scale (handleWheel c w) = scale c /\
   panOffset (handleWheel c w)
   = mkPoint (px (panOffset c) - deltaX w) (py (panOffset c) - deltaY w)) /\
  elements (handleWheel c w) = elements c /\
  selectedElementIds (handleWheel c w) = selectedElementIds c /\
  history (handleWheel c w) = history c /\
  historyIndex (handleWheel c w) = historyIndex c.
Proof.
  intros Hpos. unfold handleWheel.
  destruct (ctrlKey w || metaKey w); simpl.
  - pose proof (clampScale_range (scale c * Rpower 1.001 (- deltaY w)))
      as Hrange.
    split; [|split; [discriminate|repeat split]].
    intros _. split; [exact Hrange|]. split.
    + intros Hin Hup.
      rewrite <- (clampScale_fixed (scale c) Hin) at 1.
      apply clampScale_monotone.
      pose proof (zoom_factor_ge_one (- deltaY w) ltac:(lra)). nra.
    + intros Hin Hdown.
      rewrite <- (clampScale_fixed (scale c) Hin) at 2.
      apply clampScale_monotone.
      pose proof (zoom_factor_le_one (- deltaY w) ltac:(lra)).
      assert (0 < Rpower 1.001 (- deltaY w))
        by (unfold Rpower; apply exp_pos).
      nra.
  - split; [discriminate|]. repeat split.
Qed.

Lemma wheel_zoom_on_fresh_canvas :
  0.1 <= scale (handleWheel (initialCanvas false)
                            (mkWheel true false 0 (-100) 300 200 0 0)) <= 5.
Proof.
  apply (proj1 (wheel_zoom_follows_wheel_direction
                  (initialCanvas false)
                  (mkWheel true false 0 (-100) 300 200 0 0)
                  ltac:(simpl; lra))).
  reflexivity.
Defined.

(** The scale stays within [0.1, 5]: the zoom buttons and the reset set it
    within the range whatever it was, and a wheel event keeps it there, as
    a zoom or as a scroll. *)
Theorem scale_stays_in_range (c : Canvas) :
  (forall d, 0.1 <= scale (updateZoom d c) <= 5) /\
  0.1 <= scale (resetZoom c) <= 5 /\
  (forall w, 0.1 <= scale c <= 5 -> 0.1 <= scale (handleWheel c w) <= 5).
Proof.
  split; [|split].
  - intros d. unfold updateZoom. simpl. apply clampScale_range.
  - simpl. lra.
  - intros w Hin. unfold handleWheel.
    destruct (ctrlKey w || metaKey w); simpl;
      [apply clampScale_range|exact Hin].
Qed.

Lemma scale_stays_in_range_on_scroll :
  0.1 <= scale (handleWheel (initialCanvas false)
                            (mkWheel false false 5 7 0 0 0 0)) <= 5.
Proof.
  apply (proj2 (proj2 (scale_stays_in_range (initialCanvas false)))).
  simpl. lra.
Defined.

End ViewFacts.

(** ** Commits, undo and redo together *)

Module CommitFacts.

Import History Clipboard View.

Lemma push_then_undo (s : list DrawingElement) (c : Canvas) :
  historyWellFormed c ->
  historyIndex (undo (pushToHistory s c)) = historyIndex c /\
  history (undo (pushToHistory s c))
  = firstn (historyIndex c + 1) (history c) ++ [s] /\
  elements (undo (pushToHistory s c)) = snapshotAt (historyIndex c) c /\
  selectedElementIds (undo (pushToHistory s c)) = [].
Proof.
  intros Hwf.
  destruct (HistoryFacts.push_fields s c) as (Hh & _).
  destruct (HistoryFacts.push_index_wf s c Hwf) as (Hi & Hl).
  destruct (HistoryFacts.undo_moves (pushToHistory s c)) as (Ui & Uh & Ue & Us);
    [lia|].
  rewrite Ui, Uh, Ue, Us. unfold snapshotAt. rewrite Hi, Hh.
  replace (historyIndex c + 1 - 1)%nat with (historyIndex c) by lia.
  repeat split.
  unfold historyWellFormed in Hwf.
  rewrite app_nth1 by (rewrite length_firstn; lia).
  rewrite nth_firstn.
  replace (historyIndex c <? historyIndex c + 1)%nat with true
    by (symmetry; apply Nat.ltb_lt; lia).
  reflexivity.
Qed.

(** A commit leaves nothing to redo: right after [pushToHistory], [redo]
    returns the state unchanged; and a commit made after an [undo] drops the
    snapshot that was undone, the history becoming the snapshots below the
    old index followed by the new one. *)
Theorem commit_discards_redo_tail (s : list DrawingElement) (c : Canvas) :
  redo (pushToHistory s c) = pushToHistory s c /\
  (historyWellFormed c -> (0 < historyIndex c)%nat ->
   history (pushToHistory s (undo c))
   = firstn (historyIndex c) (history c) ++ [s] /\
   List.length (history (pushToHistory s (undo c)))
   = (historyIndex c + 1)%nat).
Proof.
  split.
  - apply HistoryFacts.redo_at_top.
    destruct (HistoryFacts.push_fields s c) as (Hh & Hi & _).
    rewrite Hh, Hi, length_app. simpl. lia.
  - intros Hwf Hpos.
    destruct (HistoryFacts.undo_moves c Hpos) as (Ui & Uh & _).
    destruct (HistoryFacts.push_fields s (undo c)) as (Hh & _).
    rewrite Hh, Ui, Uh.
    replace (historyIndex c - 1 + 1)%nat with (historyIndex c) by lia.
    split; [reflexivity|].
    unfold historyWellFormed in Hwf.
    rewrite length_app, length_firstn. simpl. lia.
Qed.

Lemma commit_after_undo_on_two_step_history :
  let c := pushToHistory [shape "b" ellipse 0 0 1 1]
             (pushToHistory [shape "a" rectangle 0 0 1 1]
                (initialCanvas false)) in
  history (pushToHistory [] (undo c))
  = firstn (historyIndex c) (history c) ++ [[]].
Proof.
  intros c.
  apply (proj2 (commit_discards_redo_tail [] c)).
  - unfold historyWellFormed. simpl. lia.
  - simpl. lia.
Defined.

(** [undo] and [redo] are inverse on the scene, the history and the index
    when the live scene is the snapshot at the index: [redo] after an [undo]
    that moved, and [undo] after a [redo] that moved, give them back. *)
Theorem undo_redo_inverse (c : Canvas) :
  historyWellFormed c ->
  elements c = snapshotAt (historyIndex c) c ->
  ((0 < historyIndex c)%nat ->
   elements (redo (undo c)) = elements c /\
   historyIndex (redo (undo c)) = historyIndex c /\
   history (redo (undo c)) = history c) /\
  ((historyIndex c < List.length (history c) - 1)%nat ->
   elements (undo (redo c)) = elements c /\
   historyIndex (undo (redo c)) = historyIndex c /\
   history (undo (redo c)) = history c).
Proof.
  intros Hwf Hsync. unfold historyWellFormed in Hwf. split.
  - intros Hpos.
    destruct (HistoryFacts.undo_moves c Hpos) as (Ui & Uh & _).
    destruct (HistoryFacts.redo_moves (undo c)) as (Ri & Rh & Re & _);
      [rewrite Ui, Uh; lia|].
    rewrite Ri, Rh, Re. unfold snapshotAt. rewrite Ui, Uh.
    replace (historyIndex c - 1 + 1)%nat with (historyIndex c) by lia.
    repeat split. symmetry. exact Hsync.
  - intros Hlt.
    destruct (HistoryFacts.redo_moves c Hlt) as (Ri & Rh & _).
    destruct (HistoryFacts.undo_moves (redo c)) as (Ui & Uh & Ue & _);
      [rewrite Ri; lia|].
    rewrite Ui, Uh, Ue. unfold snapshotAt. rewrite Ri, Rh.
    replace (historyIndex c + 1 - 1)%nat with (historyIndex c) by lia.
    repeat split. symmetry. exact Hsync.
Qed.

Lemma undo_redo_inverse_after_one_commit :
  let c := commit [shape "a" rectangle 0 0 1 1] (initialCanvas false) in
  elements (redo (undo c)) = elements c.
Proof.
  intros c.
  apply (proj1 (undo_redo_inverse c
                  ltac:(unfold historyWellFormed; simpl; lia) eq_refl)).
  simpl. lia.
Defined.

Lemma undo_of_committed (c c' : Canvas) (s : list DrawingElement) :
  historyWellFormed c ->
  history c' = history (pushToHistory s c) ->
  historyIndex c' = historyIndex (pushToHistory s c) ->
  elements (undo c') = snapshotAt (historyIndex c) c /\
  elements (redo (undo c')) = s.
Proof.
  intros Hwf Hh Hi.
  destruct (HistoryFacts.push_fields s c) as (Ph & _).
  destruct (HistoryFacts.push_index_wf s c Hwf) as (Pi & Pl).
  destruct (push_then_undo s c Hwf) as (_ & _ & Pe & _).
  destruct (HistoryFacts.undo_moves c') as (Ui & Uh & Ue & _);
    [rewrite Hi, Pi; lia|].
  destruct (HistoryFacts.undo_moves (pushToHistory s c)) as (_ & _ & Qe & _);
    [lia|].
  split.
  - rewrite Ue. rewrite <- Pe, Qe. unfold snapshotAt. rewrite Hh, Hi.
    reflexivity.
  - destruct (HistoryFacts.redo_moves (undo c')) as (_ & _ & Re & _);
      [rewrite Ui, Uh, Hh, Hi, Pi, Pl; lia|].
    rewrite Re. unfold snapshotAt. rewrite Ui, Uh, Hh, Hi, Pi, Ph.
    replace (historyIndex c + 1 - 1 + 1)%nat with (historyIndex c + 1)%nat
      by lia.
    unfold historyWellFormed in Hwf.
    rewrite app_nth2 by (rewrite length_firstn; lia).
    rewrite length_firstn.
    replace (historyIndex c + 1 - Nat.min (historyIndex c + 1)
                                          (List.length (history c)))%nat
      with 0%nat by lia.
    reflexivity.
Qed.

Lemma length_positive {A : Type} (l : list A) :
  l <> [] -> (0 <? List.length l)%nat = true.
Proof. destruct l; [congruence|reflexivity]. Qed.

(** Every operation that commits can be undone and redone.  When the live
    scene is the snapshot at the index, [undo] after [addExternalElement],
    after a [handleDelete] of a non-empty selection and after a
    [handlePaste] of a non-empty clipboard gives the scene back as it was
    before the operation, and [redo] then gives the scene the operation had
    made. *)
Theorem undo_restores_scene_before_mutation (c : Canvas) :
  historyWellFormed c ->
  elements c = snapshotAt (historyIndex c) c ->
  (forall el,
      elements (undo (addExternalElement el c)) = elements c /\
      elements (redo (undo (addExternalElement el c)))
      = elements (addExternalElement el c)) /\
  (selectedElementIds c <> [] ->
   forall confirmed,
     elements (undo (handleDelete confirmed c)) = elements c /\
     elements (redo (undo (handleDelete confirmed c)))
     = elements (handleDelete confirmed c)) /\
  (clipboard c <> [] ->
   forall src,
     elements (undo (handlePaste src c)) = elements c /\
     elements (redo (undo (handlePaste src c)))
     = elements (handlePaste src c)).
Proof.
  intros Hwf Hsync. split; [|split].
  - intros el. rewrite Hsync at 1.
    apply (undo_of_committed c (addExternalElement el c)
                             (elements c ++ [el]) Hwf); reflexivity.
  - intros Hsel confirmed. rewrite Hsync at 1.
    unfold handleDelete. rewrite (length_positive _ Hsel).
    apply (undo_of_committed c); [exact Hwf|reflexivity|reflexivity].
  - intros Hclip src. rewrite Hsync at 1.
    unfold handlePaste. rewrite (length_positive _ Hclip).
    apply (undo_of_committed c); [exact Hwf|reflexivity|reflexivity].
Qed.

Lemma undo_restores_scene_before_external_element :
  elements (undo (addExternalElement (shape "z" line 0 0 5 5)
                                     (initialCanvas false)))
  = [].
Proof.
  apply (proj1 (undo_restores_scene_before_mutation
                  (initialCanvas false)
                  ltac:(unfold historyWellFormed; simpl; lia) eq_refl)).
Defined.

Lemma selected_iff (ids : list string) (el : DrawingElement) :
  existsb (String.eqb (id el)) ids = true <-> In (id el) ids.
Proof.
  rewrite existsb_exists. split.
  - intros (i & Hi & E). apply String.eqb_eq in E. rewrite E. exact Hi.
  - intros Hi. exists (id el). split; [exact Hi|apply String.eqb_refl].
Qed.

(** The delete key.  With a selection, it removes from the scene exactly
    the elements whose identifier is selected, keeps the others in their
    order, empties the selection and commits the new scene.  Without a
    selection it clears a non-empty scene when the confirmation is given,
    committing the empty scene, and changes nothing when the confirmation
    is declined or the scene is empty already. *)
Theorem delete_removes_exactly_the_selection (c : Canvas) :
  (selectedElementIds c <> [] ->
   forall confirmed,
     elements (handleDelete confirmed c)
     = filter (fun el => negb (existsb (String.eqb (id el))
                                       (selectedElementIds c)))
              (elements c) /\
     (forall el, In el (elements (handleDelete confirmed c)) <->
                 In el (elements c) /\ ~ In (id el) (selectedElementIds c)) /\
     selectedElementIds (handleDelete confirmed c) = [] /\
     snapshotAt (historyIndex (handleDelete confirmed c))
                (handleDelete confirmed c)
     = elements (handleDelete confirmed c)) /\
  (selectedElementIds c = [] ->
   handleDelete false c = c /\
   (elements c = [] -> handleDelete true c = c) /\
   (elements c <> [] ->
    elements (handleDelete true c) = [] /\
    snapshotAt (historyIndex (handleDelete true c)) (handleDelete true c)
    = [])).
Proof.
  assert (Hhead : forall s k,
             snapshotAt (historyIndex (commit s k)) (commit s k) = s).
  { intros s k. unfold snapshotAt, commit, pushToHistory. simpl.
    rewrite length_app. simpl.
    rewrite app_nth2 by lia.
    replace (List.length (firstn (historyIndex k + 1) (history k)) + 1 - 1
             - List.length (firstn (historyIndex k + 1) (history k)))%nat
      with 0%nat by lia.
    reflexivity. }
  split.
  - intros Hsel confirmed. unfold handleDelete.
    rewrite (length_positive _ Hsel). simpl.
    split; [reflexivity|]. split; [|split; [reflexivity|]].
    + intros el. rewrite filter_In, negb_true_iff.
      rewrite <- not_true_iff_false, selected_iff. reflexivity.
    + apply (Hhead _ c).
  - intros Hsel. unfold handleDelete. rewrite Hsel. simpl.
    split; [|split].
    + rewrite andb_false_r. reflexivity.
    + intros Hempty. rewrite Hempty. reflexivity.
    + intros Hne. rewrite (length_positive _ Hne). simpl.
      split; [reflexivity|]. apply (Hhead [] c).
Qed.

Lemma delete_removes_selected_square :
  elements (handleDelete false
              (canvasWith [shape "a" rectangle 0 0 1 1;
                           shape "b" ellipse 5 5 1 1] ["a"%string] []))
  = filter (fun el => negb (existsb (String.eqb (id el)) ["a"%string]))
           [shape "a" rectangle 0 0 1 1; shape "b" ellipse 5 5 1 1].
Proof.
  apply (proj1 (delete_removes_exactly_the_selection
                  (canvasWith [shape "a" rectangle 0 0 1 1;
                               shape "b" ellipse 5 5 1 1] ["a"%string] []))).
  discriminate.
Defined.

End CommitFacts.

(** ** Copy and paste together *)

Module CopyPasteFacts.

Import Clipboard Interaction.

(** Copying never touches the scene, the selection or the history.  The
    clipboard becomes the elements of the scene whose identifier is
    selected, in scene order, when there is one; when the selection names no
    element of the scene the clipboard keeps what it held. *)
Theorem copy_takes_selected_elements (c : Canvas) :
  elements (handleCopy c) = elements c /\
  selectedElementIds (handleCopy c) = selectedElementIds c /\
  history (handleCopy c) = history c /\
  historyIndex (handleCopy c) = historyIndex c /\
  (forall el,
      In el (filter (fun e => existsb (String.eqb (id e))
                                      (selectedElementIds c))
                    (elements c)) <->
      In el (elements c) /\ In (id el) (selectedElementIds c)) /\
  (filter (fun e => existsb (String.eqb (id e)) (selectedElementIds c))
          (elements c) <> [] ->
   clipboard (handleCopy c)
   = filter (fun e => existsb (String.eqb (id e)) (selectedElementIds c))
            (elements c)) /\
  (filter (fun e => existsb (String.eqb (id e)) (selectedElementIds c))
          (elements c) = [] ->
   handleCopy c = c).
Proof.
  set (els := filter (fun e => existsb (String.eqb (id e))
                                       (selectedElementIds c))
                     (elements c)).
  assert (Hcases : (els = [] -> handleCopy c = c) /\
                   (els <> [] -> handleCopy c = setClipboard els c)).
  { unfold handleCopy. fold els.
    destruct (selectedElementIds c) as [|i ids] eqn:Hsel.
    - assert (Hnil : els = []).
      { unfold els.
        induction (elements c) as [|a l IH]; [reflexivity|exact IH]. }
      split; [reflexivity|congruence].
    - simpl (0 <? _)%nat. cbv iota.
      destruct els as [|a l]; simpl; split; congruence. }
  destruct Hcases as [Hnil Hsome].
  assert (Hframe : elements (handleCopy c) = elements c /\
                   selectedElementIds (handleCopy c) = selectedElementIds c /\
                   history (handleCopy c) = history c /\
                   historyIndex (handleCopy c) = historyIndex c).
  { destruct els as [|a l] eqn:Hels.
    - rewrite (Hnil eq_refl). repeat split.
    - rewrite Hsome by discriminate. repeat split. }
  destruct Hframe as (F1 & F2 & F3 & F4).
  split; [exact F1|]. split; [exact F2|]. split; [exact F3|].
  split; [exact F4|]. split; [|split].
  - intros el. unfold els.
    rewrite filter_In, CommitFacts.selected_iff. reflexivity.
  - intros Hne. rewrite (Hsome Hne). reflexivity.
  - exact Hnil.
Qed.

Lemma copy_of_selected_square :
  clipboard (handleCopy (canvasWith [shape "a" rectangle 0 0 1 1;
                                     shape "b" ellipse 5 5 1 1]
                                    ["b"%string] []))
  = filter (fun e => existsb (String.eqb (id e)) ["b"%string])
           [shape "a" rectangle 0 0 1 1; shape "b" ellipse 5 5 1 1].
Proof.
  apply (copy_takes_selected_elements
           (canvasWith [shape "a" rectangle 0 0 1 1;
                        shape "b" ellipse 5 5 1 1] ["b"%string] [])).
  discriminate.
Defined.

Lemma paste_fields (src : IdSource) (c : Canvas) :
  clipboard c <> [] ->
  elements (handlePaste src c)
  = elements c ++ snd (pasteAll src (20 / scale c) 0 (clipboard c)) /\
  clipboard (handlePaste src c) = clipboard c /\
  scale (handlePaste src c) = scale c.
Proof.
  intros Hne. unfold handlePaste.
  rewrite (CommitFacts.length_positive _ Hne). repeat split.
Qed.

(** Pasting does not use the clipboard up, and it always offsets from the
    clipboard's elements: a second paste appends a second run of copies
    that lie exactly where the first ones do, each copy differing from its
    twin in the identifier alone. *)
Theorem paste_twice_stacks_copies (s1 s2 : IdSource) (c : Canvas) :
  0 < scale c ->
  clipboard c <> [] ->
  clipboard (handlePaste s1 c) = clipboard c /\
  exists first second,
    elements (handlePaste s2 (handlePaste s1 c))
    = elements c ++ first ++ second /\
    List.length first = List.length (clipboard c) /\
    List.length second = List.length (clipboard c) /\
    (forall i a b,
        nth_error first i = Some a -> nth_error second i = Some b ->
        forall j, withId j a = withId j b).
Proof.
  intros _ Hne.
  destruct (paste_fields s1 c Hne) as (E1 & C1 & S1).
  assert (Hne1 : clipboard (handlePaste s1 c) <> []) by (rewrite C1; exact Hne).
  destruct (paste_fields s2 (handlePaste s1 c) Hne1) as (E2 & _ & _).
  split; [exact C1|].
  exists (snd (pasteAll s1 (20 / scale c) 0 (clipboard c))),
         (snd (pasteAll s2 (20 / scale c) 0 (clipboard c))).
  destruct (ClipboardFacts.pasteAll_spec s1 (20 / scale c) (clipboard c) 0)
    as (_ & _ & L1 & N1).
  destruct (ClipboardFacts.pasteAll_spec s2 (20 / scale c) (clipboard c) 0)
    as (_ & _ & L2 & N2).
  split; [|split; [exact L1|split; [exact L2|]]].
  - rewrite E2, E1, C1, S1, app_assoc. reflexivity.
  - intros i a b Ha Hb j.
    destruct (nth_error (clipboard c) i) as [item|] eqn:Hitem.
    + rewrite (N1 i item Hitem) in Ha. rewrite (N2 i item Hitem) in Hb.
      injection Ha as <-. injection Hb as <-. reflexivity.
    + exfalso. apply nth_error_None in Hitem.
      assert (Hsome : nth_error
                        (snd (pasteAll s1 (20 / scale c) 0 (clipboard c))) i
                      <> None) by congruence.
      apply nth_error_Some in Hsome. lia.
Qed.

Lemma paste_twice_of_one_square :
  clipboard (handlePaste stuckSource
               (canvasWith [] [] [shape "a" rectangle 0 0 1 1]))
  = [shape "a" rectangle 0 0 1 1].
Proof.
  apply (paste_twice_stacks_copies stuckSource stuckSource
           (canvasWith [] [] [shape "a" rectangle 0 0 1 1])).
  - simpl. lra.
  - discriminate.
Defined.

End CopyPasteFacts.

(** ** Hit testing *)

Module HitFacts.

Import Geometry Interaction.

Lemma find_first {A : Type} (f : A -> bool) (l : list A) (a : A) :
  find f l = Some a ->
  exists before after,
    l = before ++ a :: after /\ f a = true /\
    forall b, In b before -> f b = false.
Proof.
  induction l as [|h l IH]; simpl; [discriminate|].
  destruct (f h) eqn:Hh.
  - intros E. injection E as <-. exists [], l.
    repeat split; [exact Hh|]. intros b [].
  - intros E. destruct (IH E) as (before & after & Hl & Ha & Hb).
    exists (h :: before), after. rewrite Hl. repeat split; [exact Ha|].
    intros b [<-|Hin]; [exact Hh|apply Hb; exact Hin].
Qed.

(** The element a click lands on is the topmost one under the point: when
    [topmostAt] answers an identifier, it is that of an element containing
    the point (within the hit margin) above which, in scene order, no
    element contains it; and it answers none exactly when no element of the
    scene contains the point.
    The scale is positive, as the view keeps it. *)
Theorem topmost_is_last_hit_in_scene_order (c : Canvas) (x y : R) :
  0 < scale c ->
  (forall i,
      topmostAt c x y = Some i ->
      exists below el above,
        elements c = below ++ el :: above /\ id el = i /\
        isPointInElement (scale c) x y el = true /\
        forall a, In a above -> isPointInElement (scale c) x y a = false) /\
  (topmostAt c x y = None <->
   forall el, In el (elements c) ->
              isPointInElement (scale c) x y el = false).
Proof.
  intros Hscale.
  unfold topmostAt. split.
  - intros i Hi.
    destruct (find _ (rev (elements c))) as [el|] eqn:Hfind;
      [|discriminate].
    simpl in Hi. injection Hi as <-.
    destruct (find_first _ _ _ Hfind) as (before & after & Hrev & Hel & Hmiss).
    exists (rev after), el, (rev before).
    repeat split; [|exact Hel|].
    + rewrite <- (rev_involutive (elements c)), Hrev.
      rewrite rev_app_distr. simpl. rewrite <- app_assoc. reflexivity.
    + intros a Ha. apply Hmiss. apply in_rev. exact Ha.
  - split.
    + intros Hnone el Hel.
      destruct (find _ (rev (elements c))) eqn:Hfind; [discriminate|].
      apply (find_none _ _ Hfind). apply in_rev in Hel. exact Hel.
    + intros Hall.
      destruct (find _ (rev (elements c))) as [el|] eqn:Hfind;
        [|reflexivity].
      apply find_some in Hfind. destruct Hfind as [Hin Hhit].
      apply in_rev in Hin. rewrite (Hall el Hin) in Hhit. discriminate.
Qed.

Lemma topmost_of_two_stacked_squares :
  exists below el above,
    elements (canvasWith [shape "bottom" rectangle 0 0 10 10;
                          shape "top" rectangle 0 0 10 10] [] [])
    = below ++ el :: above /\ id el = "top"%string.
Proof.
  destruct (proj1 (topmost_is_last_hit_in_scene_order
                     (canvasWith [shape "bottom" rectangle 0 0 10 10;
                                  shape "top" rectangle 0 0 10 10] [] [])
                     5 5 Rlt_0_1) "top"%string)
    as (below & el & above & Hsplit & Hid & _).
  - unfold topmostAt, isPointInElement, getElementBounds. simpl. reval.
  - exists below, el, above. split; [exact Hsplit|exact Hid].
Defined.

Lemma handles_of_box (e : DrawingElement) (h : ResizeHandle) (c : Point) :
  In (h, c) (handlesOf e) ->
  let x1 := Rmin (x e) (x e + orZero (width e)) in
  let x2 := Rmax (x e) (x e + orZero (width e)) in
  let y1 := Rmin (y e) (y e + orZero (height e)) in
  let y2 := Rmax (y e) (y e + orZero (height e)) in
  x1 <= px c <= x2 /\
  (h <> h_entry -> y1 <= py c <= y2) /\
  (h = h_entry -> py c = y1 + Rabs (orZero (height e)) * entryRatioOf e).
Proof.
  unfold handlesOf. intros Hin. apply in_app_or in Hin.
  destruct Hin as [Hin|Hin].
  - simpl in Hin.
    repeat (destruct Hin as [E|Hin];
            [injection E as <- <-; simpl;
             split; [rcases|split; [intros _; rcases|discriminate]]|]).
    contradiction.
  - destruct (isPosition (type e)); [|contradiction].
    simpl in Hin.
    destruct Hin as [E|[E|[E|[]]]]; injection E as <- <-; simpl.
    + split; [rcases|split; [intros _; rcases|discriminate]].
    + split; [rcases|split; [intros _; rcases|discriminate]].
    + split; [rcases|split; [congruence|reflexivity]].
Qed.

(** A resize handle is part of its element: at a positive scale, wherever
    [getResizeHandleAtPosition] reports a handle of an element whose entry
    ratio lies within [0, 1], [isPointInElement] holds of the element
    too. *)
Theorem handle_point_hits_element (scale mx my : R) (e : DrawingElement)
        (h : ResizeHandle) :
  0 < scale ->
  0 <= entryRatioOf e <= 1 ->
  getResizeHandleAtPosition scale mx my e = Some h ->
  isPointInElement scale mx my e = true.
Proof.
  intros Hscale Hratio Hh.
  destruct (isBoxLike (type e)) eqn:Hbox.
  - rewrite (GeometryFacts.resize_handle_is_first_hit scale mx my e Hbox) in Hh.
    destruct (find _ (handlesOf e)) as [[h' c]|] eqn:Hfind; [|discriminate].
    simpl in Hh. injection Hh as ->.
    apply find_some in Hfind. destruct Hfind as [Hin Hnear].
    simpl in Hnear. apply GeometryFacts.near_withinBox in Hnear.
    rewrite GeometryFacts.handle_radius_is_four in Hnear.
    destruct Hnear as [Hx Hy].
    destruct (handles_of_box e h c Hin) as (Hcx & Hcy & Hentry).
    assert (Hr : 4 / scale < 10 / scale).
    { unfold Rdiv. apply Rmult_lt_compat_r; [apply Rinv_0_lt_compat|]; lra. }
    assert (Hcy' : Rmin (y e) (y e + orZero (height e)) <= py c
                   <= Rmax (y e) (y e + orZero (height e))).
    { destruct h; try (apply Hcy; discriminate).
      rewrite (Hentry eq_refl).
      pose proof (Rabs_pos (orZero (height e))) as Habs.
      assert (Hspan : Rmax (y e) (y e + orZero (height e))
                      = Rmin (y e) (y e + orZero (height e))
                        + Rabs (orZero (height e))) by rcases.
      rewrite Hspan. nra. }
    unfold isPointInElement.
    rewrite (GeometryFacts.bounds_of_shape e
               (GeometryFacts.isBoxLike_not_pointSeq _ Hbox)).
    simpl. unfold Rgeb.
    rewrite !andb_true_iff, !Rleb_true.
    unfold Rabs in Hx, Hy.
    destruct (Rcase_abs (mx - px c)), (Rcase_abs (my - py c));
      repeat split; lra.
  - unfold getResizeHandleAtPosition in Hh. rewrite Hbox in Hh. discriminate.
Qed.

Lemma handle_point_hits_square :
  isPointInElement 1 1 1 (shape "a" rectangle 0 0 100 100) = true.
Proof.
  apply (handle_point_hits_element 1 1 1
           (shape "a" rectangle 0 0 100 100) h_tl).
  - lra.
  - unfold entryRatioOf. simpl. lra.
  - unfold getResizeHandleAtPosition, near, HANDLE_SIZE, elX, elY. simpl.
    reval.
Defined.

End HitFacts.

(** ** Moving a selection *)

Module MoveFacts.

Import Geometry Interaction.

Lemma moveBy_id (dx dy : R) (s : DrawingElement) : id (moveBy dx dy s) = id s.
Proof.
  unfold moveBy. simpl.
  destruct (Tool_beq (type s) pencil || Tool_beq (type s) path);
    [destruct (points s)|]; reflexivity.
Qed.

Lemma moveBy_zero (e : DrawingElement) : moveBy 0 0 e = e.
Proof.
  unfold moveBy. simpl.
  assert (Hmap : forall ps : list Point,
             map (fun p => mkPoint (px p + 0) (py p + 0)) ps = ps).
  { induction ps as [|[a b] ps IH]; simpl; [reflexivity|].
    rewrite IH, !Rplus_0_r. reflexivity. }
  destruct e as [i t ex ey w h ps cd a]. simpl.
  destruct (Tool_beq t pencil || Tool_beq t path);
    [destruct ps as [ps|]|]; unfold withOrigin, withPoints; simpl;
    rewrite ?Hmap, !Rplus_0_r; reflexivity.
Qed.

(** What a pointer-move does while a selection is being moved. *)
Lemma mouseMove_moving (c : Canvas) (e : MouseEvent) (m : ElementMap) :
  mode (interactionState c) = m_moving ->
  startElementSnapshots (interactionState c) = Some m ->
  handleMouseMove c e
  = setElements
      (map (fun el =>
              match mapGet (id el) m with
              | Some snapshot =>
                  moveBy (px (getMousePos c e)
                          - px (startMousePos (interactionState c)))
                         (py (getMousePos c e)
                          - py (startMousePos (interactionState c)))
                         snapshot
              | None => el
              end) (elements c)) c.
Proof.
  intros Hmode Hsnap. unfold handleMouseMove.
  rewrite Hmode, Hsnap, andb_false_r. reflexivity.
Qed.

(** A move is computed from the snapshots taken at pointer-down, never from
    the scene the previous move left: two pointer-moves in a row leave the
    scene the second alone would leave.  A move keeps the identifiers and
    their order, leaves the elements without a snapshot alone, and a move
    back to the start point puts every snapshot back as it was taken.
    The scale is positive, as the view keeps it. *)
Theorem move_is_relative_to_snapshots
        (c : Canvas) (e1 e2 : MouseEvent) (m : ElementMap) :
  0 < scale c ->
  mode (interactionState c) = m_moving ->
  startElementSnapshots (interactionState c) = Some m ->
  keyedById m ->
  elements (handleMouseMove (handleMouseMove c e1) e2)
  = elements (handleMouseMove c e2) /\
  map id (elements (handleMouseMove c e1)) = map id (elements c) /\
  (forall el, In el (elements c) -> mapGet (id el) m = None ->
              In el (elements (handleMouseMove c e1))) /\
  (getMousePos c e1 = startMousePos (interactionState c) ->
   elements (handleMouseMove c e1)
   = map (fun el => match mapGet (id el) m with
                    | Some snapshot => snapshot
                    | None => el
                    end) (elements c)).
Proof.
  intros Hscale Hmode Hsnap Hkey.
  split; [|split; [|split]].
  - rewrite (mouseMove_moving c e2 m Hmode Hsnap).
    rewrite (mouseMove_moving c e1 m Hmode Hsnap).
    match goal with
    | |- context [handleMouseMove (setElements ?l c) e2] =>
        rewrite (mouseMove_moving (setElements l c) e2 m Hmode Hsnap)
    end.
    simpl. rewrite map_map. apply map_ext. intros el.
    destruct (mapGet (id el) m) as [snap|] eqn:Hget.
    + rewrite moveBy_id, (Hkey _ _ Hget), Hget. reflexivity.
    + rewrite Hget. reflexivity.
  - rewrite (mouseMove_moving c e1 m Hmode Hsnap). simpl.
    rewrite map_map. apply map_ext. intros el.
    destruct (mapGet (id el) m) as [snap|] eqn:Hget; [|reflexivity].
    rewrite moveBy_id. apply (Hkey _ _ Hget).
  - intros el Hel Hnone.
    rewrite (mouseMove_moving c e1 m Hmode Hsnap). simpl.
    apply in_map_iff. exists el.
    rewrite Hnone. split; [reflexivity|exact Hel].
  - intros Hstart.
    rewrite (mouseMove_moving c e1 m Hmode Hsnap), Hstart.
    cbn [elements setElements]. apply map_ext. intros el.
    destruct (mapGet (id el) m) as [snap|]; [|reflexivity].
    rewrite !Rminus_diag. apply moveBy_zero.
Qed.

Lemma move_keeps_identifiers_of_two_elements :
  map id (elements (handleMouseMove movingCanvas (eventAt 25 35 false)))
  = map id (elements movingCanvas).
Proof.
  apply (move_is_relative_to_snapshots
           movingCanvas (eventAt 25 35 false) (eventAt 0 0 false)
           [("a"%string, shape "a" rectangle 0 0 10 10)]).
  - simpl. lra.
  - reflexivity.
  - reflexivity.
  - intros k v H. cbn [mapGet] in H.
    destruct (String.eqb "a" k) eqn:E; [|discriminate H].
    injection H as <-. apply String.eqb_eq in E. exact E.
Defined.

End MoveFacts.

(** ** Pressing the pointer with the selection tool *)

Module ClickFacts.

Import Geometry Interaction.

Lemma mapGet_mapSet (k k' : string) (v : DrawingElement) (m : ElementMap) :
  mapGet k' (mapSet k v m) = if String.eqb k k' then Some v else mapGet k' m.
Proof.
  induction m as [|[a b] m IH]; simpl.
  - reflexivity.
  - destruct (String.eqb a k) eqn:Eak; simpl.
    + apply String.eqb_eq in Eak. subst a.
      destruct (String.eqb k k'); reflexivity.
    + destruct (String.eqb a k') eqn:Eak'.
      * apply String.eqb_eq in Eak'. subst a.
        rewrite String.eqb_sym in Eak. rewrite Eak. reflexivity.
      * exact IH.
Qed.

(** The snapshots taken at pointer-down: filed under the element's
    identifier, and present exactly for the identifiers of the new
    selection that the scene holds. *)
Lemma snapshots_of_selection (sel : list string) (els : list DrawingElement)
      (m0 : ElementMap) :
  let m := fold_left
             (fun m el => if existsb (String.eqb (id el)) sel
                          then mapSet (id el) el m else m) els m0 in
  (keyedById m0 -> keyedById m) /\
  (forall k, mapGet k m <> None <->
             mapGet k m0 <> None \/
             (In k sel /\ exists el, In el els /\ id el = k)) /\
  (forall k v, mapGet k m = Some v -> mapGet k m0 = Some v \/ In v els).
Proof.
  revert m0. induction els as [|a els IH]; intros m0; simpl.
  - split; [tauto|]. split; [|tauto].
    intros k. split; [tauto|]. intros [H|[_ [el [[] _]]]]. exact H.
  - destruct (IH (if existsb (String.eqb (id a)) sel
                  then mapSet (id a) a m0 else m0)) as (Hkey & Hdom & Hval).
    destruct (existsb (String.eqb (id a)) sel) eqn:Hsel.
    + apply CommitFacts.selected_iff in Hsel.
      split; [|split].
      * intros Hk0. apply Hkey. intros k v. rewrite mapGet_mapSet.
        destruct (String.eqb (id a) k) eqn:E.
        -- intros H. injection H as <-. apply String.eqb_eq. exact E.
        -- apply Hk0.
      * intros k. rewrite Hdom, mapGet_mapSet.
        destruct (String.eqb (id a) k) eqn:E.
        -- apply String.eqb_eq in E. subst k. split.
           ++ intros _. right. split; [exact Hsel|].
              exists a. split; [left; reflexivity|reflexivity].
           ++ intros _. left. discriminate.
        -- split.
           ++ intros [H|(Hin & el & Hel & Hid)]; [left; exact H|].
              right. split; [exact Hin|]. exists el. split; [right|]; assumption.
           ++ intros [H|(Hin & el & [<-|Hel] & Hid)].
              ** left. exact H.
              ** apply String.eqb_neq in E. contradiction.
              ** right. split; [exact Hin|]. exists el. split; assumption.
      * intros k v Hv. destruct (Hval k v Hv) as [H|H]; [|right; right; exact H].
        rewrite mapGet_mapSet in H.
        destruct (String.eqb (id a) k); [|left; exact H].
        injection H as <-. right. left. reflexivity.
    + split; [exact Hkey|]. split.
      * intros k. rewrite Hdom. split.
        -- intros [H|(Hin & el & Hel & Hid)]; [left; exact H|].
           right. split; [exact Hin|]. exists el. split; [right|]; assumption.
        -- intros [H|(Hin & el & [<-|Hel] & Hid)].
           ++ left. exact H.
           ++ exfalso. rewrite <- not_true_iff_false in Hsel. apply Hsel.
              apply CommitFacts.selected_iff. rewrite Hid. exact Hin.
           ++ right. split; [exact Hin|]. exists el. split; assumption.
      * intros k v Hv. destruct (Hval k v Hv) as [H|H];
          [left; exact H|right; right; exact H].
Qed.

(** The press of the selection tool on an element, no handle being under
    the pointer. *)
Lemma press_on_element_cases (c : Canvas) (e : MouseEvent) (i : string) :
  effectiveTool c = selection ->
  noHandleUnder c (px (getMousePos c e)) (py (getMousePos c e)) ->
  topmostAt c (px (getMousePos c e)) (py (getMousePos c e)) = Some i ->
  i <> ""%string ->
  let sel := selectedElementIds c in
  let already := existsb (String.eqb i) sel in
  let newSelection :=
    if shiftKey e
    then if already then filter (fun j => negb (String.eqb j i)) sel
         else sel ++ [i]
    else if already then sel else [i] in
  handleMouseDown c e
  = if shiftKey e && already
    then setSelectedElementIds newSelection c
    else setInteractionState
           (mkInteraction m_moving None (getMousePos c e) None
              (Some (fold_left
                       (fun m el =>
                          if existsb (String.eqb (id el)) newSelection
                          then mapSet (id el) el m else m)
                       (elements c) [])))
           (setSelectedElementIds newSelection c).
Proof.
  intros Heff Hno Htop Hi. unfold handleMouseDown. rewrite Heff.
  cbn [Tool_beq]. simpl (if false then _ else _).
  unfold selectionDown. rewrite Htop.
  assert (Htruthy : truthy (Some i) = true).
  { simpl. apply negb_true_iff. apply String.eqb_neq. exact Hi. }
  rewrite Htruthy.
  destruct (selectedElementIds c) as [|s1 [|s2 rest]] eqn:Hsel.
  - reflexivity.
  - destruct (find (fun el => String.eqb (id el) s1) (elements c))
      as [el|] eqn:Hfind.
    + rewrite (Hno s1 el Hsel Hfind). reflexivity.
    + reflexivity.
  - reflexivity.
Qed.

Lemma member_iff (i : string) (l : list string) :
  existsb (String.eqb i) l = true <-> In i l.
Proof.
  rewrite existsb_exists. split.
  - intros (j & Hj & E). apply String.eqb_eq in E. subst j. exact Hj.
  - intros Hi. exists i. split; [exact Hi|apply String.eqb_refl].
Qed.

(** A press of the selection tool on an element (no handle under the
    pointer) never changes the scene.  With shift on a selected element it
    takes the element out of the selection and starts no drag; with shift
    on an unselected one it adds it at the end of the selection; without
    shift it keeps a selection that holds the element and otherwise
    selects the element alone.  In every case but the first a move starts
    at the pointer, with a snapshot, filed under its identifier, for
    exactly the elements of the scene that are now selected.
    The scale is positive, as the view keeps it. *)
Theorem press_on_element_selects_and_starts_move
        (c : Canvas) (e : MouseEvent) (i : string) :
  0 < scale c ->
  effectiveTool c = selection ->
  noHandleUnder c (px (getMousePos c e)) (py (getMousePos c e)) ->
  topmostAt c (px (getMousePos c e)) (py (getMousePos c e)) = Some i ->
  i <> ""%string ->
  elements (handleMouseDown c e) = elements c /\
  (shiftKey e = true -> In i (selectedElementIds c) ->
   (forall j, In j (selectedElementIds (handleMouseDown c e)) <->
              In j (selectedElementIds c) /\ j <> i) /\
   interactionState (handleMouseDown c e) = interactionState c) /\
  (shiftKey e = true -> ~ In i (selectedElementIds c) ->
   selectedElementIds (handleMouseDown c e) = selectedElementIds c ++ [i]) /\
  (shiftKey e = false -> In i (selectedElementIds c) ->
   selectedElementIds (handleMouseDown c e) = selectedElementIds c) /\
  (shiftKey e = false -> ~ In i (selectedElementIds c) ->
   selectedElementIds (handleMouseDown c e) = [i]) /\
  ((shiftKey e = true -> ~ In i (selectedElementIds c)) ->
   mode (interactionState (handleMouseDown c e)) = m_moving /\
   startMousePos (interactionState (handleMouseDown c e)) = getMousePos c e /\
   exists m,
     startElementSnapshots (interactionState (handleMouseDown c e)) = Some m /\
     keyedById m /\
     (forall k, mapGet k m <> None <->
                In k (selectedElementIds (handleMouseDown c e)) /\
                exists el, In el (elements c) /\ id el = k) /\
     (forall k v, mapGet k m = Some v -> In v (elements c))).
Proof.
  intros Hscale Heff Hno Htop Hi.
  rewrite (press_on_element_cases c e i Heff Hno Htop Hi).
  pose proof (member_iff i (selectedElementIds c)) as Hmem.
  destruct (existsb (String.eqb i) (selectedElementIds c)) eqn:Halready.
  - assert (Hin : In i (selectedElementIds c)) by (apply Hmem; reflexivity).
    destruct (shiftKey e) eqn:Hshift; simpl.
    + split; [reflexivity|]. split; [|split; [|split; [|split]]].
      * intros _ _. split; [|reflexivity].
        intros j. rewrite filter_In, negb_true_iff, String.eqb_neq.
        reflexivity.
      * intros _ Hnot. contradiction.
      * discriminate.
      * discriminate.
      * intros Hcontra. exfalso. apply (Hcontra eq_refl). exact Hin.
    + split; [reflexivity|]. split; [discriminate|].
      split; [discriminate|]. split; [reflexivity|].
      split; [intros _ Hnot; contradiction|].
      intros _. split; [reflexivity|]. split; [reflexivity|].
      eexists. split; [reflexivity|].
      destruct (snapshots_of_selection (selectedElementIds c) (elements c) [])
        as (Hkey & Hdom & Hval).
      split; [apply Hkey; intros k v H; discriminate H|]. split.
      * intros k. rewrite Hdom. simpl. split; [intros [H|H]; tauto|tauto].
      * intros k v Hv. destruct (Hval k v Hv) as [H|H];
          [discriminate H|exact H].
  - assert (Hnot : ~ In i (selectedElementIds c)).
    { intros H. apply Hmem in H. discriminate H. }
    destruct (shiftKey e) eqn:Hshift; simpl.
    + split; [reflexivity|]. split; [intros _ H; contradiction|].
      split; [reflexivity|]. split; [discriminate|]. split; [discriminate|].
      intros _. split; [reflexivity|]. split; [reflexivity|].
      eexists. split; [reflexivity|].
      destruct (snapshots_of_selection (selectedElementIds c ++ [i])
                                       (elements c) [])
        as (Hkey & Hdom & Hval).
      split; [apply Hkey; intros k v H; discriminate H|]. split.
      * intros k. rewrite Hdom. simpl. split; [intros [H|H]; tauto|tauto].
      * intros k v Hv. destruct (Hval k v Hv) as [H|H];
          [discriminate H|exact H].
    + split; [reflexivity|]. split; [discriminate|].
      split; [discriminate|]. split; [intros _ H; contradiction|].
      split; [reflexivity|].
      intros _. split; [reflexivity|]. split; [reflexivity|].
      eexists. split; [reflexivity|].
      destruct (snapshots_of_selection [i] (elements c) [])
        as (Hkey & Hdom & Hval).
      split; [apply Hkey; intros k v H; discriminate H|]. split.
      * intros k. rewrite Hdom. simpl. split; [intros [H|H]; tauto|tauto].
      * intros k v Hv. destruct (Hval k v Hv) as [H|H];
          [discriminate H|exact H].
Qed.

Lemma press_selects_square_under_pointer :
  selectedElementIds
    (handleMouseDown (canvasWith [shape "a" rectangle 0 0 10 10] [] [])
                     (eventAt 5 5 false))
  = ["a"%string].
Proof.
  apply (press_on_element_selects_and_starts_move
           (canvasWith [shape "a" rectangle 0 0 10 10] [] [])
           (eventAt 5 5 false) "a"%string).
  - simpl. lra.
  - reflexivity.
  - intros sel el Hsel. discriminate Hsel.
  - unfold topmostAt, isPointInElement, getElementBounds. simpl. reval.
  - discriminate.
  - reflexivity.
  - simpl. tauto.
Defined.

(** The two other outcomes of a press with the selection tool.  On a
    resize handle of the sole selected element it starts a resize with that
    handle and a snapshot of the element, whatever lies under the pointer
    otherwise, and keeps selection and scene.  Where there is neither handle
    nor element it starts a box selection whose two corners are the
    pointer, and empties the selection unless shift is held.
    The scale is positive, as the view keeps it. *)
Theorem press_on_handle_or_on_empty_canvas (c : Canvas) (e : MouseEvent) :
  0 < scale c ->
  effectiveTool c = selection ->
  (forall sel el h,
      selectedElementIds c = [sel] ->
      find (fun el => String.eqb (id el) sel) (elements c) = Some el ->
      getResizeHandleAtPosition (scale c) (px (getMousePos c e))
                                (py (getMousePos c e)) el = Some h ->
      interactionState (handleMouseDown c e)
      = mkInteraction m_resizing (Some h) (getMousePos c e) (Some el) None /\
      selectedElementIds (handleMouseDown c e) = [sel] /\
      elements (handleMouseDown c e) = elements c) /\
  (noHandleUnder c (px (getMousePos c e)) (py (getMousePos c e)) ->
   topmostAt c (px (getMousePos c e)) (py (getMousePos c e)) = None ->
   mode (interactionState (handleMouseDown c e)) = m_selection_box /\
   selectionBox (handleMouseDown c e)
   = Some (getMousePos c e, getMousePos c e) /\
   selectedElementIds (handleMouseDown c e)
   = (if shiftKey e then selectedElementIds c else []) /\
   elements (handleMouseDown c e) = elements c).
Proof.
  intros Hscale Heff. unfold handleMouseDown. rewrite Heff.
  cbn [Tool_beq]. simpl (if false then _ else _).
  unfold selectionDown. split.
  - intros sel el h Hsel Hfind Hhandle.
    rewrite Hsel, Hfind, Hhandle. simpl. repeat split. exact Hsel.
  - intros Hno Htop. rewrite Htop.
    assert (Hnone :
              match selectedElementIds c with
              | [sel] =>
                  match find (fun el => String.eqb (id el) sel) (elements c)
                  with
                  | Some selectedEl =>
                      match getResizeHandleAtPosition
                              (scale c) (px (getMousePos c e))
                              (py (getMousePos c e)) selectedEl with
                      | Some handle => Some (handle, selectedEl)
                      | None => None
                      end
                  | None => None
                  end
              | _ => None
              end = None).
    { destruct (selectedElementIds c) as [|s1 [|s2 rest]] eqn:Hsel;
        try reflexivity.
      destruct (find (fun el => String.eqb (id el) s1) (elements c))
        as [el|] eqn:Hfind; [|reflexivity].
      rewrite (Hno s1 el Hsel Hfind). reflexivity. }
    rewrite Hnone. destruct (shiftKey e); repeat split.
Qed.

Lemma press_on_empty_canvas_clears_selection :
  selectedElementIds
    (handleMouseDown (canvasWith [shape "a" rectangle 0 0 10 10]
                                 ["a"%string] [])
                     (eventAt 500 500 false))
  = [].
Proof.
  apply (proj2 (press_on_handle_or_on_empty_canvas
                  (canvasWith [shape "a" rectangle 0 0 10 10] ["a"%string] [])
                  (eventAt 500 500 false) Rlt_0_1 eq_refl)).
  - intros sel el Hsel Hfind.
    injection Hsel as <-. simpl in Hfind. injection Hfind as <-.
    unfold getResizeHandleAtPosition, near, HANDLE_SIZE, elX, elY. simpl.
    reval.
  - unfold topmostAt, isPointInElement, getElementBounds. simpl. reval.
Defined.

End ClickFacts.

(** ** Whole gestures *)

Module GestureFacts.

Import Geometry Interaction.

Lemma push_head (s : list DrawingElement) (c : Canvas) :
  History.snapshotAt (historyIndex (History.pushToHistory s c))
                     (History.pushToHistory s c) = s.
Proof.
  unfold History.snapshotAt, History.pushToHistory. simpl.
  rewrite length_app. simpl. rewrite app_nth2 by lia.
  replace (List.length (firstn (historyIndex c + 1) (history c)) + 1 - 1
           - List.length (firstn (historyIndex c + 1) (history c)))%nat
    with 0%nat by lia.
  reflexivity.
Qed.

Lemma normalize_box_fields (e : DrawingElement) (w h : R) :
  isBoxLike (type e) = true ->
  width e = Some w -> height e = Some h ->
  id (normalizeElement e) = id e /\
  type (normalizeElement e) = type e /\
  x (normalizeElement e) = Rmin (x e) (x e + w) /\
  y (normalizeElement e) = Rmin (y e) (y e + h) /\
  width (normalizeElement e) = Some (Rabs w) /\
  height (normalizeElement e) = Some (Rabs h).
Proof.
  intros Hbox Hw Hh. unfold normalizeElement. rewrite Hbox, Hw, Hh. simpl.
  unfold Rltb.
  destruct (Rlt_dec w 0), (Rlt_dec h 0); simpl; rewrite ?Hw, ?Hh;
    repeat split;
    first [reflexivity | solve [rcases] | solve [f_equal; rcases]].
Qed.

Lemma normalize_fixes_lines (e : DrawingElement) :
  isBoxLike (type e) = false -> normalizeElement e = e.
Proof. intros H. unfold normalizeElement. rewrite H. reflexivity. Qed.

(** The three handlers on a canvas whose tool draws a box or a line: what
    each of them does to the state. *)
Lemma mouseDown_drawing_tool (c : Canvas) (e : MouseEvent) (t : Tool) :
  effectiveTool c = t ->
  In t [rectangle; diamond; ellipse; arrow; line; long_position;
        short_position] ->
  handleMouseDown c e
  = setCurrentElement
      (Some (newElement c (now e) t (px (getMousePos c e))
                        (py (getMousePos c e))))
      (setInteractionState
         (mkInteraction m_drawing None
            (mkPoint (px (getMousePos c e)) (py (getMousePos c e)))
            None None) c).
Proof.
  intros Ht Hin. unfold handleMouseDown. cbv zeta. rewrite Ht.
  destruct Hin as [<-|[<-|[<-|[<-|[<-|[<-|[<-|[]]]]]]]]; reflexivity.
Qed.

Lemma mouseMove_drawing_tool (c : Canvas) (e : MouseEvent) (t : Tool)
      (prev : DrawingElement) :
  effectiveTool c = t ->
  In t [rectangle; diamond; ellipse; arrow; line; long_position;
        short_position] ->
  mode (interactionState c) = m_drawing ->
  currentElement c = Some prev ->
  handleMouseMove c e
  = setCurrentElement
      (Some (withSize (Some (px (getMousePos c e) - elX prev))
                      (Some (py (getMousePos c e) - elY prev)) prev)) c.
Proof.
  intros Ht Hin Hm Hcur. unfold handleMouseMove. cbv zeta.
  rewrite Ht, Hm, Hcur.
  destruct Hin as [<-|[<-|[<-|[<-|[<-|[<-|[<-|[]]]]]]]]; reflexivity.
Qed.

Lemma mouseUp_drawing_tool (c : Canvas) (e : MouseEvent) (t : Tool)
      (cur : DrawingElement) :
  effectiveTool c = t ->
  In t [rectangle; diamond; ellipse; arrow; line; long_position;
        short_position] ->
  mode (interactionState c) = m_drawing ->
  currentElement c = Some cur ->
  type cur = t ->
  handleMouseUp c e
  = let newElements := elements c ++ [normalizeElement cur] in
    let c6 :=
      setCurrentElement None
        (setInteractionState idle
           (History.pushToHistory newElements
              (setSelectedElementIds [id (normalizeElement cur)]
                 (setElements newElements c)))) in
    if lockTool c then c6 else setTool selection c6.
Proof.
  intros Ht Hin Hm Hcur Hty. unfold handleMouseUp. cbv zeta.
  rewrite Ht, Hm, Hcur, Hty.
  destruct Hin as [<-|[<-|[<-|[<-|[<-|[<-|[<-|[]]]]]]]];
    destruct (lockTool c); reflexivity.
Qed.

Lemma newElement_fields (c : Canvas) (i : string) (t : Tool) (a b : R) :
  In t [rectangle; diamond; ellipse; arrow; line; long_position;
        short_position] ->
  id (newElement c i t a b) = i /\ type (newElement c i t a b) = t /\
  x (newElement c i t a b) = a /\ y (newElement c i t a b) = b.
Proof.
  intros Hin.
  destruct Hin as [<-|[<-|[<-|[<-|[<-|[<-|[<-|[]]]]]]]];
    repeat split; reflexivity.
Qed.

(** What a press, a move and a release leave behind with one of the
    drawing tools that span a box: the element in progress, resized by the
    move, is normalized and appended. *)
Lemma drawing_gesture (c : Canvas) (t : Tool) (e1 e2 e3 : MouseEvent) :
  tool c = t -> isSpacePressed c = false ->
  In t [rectangle; diamond; ellipse; arrow; line; long_position;
        short_position] ->
  let r := handleMouseUp (handleMouseMove (handleMouseDown c e1) e2) e3 in
  let cur :=
    withSize (Some (px (getMousePos c e2) - px (getMousePos c e1)))
             (Some (py (getMousePos c e2) - py (getMousePos c e1)))
             (newElement c (now e1) t (px (getMousePos c e1))
                         (py (getMousePos c e1))) in
  elements r = elements c ++ [normalizeElement cur] /\
  selectedElementIds r = [id (normalizeElement cur)] /\
  History.snapshotAt (historyIndex r) r
  = elements c ++ [normalizeElement cur] /\
  tool r = (if lockTool c then t else selection) /\
  mode (interactionState r) = m_none /\
  currentElement r = None.
Proof.
  intros Ht Hs Hin r cur.
  assert (Heff : effectiveTool c = t)
    by (unfold effectiveTool; rewrite Hs; exact Ht).
  destruct (newElement_fields c (now e1) t (px (getMousePos c e1))
              (py (getMousePos c e1)) Hin) as (_ & Hty & Hx & Hy).
  pose proof (mouseDown_drawing_tool c e1 t Heff Hin) as H1.
  assert (H2 : handleMouseMove (handleMouseDown c e1) e2
               = setCurrentElement (Some cur) (handleMouseDown c e1)).
  { rewrite (mouseMove_drawing_tool (handleMouseDown c e1) e2 t
               (newElement c (now e1) t (px (getMousePos c e1))
                           (py (getMousePos c e1))));
      try (rewrite H1; first [exact Heff | reflexivity]); [|exact Hin].
    unfold cur, elX, elY. rewrite Hx, Hy. rewrite H1. reflexivity. }
  assert (H3 : r = let newElements := elements c ++ [normalizeElement cur] in
               let c6 :=
                 setCurrentElement None
                   (setInteractionState idle
                      (History.pushToHistory newElements
                         (setSelectedElementIds [id (normalizeElement cur)]
                            (setElements newElements c))))
               in if lockTool c then c6 else setTool selection c6).
  { assert (Heff2 : effectiveTool (handleMouseMove (handleMouseDown c e1) e2)
                     = t) by (rewrite H2, H1; exact Heff).
    assert (Hm2 : mode (interactionState
                          (handleMouseMove (handleMouseDown c e1) e2))
                  = m_drawing) by (rewrite H2, H1; reflexivity).
    assert (Hc2 : currentElement (handleMouseMove (handleMouseDown c e1) e2)
                  = Some cur) by (rewrite H2; reflexivity).
    unfold r.
    rewrite (mouseUp_drawing_tool _ e3 t cur Heff2 Hin Hm2 Hc2 Hty).
    rewrite H2, H1. reflexivity. }
  clearbody cur. rewrite H3. cbv zeta.
  generalize (normalizeElement cur) as el. intros el.
  destruct (lockTool c).
  - repeat split; try reflexivity; try exact (push_head _ _).
    exact Ht.
  - repeat split; try reflexivity; try exact (push_head _ _).
Qed.

(** Drawing a shape.  With the rectangle, diamond, ellipse or a position
    tool chosen and the space bar up, a press at [p], a move to [q] and a
    release add exactly one element on top of the scene: of the tool's kind,
    identified by the clock reading of the press; on each axis its origin
    is the smaller of [p] and [p + (q - p)] and its extent the absolute
    value of [q - p], not negative whichever way the drag went.  The
    element becomes the selection, the new scene is the head of the history,
    the gesture is over, and the tool falls back to the selection tool
    unless the tool is locked.
    The scale is positive, as the view keeps it. *)
Theorem shape_gesture_commits_spanned_rectangle
        (c : Canvas) (t : Tool) (e1 e2 e3 : MouseEvent) :
  0 < scale c ->
  tool c = t -> isSpacePressed c = false ->
  In t [rectangle; diamond; ellipse; long_position; short_position] ->
  exists el,
    elements (handleMouseUp (handleMouseMove (handleMouseDown c e1) e2) e3)
    = elements c ++ [el] /\
    id el = now e1 /\ type el = t /\
    x el = Rmin (px (getMousePos c e1))
                (px (getMousePos c e1)
                 + (px (getMousePos c e2) - px (getMousePos c e1))) /\
    y el = Rmin (py (getMousePos c e1))
                (py (getMousePos c e1)
                 + (py (getMousePos c e2) - py (getMousePos c e1))) /\
    width el = Some (Rabs (px (getMousePos c e2) - px (getMousePos c e1))) /\
    height el = Some (Rabs (py (getMousePos c e2) - py (getMousePos c e1))) /\
    selectedElementIds
      (handleMouseUp (handleMouseMove (handleMouseDown c e1) e2) e3)
    = [now e1] /\
    History.snapshotAt
      (historyIndex
         (handleMouseUp (handleMouseMove (handleMouseDown c e1) e2) e3))
      (handleMouseUp (handleMouseMove (handleMouseDown c e1) e2) e3)
    = elements c ++ [el] /\
    tool (handleMouseUp (handleMouseMove (handleMouseDown c e1) e2) e3)
    = (if lockTool c then t else selection) /\
    mode (interactionState
            (handleMouseUp (handleMouseMove (handleMouseDown c e1) e2) e3))
    = m_none /\
    currentElement
      (handleMouseUp (handleMouseMove (handleMouseDown c e1) e2) e3) = None.
Proof.
  intros Hscale Ht Hs Hin.
  assert (Hin7 : In t [rectangle; diamond; ellipse; arrow; line;
                       long_position; short_position])
    by (simpl in Hin |- *; tauto).
  destruct (drawing_gesture c t e1 e2 e3 Ht Hs Hin7)
    as (Hels & Hsel & Hhist & Htool & Hmode & Hcur).
  cbv zeta in Hels, Hsel, Hhist.
  destruct (newElement_fields c (now e1) t (px (getMousePos c e1))
              (py (getMousePos c e1)) Hin7) as (Hid & Hty & Hx & Hy).
  match type of Hels with
  | context [normalizeElement ?E] =>
      destruct (normalize_box_fields E
                  (px (getMousePos c e2) - px (getMousePos c e1))
                  (py (getMousePos c e2) - py (getMousePos c e1)))
        as (Nid & Nty & Nx & Ny & Nw & Nh);
      [ change (isBoxLike (type (newElement c (now e1) t
                                   (px (getMousePos c e1))
                                   (py (getMousePos c e1)))) = true);
        rewrite Hty;
        destruct Hin as [<-|[<-|[<-|[<-|[<-|[]]]]]]; reflexivity
      | reflexivity | reflexivity | ];
      exists (normalizeElement E)
  end.
  rewrite Nid, Nty, Nx, Ny, Nw, Nh.
  change (id (withSize ?a ?b ?e)) with (id e).
  change (type (withSize ?a ?b ?e)) with (type e).
  change (x (withSize ?a ?b ?e)) with (x e).
  change (y (withSize ?a ?b ?e)) with (y e).
  rewrite Hid, Hty, Hx, Hy.
  rewrite Hsel, Nid.
  change (id (withSize ?a ?b ?e)) with (id e). rewrite Hid.
  repeat split; try assumption; try reflexivity.
Qed.

(** The scenario of the rectangle dragged from [(50, 50)] back to
    [(10, 10)] at scale 1 without pan. *)
Lemma backward_rectangle_gesture :
  map (fun el => (x el, y el, width el, height el))
      (elements (handleMouseUp
                   (handleMouseMove
                      (handleMouseDown (canvasWithTool rectangle)
                                       (eventAt 50 50 false))
                      (eventAt 10 10 false))
                   (eventAt 10 10 false)))
  = [(10, 10, Some 40, Some 40)].
Proof.
  destruct (shape_gesture_commits_spanned_rectangle
              (canvasWithTool rectangle) rectangle
              (eventAt 50 50 false) (eventAt 10 10 false)
              (eventAt 10 10 false) Rlt_0_1 eq_refl eq_refl
              (or_introl eq_refl))
    as (el & Hels & _ & _ & Hx & Hy & Hw & Hh & _).
  rewrite Hels. simpl. rewrite Hx, Hy, Hw, Hh. simpl.
  repeat f_equal; reval.
Defined.

(** Drawing a line or an arrow.  The same gesture with the line or the
    arrow tool adds one element whose origin is the press point and whose
    width and height are the signed drag: the direction of the stroke is
    kept, a drag to the left or upwards leaving a negative extent in the
    committed scene.
    The scale is positive, as the view keeps it. *)
Theorem line_gesture_keeps_direction
        (c : Canvas) (t : Tool) (e1 e2 e3 : MouseEvent) :
  0 < scale c ->
  tool c = t -> isSpacePressed c = false ->
  In t [arrow; line] ->
  exists el,
    elements (handleMouseUp (handleMouseMove (handleMouseDown c e1) e2) e3)
    = elements c ++ [el] /\
    id el = now e1 /\ type el = t /\
    x el = px (getMousePos c e1) /\ y el = py (getMousePos c e1) /\
    width el = Some (px (getMousePos c e2) - px (getMousePos c e1)) /\
    height el = Some (py (getMousePos c e2) - py (getMousePos c e1)) /\
    selectedElementIds
      (handleMouseUp (handleMouseMove (handleMouseDown c e1) e2) e3)
    = [now e1] /\
    tool (handleMouseUp (handleMouseMove (handleMouseDown c e1) e2) e3)
    = (if lockTool c then t else selection).
Proof.
  intros Hscale Ht Hs Hin.
  assert (Hin7 : In t [rectangle; diamond; ellipse; arrow; line;
                       long_position; short_position])
    by (simpl in Hin |- *; tauto).
  destruct (drawing_gesture c t e1 e2 e3 Ht Hs Hin7)
    as (Hels & Hsel & _ & Htool & _).
  cbv zeta in Hels, Hsel.
  destruct (newElement_fields c (now e1) t (px (getMousePos c e1))
              (py (getMousePos c e1)) Hin7) as (Hid & Hty & Hx & Hy).
  rewrite normalize_fixes_lines in Hels, Hsel
    by (change (isBoxLike (type (newElement c (now e1) t
                                   (px (getMousePos c e1))
                                   (py (getMousePos c e1)))) = false);
        rewrite Hty; destruct Hin as [<-|[<-|[]]]; reflexivity).
  eexists. split; [exact Hels|].
  rewrite Hsel.
  change (id (withSize ?a ?b ?e)) with (id e).
  change (type (withSize ?a ?b ?e)) with (type e).
  change (x (withSize ?a ?b ?e)) with (x e).
  change (y (withSize ?a ?b ?e)) with (y e).
  rewrite Hid, Hty, Hx, Hy.
  repeat split; try assumption; reflexivity.
Qed.

Lemma leftward_arrow_keeps_negative_width :
  exists el,
    elements (handleMouseUp
                (handleMouseMove
                   (handleMouseDown (canvasWithTool arrow)
                                    (eventAt 50 50 false))
                   (eventAt 10 50 false))
                (eventAt 10 50 false))
    = [] ++ [el] /\
    width el
    = Some (px (getMousePos (canvasWithTool arrow) (eventAt 10 50 false))
            - px (getMousePos (canvasWithTool arrow) (eventAt 50 50 false))).
Proof.
  destruct (line_gesture_keeps_direction
              (canvasWithTool arrow) arrow
              (eventAt 50 50 false) (eventAt 10 50 false)
              (eventAt 10 50 false) Rlt_0_1 eq_refl eq_refl
              (or_introl eq_refl))
    as (el & Hels & _ & _ & _ & _ & Hw & _).
  exists el. split; [exact Hels|exact Hw].
Defined.

End GestureFacts.

(** ** Freehand strokes *)

Module PencilFacts.

Import Geometry Interaction.

(** What a pointer-move does while the pencil is drawing. *)
Lemma mouseMove_pencil (c : Canvas) (e : MouseEvent) (prev : DrawingElement) :
  effectiveTool c = pencil ->
  mode (interactionState c) = m_drawing ->
  currentElement c = Some prev ->
  handleMouseMove c e
  = setCurrentElement
      (Some (withSize
               (Some (Rmax (orZero (width prev))
                           (px (getMousePos c e) - elX prev)))
               (Some (Rmax (orZero (height prev))
                           (py (getMousePos c e) - elY prev)))
               (withPoints
                  (Some (match points prev with
                         | Some pts => pts
                         | None => []
                         end ++ [getMousePos c e])) prev))) c.
Proof.
  intros Heff Hmode Hcur. unfold handleMouseMove.
  rewrite Heff, Hmode, Hcur. reflexivity.
Qed.

(** A run of pointer-moves with the pencil appends the pointer positions,
    in order, to the points of the stroke in progress and touches nothing
    else of the canvas. *)
Lemma pencil_moves_accumulate (moves : list MouseEvent) :
  forall (c : Canvas) (prev : DrawingElement) (pts : list Point),
    effectiveTool c = pencil ->
    mode (interactionState c) = m_drawing ->
    currentElement c = Some prev ->
    points prev = Some pts ->
    exists cur,
      fold_left handleMouseMove moves c = setCurrentElement (Some cur) c /\
      points cur = Some (pts ++ map (getMousePos c) moves) /\
      id cur = id prev /\ type cur = type prev /\ attrs cur = attrs prev.
Proof.
  induction moves as [|e moves IH]; intros c prev pts Heff Hmode Hcur Hpts.
  - exists prev. simpl. rewrite app_nil_r.
    repeat split; try assumption.
    destruct c; simpl in *. rewrite Hcur. reflexivity.
  - simpl. rewrite (mouseMove_pencil c e prev Heff Hmode Hcur). rewrite Hpts.
    edestruct (IH (setCurrentElement
                     (Some (withSize
                              (Some (Rmax (orZero (width prev))
                                          (px (getMousePos c e) - elX prev)))
                              (Some (Rmax (orZero (height prev))
                                          (py (getMousePos c e) - elY prev)))
                              (withPoints (Some (pts ++ [getMousePos c e]))
                                          prev))) c))
      as (cur & Hrun & Hp & Hi & Ht & Ha);
      [exact Heff|exact Hmode|reflexivity|reflexivity|].
    exists cur. rewrite Hrun. repeat split.
    + rewrite Hp, <- app_assoc. reflexivity.
    + exact Hi.
    + exact Ht.
    + exact Ha.
Qed.

Lemma minOf_le_maxOf (a : R) (l : list R) : minOf a l <= maxOf a l.
Proof.
  eapply Rle_trans; [apply minOf_le_start|apply maxOf_ge_start].
Qed.

(** Fitting an element to its points gives it the origin and the extent of
    the bounds of the points, and leaves points, identifier and kind
    alone. *)
Lemma fitToPoints_fields (e : DrawingElement) (p : Point) (ps : list Point) :
  points e = Some (p :: ps) ->
  x (fitToPoints e) = minOf (px p) (map px ps) /\
  y (fitToPoints e) = minOf (py p) (map py ps) /\
  width (fitToPoints e)
  = Some (maxOf (px p) (map px ps) - minOf (px p) (map px ps)) /\
  height (fitToPoints e)
  = Some (maxOf (py p) (map py ps) - minOf (py p) (map py ps)) /\
  points (fitToPoints e) = points e /\
  id (fitToPoints e) = id e /\ type (fitToPoints e) = type e.
Proof.
  intros Hp. unfold fitToPoints. rewrite Hp. repeat split.
  simpl. exact Hp.
Qed.

(** A pencil stroke.  With the pencil chosen and the space bar up, a press,
    any run of pointer-moves and a release add exactly one pencil element
    on top of the scene whose points are the world positions of the press
    and of the moves, in order, whose origin is the lower corner of the
    bounds of these points and whose width and height are the differences
    of the upper and lower bounds, not negative.
    The stroke becomes the selection, the new scene is the head of the
    history, and the pencil stays the tool, locked or not.
    The scale is positive, as the view keeps it. *)
Theorem pencil_stroke_collects_pointer_positions
        (c : Canvas) (e1 e3 : MouseEvent) (moves : list MouseEvent) :
  0 < scale c ->
  tool c = pencil -> isSpacePressed c = false ->
  exists el w h,
    elements (handleMouseUp
                (fold_left handleMouseMove moves (handleMouseDown c e1)) e3)
    = elements c ++ [el] /\
    id el = now e1 /\ type el = pencil /\
    points el = Some (map (getMousePos c) (e1 :: moves)) /\
    width el = Some w /\ height el = Some h /\ 0 <= w /\ 0 <= h /\
    x el = minX (getElementBounds el) /\
    y el = minY (getElementBounds el) /\
    w = maxX (getElementBounds el) - minX (getElementBounds el) /\
    h = maxY (getElementBounds el) - minY (getElementBounds el) /\
    selectedElementIds
      (handleMouseUp
         (fold_left handleMouseMove moves (handleMouseDown c e1)) e3)
    = [now e1] /\
    History.snapshotAt
      (historyIndex
         (handleMouseUp
            (fold_left handleMouseMove moves (handleMouseDown c e1)) e3))
      (handleMouseUp
         (fold_left handleMouseMove moves (handleMouseDown c e1)) e3)
    = elements c ++ [el] /\
    tool (handleMouseUp
            (fold_left handleMouseMove moves (handleMouseDown c e1)) e3)
    = pencil.
Proof.
  intros Hscale Ht Hs.
  assert (Heff : effectiveTool c = pencil)
    by (unfold effectiveTool; rewrite Hs; exact Ht).
  assert (Hdown : handleMouseDown c e1
                  = setCurrentElement
                      (Some (newElement c (now e1) pencil
                                        (px (getMousePos c e1))
                                        (py (getMousePos c e1))))
                      (setInteractionState
                         (mkInteraction m_drawing None (getMousePos c e1)
                                        None None) c)).
  { unfold handleMouseDown. rewrite Heff. reflexivity. }
  rewrite Hdown.
  edestruct (pencil_moves_accumulate moves
               (setCurrentElement
                  (Some (newElement c (now e1) pencil
                                    (px (getMousePos c e1))
                                    (py (getMousePos c e1))))
                  (setInteractionState
                     (mkInteraction m_drawing None (getMousePos c e1)
                                    None None) c)))
    as (cur & Hrun & Hpts & Hid & Hty & _);
    [exact Heff|reflexivity|reflexivity|reflexivity|].
  rewrite Hrun. simpl in Hid, Hty.
  change (map (getMousePos _) moves) with (map (getMousePos c) moves) in Hpts.
  change ([{| px := px (getMousePos c e1); py := py (getMousePos c e1) |}]
          ++ map (getMousePos c) moves)
    with (getMousePos c e1 :: map (getMousePos c) moves) in Hpts.
  destruct (fitToPoints_fields cur _ _ Hpts)
    as (Fx & Fy & Fw & Fh & Fp & Fi & Ft).
  assert (Hbox : isBoxLike (type (fitToPoints cur)) = false)
    by (rewrite Ft, Hty; reflexivity).
  exists (fitToPoints cur),
         (maxOf (px (getMousePos c e1))
                (map px (map (getMousePos c) moves))
          - minOf (px (getMousePos c e1))
                  (map px (map (getMousePos c) moves))),
         (maxOf (py (getMousePos c e1))
                (map py (map (getMousePos c) moves))
          - minOf (py (getMousePos c e1))
                  (map py (map (getMousePos c) moves))).
  assert (Hup : handleMouseUp
                  (setCurrentElement (Some cur)
                     (setCurrentElement
                        (Some (newElement c (now e1) pencil
                                          (px (getMousePos c e1))
                                          (py (getMousePos c e1))))
                        (setInteractionState
                           (mkInteraction m_drawing None (getMousePos c e1)
                                          None None) c))) e3
                = setCurrentElement None
                    (setInteractionState idle
                       (History.pushToHistory
                          (elements c ++ [fitToPoints cur])
                          (setSelectedElementIds [id (fitToPoints cur)]
                             (setElements (elements c ++ [fitToPoints cur])
                                          c))))).
  { unfold handleMouseUp.
    change (effectiveTool (setCurrentElement _ _)) with (effectiveTool c).
    rewrite Heff.
    cbn -[normalizeElement fitToPoints History.pushToHistory].
    rewrite Hty.
    cbn -[normalizeElement fitToPoints History.pushToHistory].
    rewrite (GestureFacts.normalize_fixes_lines _ Hbox).
    rewrite !andb_false_r. reflexivity. }
  rewrite Hup.
  pose proof (minOf_le_maxOf (px (getMousePos c e1))
                             (map px (map (getMousePos c) moves))) as Hxle.
  pose proof (minOf_le_maxOf (py (getMousePos c e1))
                             (map py (map (getMousePos c) moves))) as Hyle.
  split; [reflexivity|]. split; [rewrite Fi; exact Hid|].
  split; [rewrite Ft; exact Hty|]. split; [rewrite Fp; exact Hpts|].
  split; [exact Fw|]. split; [exact Fh|].
  split; [lra|]. split; [lra|].
  assert (Hb : getElementBounds (fitToPoints cur)
               = mkBounds
                   (minOf (px (getMousePos c e1))
                          (map px (map (getMousePos c) moves)))
                   (maxOf (px (getMousePos c e1))
                          (map px (map (getMousePos c) moves)))
                   (minOf (py (getMousePos c e1))
                          (map py (map (getMousePos c) moves)))
                   (maxOf (py (getMousePos c e1))
                          (map py (map (getMousePos c) moves)))).
  { unfold getElementBounds. rewrite Ft, Hty, Fp, Hpts. reflexivity. }
  rewrite Hb. cbn [minX maxX minY maxY].
  split; [exact Fx|]. split; [exact Fy|].
  split; [reflexivity|]. split; [reflexivity|].
  split; [|split].
  - simpl. rewrite Fi, Hid. reflexivity.
  - exact (GestureFacts.push_head _ _).
  - simpl. exact Ht.
Qed.

Lemma pencil_stroke_of_three_positions :
  exists el w h,
    elements (handleMouseUp
                (fold_left handleMouseMove
                           [eventAt 20 30 false; eventAt 40 10 false]
                           (handleMouseDown (canvasWithTool pencil)
                                            (eventAt 10 10 false)))
                (eventAt 40 10 false))
    = [] ++ [el] /\
    width el = Some w /\ height el = Some h /\ 0 <= w /\ 0 <= h.
Proof.
  destruct (pencil_stroke_collects_pointer_positions
              (canvasWithTool pencil) (eventAt 10 10 false)
              (eventAt 40 10 false)
              [eventAt 20 30 false; eventAt 40 10 false]
              Rlt_0_1 eq_refl eq_refl)
    as (el & w & h & Hels & _ & _ & _ & Hw & Hh & Hwp & Hhp & _).
  exists el, w, h. repeat split; assumption.
Defined.

End PencilFacts.

(** ** The path tool *)

Module PathFacts.

Import Geometry Interaction.

Lemma removelast_length (a : Point) (l : list Point) :
  List.length (removelast (a :: l)) = List.length l.
Proof.
  revert a. induction l as [|b l IH]; intros a; [reflexivity|].
  change (removelast (a :: b :: l)) with (a :: removelast (b :: l)).
  cbn [List.length]. f_equal. apply IH.
Qed.

Lemma setLast_length (v : Point) (pts : list Point) :
  List.length (setLast v pts) = List.length pts.
Proof.
  destruct pts as [|a l]; [reflexivity|].
  unfold setLast. rewrite length_app, removelast_length. simpl. lia.
Qed.

Lemma setLast_head (v d : Point) (pts : list Point) :
  (2 <= List.length pts)%nat -> nth 0 (setLast v pts) d = nth 0 pts d.
Proof.
  destruct pts as [|a [|b l]]; simpl; try lia. reflexivity.
Qed.

Lemma setCurrentElement_same (c : Canvas) (cur : DrawingElement) :
  currentElement c = Some cur -> setCurrentElement (Some cur) c = c.
Proof. intros H. destruct c; simpl in *. rewrite H. reflexivity. Qed.

Lemma path_step (c : Canvas) (cur : DrawingElement) (pts : list Point)
      (s : PointerStep) :
  building c cur pts -> singlePress s ->
  exists cur' pts',
    building (pointerStep c s) cur' pts' /\
    pointerStep c s = setCurrentElement (Some cur') c /\
    id cur' = id cur /\
    List.length pts'
    = (List.length pts + if isPress s then 1 else 0)%nat /\
    (forall d, nth 0 pts' d = nth 0 pts d).
Proof.
  intros (Heff & Hmode & Hcur & Hty & Hpts & Hlen) Hsingle.
  destruct s as [e|e|e]; simpl.
  - exists (withPoints (Some (setLast (getMousePos c e) pts)) cur),
           (setLast (getMousePos c e) pts).
    assert (Hmove : handleMouseMove c e
                    = setCurrentElement
                        (Some (withPoints
                                 (Some (setLast (getMousePos c e) pts)) cur))
                        c).
    { unfold handleMouseMove. rewrite Heff, Hmode, Hcur. simpl.
      rewrite Hpts. reflexivity. }
    rewrite Hmove. unfold building. simpl. rewrite setLast_length.
    repeat split; try assumption; try lia.
    intros d. apply setLast_head. exact Hlen.
  - exists (withPoints (Some (setLast (getMousePos c e) pts
                              ++ [getMousePos c e])) cur),
           (setLast (getMousePos c e) pts ++ [getMousePos c e]).
    assert (Hdown : handleMouseDown c e
                    = setCurrentElement
                        (Some (withPoints
                                 (Some (setLast (getMousePos c e) pts
                                        ++ [getMousePos c e])) cur)) c).
    { unfold handleMouseDown. rewrite Heff. simpl.
      unfold pathDown. rewrite Hcur, Hty, Hpts.
      simpl in Hsingle. apply Nat.eqb_neq in Hsingle.
      rewrite Hsingle. reflexivity. }
    rewrite Hdown. unfold building. simpl.
    rewrite length_app, setLast_length. simpl.
    repeat split; try assumption; try lia.
    intros d. rewrite app_nth1 by (rewrite setLast_length; lia).
    apply setLast_head. exact Hlen.
  - exists cur, pts.
    assert (Hup : handleMouseUp c e = c).
    { unfold handleMouseUp. rewrite Heff. reflexivity. }
    rewrite Hup.
    split; [unfold building; repeat split; assumption|].
    split; [symmetry; apply setCurrentElement_same; exact Hcur|].
    split; [reflexivity|]. split; [lia|reflexivity].
Qed.

Lemma path_steps (steps : list PointerStep) :
  forall (c : Canvas) (cur : DrawingElement) (pts : list Point),
    building c cur pts -> Forall singlePress steps ->
    exists cur' pts',
      building (fold_left pointerStep steps c) cur' pts' /\
      fold_left pointerStep steps c = setCurrentElement (Some cur') c /\
      id cur' = id cur /\
      List.length pts'
      = (List.length pts + List.length (filter isPress steps))%nat /\
      (forall d, nth 0 pts' d = nth 0 pts d).
Proof.
  induction steps as [|s steps IH]; intros c cur pts Hb Hall.
  - exists cur, pts. simpl.
    split; [exact Hb|]. split; [|split; [reflexivity|split; [lia|]]].
    + destruct Hb as (_ & _ & Hcur & _). symmetry.
      apply setCurrentElement_same. exact Hcur.
    + reflexivity.
  - inversion Hall as [|s' l' Hs Hrest]; subst.
    destruct (path_step c cur pts s Hb Hs)
      as (cur1 & pts1 & Hb1 & Hstep & Hid1 & Hlen1 & Hhd1).
    destruct (IH _ cur1 pts1 Hb1 Hrest)
      as (cur2 & pts2 & Hb2 & Hrun & Hid2 & Hlen2 & Hhd2).
    exists cur2, pts2. simpl.
    split; [exact Hb2|]. split; [|split; [|split]].
    + rewrite Hrun, Hstep. reflexivity.
    + rewrite Hid2. exact Hid1.
    + rewrite Hlen2, Hlen1. destruct (isPress s); simpl; lia.
    + intros d. rewrite Hhd2. apply Hhd1.
Qed.

(** Building a path.  With the path tool chosen, the space bar up and no
    element in progress, a first press starts a path; through any run of
    moves, single presses and releases that follows the scene is untouched,
    and the path in progress has two points more than there were presses in
    the run, the first of them the point of the first press.  The second
    press of a double click then commits the path on top of the scene with
    exactly those points, with origin and extent fitted to their bounds,
    selects it, ends the gesture and lets the tool fall back to the
    selection tool unless it is locked.
    The scale is positive, as the view keeps it. *)
Theorem path_tool_builds_polyline
        (c : Canvas) (e1 e2 : MouseEvent) (steps : list PointerStep) :
  0 < scale c ->
  tool c = path -> isSpacePressed c = false -> currentElement c = None ->
  Forall singlePress steps -> detail e2 = 2%nat ->
  elements (fold_left pointerStep steps (handleMouseDown c e1)) = elements c /\
  exists el pts,
    elements (handleMouseDown
                (fold_left pointerStep steps (handleMouseDown c e1)) e2)
    = elements c ++ [el] /\
    id el = now e1 /\ type el = path /\
    points el = Some pts /\
    List.length pts = (2 + List.length (filter isPress steps))%nat /\
    (forall d, nth 0 pts d = getMousePos c e1) /\
    x el = minX (getElementBounds el) /\
    y el = minY (getElementBounds el) /\
    width el
    = Some (maxX (getElementBounds el) - minX (getElementBounds el)) /\
    height el
    = Some (maxY (getElementBounds el) - minY (getElementBounds el)) /\
    currentElement
      (handleMouseDown
         (fold_left pointerStep steps (handleMouseDown c e1)) e2) = None /\
    mode (interactionState
            (handleMouseDown
               (fold_left pointerStep steps (handleMouseDown c e1)) e2))
    = m_none /\
    selectedElementIds
      (handleMouseDown
         (fold_left pointerStep steps (handleMouseDown c e1)) e2)
    = [now e1] /\
    tool (handleMouseDown
            (fold_left pointerStep steps (handleMouseDown c e1)) e2)
    = (if lockTool c then path else selection).
Proof.
  intros Hscale Ht Hs Hnone Hall Hdouble.
  assert (Heff : effectiveTool c = path)
    by (unfold effectiveTool; rewrite Hs; exact Ht).
  set (p := getMousePos c e1).
  set (start :=
         mkElement (now e1) path (px p) (py p) None None
           (Some [mkPoint (px p) (py p); mkPoint (px p) (py p)]) None
           (mkAttrs
              (if isDarkMode c then "#e0e0e0"%string
               else curStrokeColor (style c))
              "transparent" (curStrokeWidth (style c))
              (Some (curStrokeStyle (style c)))
              (Some (curOpacity (style c)))
              (curStartArrowhead (style c)) (curEndArrowhead (style c))
              None None None None None None None)).
  assert (Hdown : handleMouseDown c e1
                  = setCurrentElement (Some start)
                      (setInteractionState
                         (mkInteraction m_drawing None
                                        (mkPoint (px p) (py p)) None None)
                         c)).
  { unfold handleMouseDown. rewrite Heff. simpl.
    unfold pathDown. rewrite Hnone. reflexivity. }
  rewrite Hdown.
  destruct (path_steps steps
              (setCurrentElement (Some start)
                 (setInteractionState
                    (mkInteraction m_drawing None (mkPoint (px p) (py p))
                                   None None) c))
              start [mkPoint (px p) (py p); mkPoint (px p) (py p)])
    as (cur & pts & Hb & Hrun & Hid & Hlen & Hhd).
  { unfold building. repeat split; try reflexivity; try exact Heff. }
  { exact Hall. }
  rewrite Hrun. split; [reflexivity|].
  destruct Hb as (_ & _ & _ & Hty & Hpts & Hlen2).
  destruct pts as [|q qs]; [simpl in Hlen2; lia|].
  destruct (PencilFacts.fitToPoints_fields cur q qs Hpts)
    as (Fx & Fy & Fw & Fh & Fp & Fi & Ft).
  exists (fitToPoints cur), (q :: qs).
  assert (Hfinal :
            handleMouseDown
              (setCurrentElement (Some cur)
                 (setCurrentElement (Some start)
                    (setInteractionState
                       (mkInteraction m_drawing None (mkPoint (px p) (py p))
                                      None None) c))) e2
            = (if lockTool c then fun k => k else setTool selection)
                (setInteractionState
                   (mkInteraction m_none None
                      (getMousePos c e2) None None)
                   (setSelectedElementIds [id (fitToPoints cur)]
                      (setCurrentElement None
                         (History.commit (elements c ++ [fitToPoints cur])
                            (setCurrentElement (Some cur)
                               (setCurrentElement (Some start)
                                  (setInteractionState
                                     (mkInteraction m_drawing None
                                        (mkPoint (px p) (py p)) None None)
                                     c)))))))).
  { unfold handleMouseDown.
    change (effectiveTool (setCurrentElement _ _)) with (effectiveTool c).
    rewrite Heff.
    cbn -[fitToPoints History.commit getMousePos].
    unfold pathDown.
    cbn -[fitToPoints History.commit getMousePos].
    rewrite Hty, Hdouble.
    cbn -[fitToPoints History.commit getMousePos].
    destruct (lockTool c); reflexivity. }
  rewrite Hfinal.
  assert (Hbounds : getElementBounds (fitToPoints cur)
                    = mkBounds (minOf (px q) (map px qs))
                               (maxOf (px q) (map px qs))
                               (minOf (py q) (map py qs))
                               (maxOf (py q) (map py qs))).
  { unfold getElementBounds. rewrite Ft, Hty, Fp, Hpts. reflexivity. }
  rewrite Hbounds. simpl minX. simpl maxX. simpl minY. simpl maxY.
  split; [destruct (lockTool c); reflexivity|].
  split; [rewrite Fi; exact Hid|]. split; [rewrite Ft; exact Hty|].
  split; [rewrite Fp; exact Hpts|]. split; [rewrite Hlen; simpl; lia|].
  split; [intros d; rewrite Hhd; reflexivity|].
  split; [exact Fx|]. split; [exact Fy|]. split; [exact Fw|].
  split; [exact Fh|].
  split; [destruct (lockTool c); reflexivity|].
  split; [destruct (lockTool c); reflexivity|].
  split; [destruct (lockTool c); simpl; rewrite Fi, Hid; reflexivity|].
  destruct (lockTool c); simpl; [exact Ht|reflexivity].
Qed.

Lemma path_of_two_presses :
  elements (fold_left pointerStep
                      [Release (eventAt 10 10 false);
                       Move (eventAt 30 40 false);
                       Press (eventAt 30 40 false)]
                      (handleMouseDown (canvasWithTool path)
                                       (eventAt 10 10 false)))
  = [].
Proof.
  apply (path_tool_builds_polyline
           (canvasWithTool path) (eventAt 10 10 false)
           (mkEvent 30 40 false 2 0 0 "1700000000001" true)
           [Release (eventAt 10 10 false); Move (eventAt 30 40 false);
            Press (eventAt 30 40 false)]).
  - simpl. lra.
  - reflexivity.
  - reflexivity.
  - reflexivity.
  - repeat constructor; simpl; discriminate.
  - reflexivity.
Defined.

End PathFacts.

(** ** Erasing *)

Module EraserFacts.

Import Geometry Interaction.

Lemma filter_filter {A : Type} (f g : A -> bool) (l : list A) :
  filter g (filter f l) = filter (fun a => f a && g a) l.
Proof.
  induction l as [|a l IH]; simpl; [reflexivity|].
  destruct (f a); simpl; [destruct (g a)|]; rewrite IH; reflexivity.
Qed.

(** A run of pointer-moves with the eraser keeps the elements that every
    position of the run keeps. *)
Lemma eraser_moves (moves : list MouseEvent) :
  forall c : Canvas,
    effectiveTool c = eraser ->
    mode (interactionState c) = m_drawing ->
    currentElement c <> None ->
    fold_left handleMouseMove moves c
    = setElements
        (filter (fun el =>
                   forallb (fun e => eraserKeeps c (px (getMousePos c e))
                                                 (py (getMousePos c e)) el)
                           moves)
                (elements c)) c.
Proof.
  induction moves as [|e moves IH]; intros c Heff Hmode Hcur.
  - simpl.
    assert (Hall : filter (fun _ : DrawingElement => true) (elements c)
                   = elements c).
    { induction (elements c) as [|a l IHl]; simpl; [|rewrite IHl];
        reflexivity. }
    rewrite Hall. destruct c; reflexivity.
  - simpl.
    rewrite (InteractionFacts.mouseMove_erasing c e Heff Hmode Hcur).
    rewrite IH by assumption. simpl.
    rewrite filter_filter. reflexivity.
Qed.

(** What a release does while the eraser is drawing. *)
Lemma mouseUp_erasing (c : Canvas) (e : MouseEvent) (cur : DrawingElement) :
  effectiveTool c = eraser ->
  mode (interactionState c) = m_drawing ->
  currentElement c = Some cur ->
  handleMouseUp c e
  = setCurrentElement None
      (setInteractionState idle
         (if sceneReplaced e
          then History.pushToHistory (elements c) c else c)).
Proof.
  intros Heff Hmode Hcur. unfold handleMouseUp.
  rewrite Heff, Hmode, Hcur. simpl.
  rewrite !andb_false_r.
  destruct (sceneReplaced e); reflexivity.
Qed.

(** An eraser stroke.  With the eraser chosen, the space bar up and a
    positive scale, a press, a run of pointer-moves and a release leave, in
    their order, exactly the elements whose origin is farther than
    [eraserSize / scale] from every position of the run; the press itself
    erases nothing and the eraser's own in-progress element never enters
    the scene.  The eraser stays the tool and the selection is kept.  When
    the release finds the scene array replaced it commits the scene, and an
    [undo] then brings back the scene from before the stroke (the live
    scene having been the snapshot at the index); otherwise the history is
    left alone. *)
Theorem eraser_stroke_commits_and_can_be_undone
        (c : Canvas) (e1 e3 : MouseEvent) (moves : list MouseEvent) :
  tool c = eraser -> isSpacePressed c = false -> 0 < scale c ->
  historyWellFormed c ->
  elements c = History.snapshotAt (historyIndex c) c ->
  (forall el,
      In el (elements
               (handleMouseUp
                  (fold_left handleMouseMove moves (handleMouseDown c e1))
                  e3)) <->
      In el (elements c) /\
      forall e, In e moves ->
                eraserSize c / scale c
                < originDistance el (getMousePos c e)) /\
  tool (handleMouseUp
          (fold_left handleMouseMove moves (handleMouseDown c e1)) e3)
  = eraser /\
  selectedElementIds
    (handleMouseUp
       (fold_left handleMouseMove moves (handleMouseDown c e1)) e3)
  = selectedElementIds c /\
  currentElement
    (handleMouseUp
       (fold_left handleMouseMove moves (handleMouseDown c e1)) e3)
  = None /\
  (sceneReplaced e3 = true ->
   History.snapshotAt
     (historyIndex
        (handleMouseUp
           (fold_left handleMouseMove moves (handleMouseDown c e1)) e3))
     (handleMouseUp
        (fold_left handleMouseMove moves (handleMouseDown c e1)) e3)
   = elements
       (handleMouseUp
          (fold_left handleMouseMove moves (handleMouseDown c e1)) e3) /\
   elements
     (History.undo
        (handleMouseUp
           (fold_left handleMouseMove moves (handleMouseDown c e1)) e3))
   = elements c) /\
  (sceneReplaced e3 = false ->
   history
     (handleMouseUp
        (fold_left handleMouseMove moves (handleMouseDown c e1)) e3)
   = history c /\
   historyIndex
     (handleMouseUp
        (fold_left handleMouseMove moves (handleMouseDown c e1)) e3)
   = historyIndex c).
Proof.
  intros Ht Hs _ Hwf Hsync.
  assert (Heff : effectiveTool c = eraser)
    by (unfold effectiveTool; rewrite Hs; exact Ht).
  set (c1 := setCurrentElement
               (Some (newElement c (now e1) eraser
                                 (px (getMousePos c e1))
                                 (py (getMousePos c e1))))
               (setInteractionState
                  (mkInteraction m_drawing None (getMousePos c e1) None None)
                  c)).
  assert (Hdown : handleMouseDown c e1 = c1).
  { unfold handleMouseDown. rewrite Heff. reflexivity. }
  rewrite Hdown.
  rewrite (eraser_moves moves c1 Heff eq_refl) by discriminate.
  set (kept := filter
                 (fun el =>
                    forallb (fun e => eraserKeeps c1 (px (getMousePos c1 e))
                                                  (py (getMousePos c1 e)) el)
                            moves) (elements c1)).
  assert (Hup : handleMouseUp (setElements kept c1) e3
                = setCurrentElement None
                    (setInteractionState idle
                       (if sceneReplaced e3
                        then History.pushToHistory kept (setElements kept c1)
                        else setElements kept c1))).
  { apply (mouseUp_erasing (setElements kept c1) e3
                           (newElement c (now e1) eraser
                                       (px (getMousePos c e1))
                                       (py (getMousePos c e1))));
      [exact Heff|reflexivity|reflexivity]. }
  rewrite Hup.
  assert (Hkept : forall el,
             In el kept <->
             In el (elements c) /\
             forall e, In e moves ->
                       eraserSize c / scale c
                       < originDistance el (getMousePos c e)).
  { intros el. unfold kept. rewrite filter_In, forallb_forall.
    change (elements c1) with (elements c).
    split; intros [Hin Hall]; (split; [exact Hin|]); intros e He.
    - apply (InteractionFacts.eraserKeeps_iff c (getMousePos c e)).
      exact (Hall e He).
    - apply (InteractionFacts.eraserKeeps_iff c (getMousePos c e)).
      exact (Hall e He). }
  split; [|split; [|split; [|split; [|split]]]].
  - intros el. rewrite <- Hkept. destruct (sceneReplaced e3); reflexivity.
  - destruct (sceneReplaced e3); simpl; exact Ht.
  - destruct (sceneReplaced e3); reflexivity.
  - reflexivity.
  - intros Hrep. rewrite Hrep. split.
    + exact (GestureFacts.push_head _ _).
    + rewrite Hsync.
      apply (CommitFacts.undo_of_committed c _ kept Hwf); reflexivity.
  - intros Hrep. rewrite Hrep. split; reflexivity.
Qed.

Lemma eraser_stroke_over_one_element :
  tool (handleMouseUp
          (fold_left handleMouseMove [eventAt 100 100 false]
                     (handleMouseDown
                        (setElements [shape "a" rectangle 130 100 10 10]
                                     (setHistory
                                        [[shape "a" rectangle 130 100 10 10]]
                                        (canvasWithTool eraser)))
                        (eventAt 90 100 false)))
          (eventAt 100 100 false))
  = eraser.
Proof.
  apply (eraser_stroke_commits_and_can_be_undone
           (setElements [shape "a" rectangle 130 100 10 10]
                        (setHistory [[shape "a" rectangle 130 100 10 10]]
                                    (canvasWithTool eraser)))
           (eventAt 90 100 false) (eventAt 100 100 false)
           [eventAt 100 100 false]).
  - reflexivity.
  - reflexivity.
  - simpl. lra.
  - unfold historyWellFormed. simpl. lia.
  - reflexivity.
Defined.

End EraserFacts.

(** ** What the pointer handlers leave alone *)

Module FrameFacts.

Import Geometry Interaction.

(** Case analysis on every test a handler branches on. *)
Ltac branches :=
  repeat match goal with
         | |- context [match ?x with _ => _ end] =>
             match type of x with
             | _ => is_var x; destruct x
             | _ => let E := fresh "E" in destruct x eqn:E
             end
         end.

Ltac frame_cases :=
  branches; cbn -[getMousePos]; repeat split; try assumption; try congruence.

Lemma mouseDown_frame (c : Canvas) (e : MouseEvent) :
  untouched c (handleMouseDown c e) /\
  panOffset (handleMouseDown c e) = panOffset c.
Proof.
  unfold untouched, handleMouseDown, selectionDown, pathDown. frame_cases.
Qed.

Lemma mouseUp_frame (c : Canvas) (e : MouseEvent) :
  untouched c (handleMouseUp c e) /\
  panOffset (handleMouseUp c e) = panOffset c.
Proof. unfold untouched, handleMouseUp. frame_cases. Qed.

Lemma mouseMove_frame (c : Canvas) (e : MouseEvent) :
  untouched c (handleMouseMove c e) /\
  (mode (interactionState c) <> m_panning ->
   panOffset (handleMouseMove c e) = panOffset c) /\
  history (handleMouseMove c e) = history c /\
  historyIndex (handleMouseMove c e) = historyIndex c /\
  selectedElementIds (handleMouseMove c e) = selectedElementIds c /\
  tool (handleMouseMove c e) = tool c.
Proof.
  unfold untouched, handleMouseMove.
  destruct (mode (interactionState c)) eqn:Em; cbn [Mode_beq];
    frame_cases; intros H; congruence.
Qed.

(** No pointer handler touches the scale, the clipboard, the eraser size,
    the style settings, the theme, the tool lock or the space-bar flag.
    The pan offset is changed by a pointer-move in panning mode only.  A
    pointer-move never touches the history, the selection or the tool, so a
    gesture adds to the history at its release (or at the double click that
    ends a path) and nowhere else. *)
Theorem pointer_handlers_frame (c : Canvas) (e : MouseEvent) :
  (forall c',
      c' = handleMouseDown c e \/ c' = handleMouseMove c e \/
      c' = handleMouseUp c e ->
      scale c' = scale c /\ clipboard c' = clipboard c /\
      eraserSize c' = eraserSize c /\ style c' = style c /\
      isDarkMode c' = isDarkMode c /\ lockTool c' = lockTool c /\
      isSpacePressed c' = isSpacePressed c) /\
  panOffset (handleMouseDown c e) = panOffset c /\
  panOffset (handleMouseUp c e) = panOffset c /\
  (mode (interactionState c) <> m_panning ->
   panOffset (handleMouseMove c e) = panOffset c) /\
  history (handleMouseMove c e) = history c /\
  historyIndex (handleMouseMove c e) = historyIndex c /\
  selectedElementIds (handleMouseMove c e) = selectedElementIds c /\
  tool (handleMouseMove c e) = tool c.
Proof.
  destruct (mouseDown_frame c e) as [Hd Hdp].
  destruct (mouseUp_frame c e) as [Hu Hup].
  destruct (mouseMove_frame c e) as (Hm & Hmp & Hh & Hi & Hs & Ht).
  split; [|repeat split; assumption].
  intros c' [ -> | [ -> | -> ] ]; assumption.
Qed.

Lemma pointer_move_keeps_scale_of_fresh_canvas :
  scale (handleMouseMove (initialCanvas false) (eventAt 3 4 false))
  = scale (initialCanvas false).
Proof.
  apply (proj1 (pointer_handlers_frame (initialCanvas false)
                                       (eventAt 3 4 false))).
  right. left. reflexivity.
Defined.

End FrameFacts.

(** ** Importing an image *)

Module ImageFacts.

Import ImageImport.

Lemma fitImage_spec (iw ih : R) :
  0 < iw -> 0 < ih ->
  let w := fst (fitImage iw ih) in
  let h := snd (fitImage iw ih) in
  0 < w /\ 0 < h /\ w <= iw /\ h <= ih /\ w <= 600 /\ h <= 600 /\
  (iw <= 600 -> ih <= 600 -> w = iw /\ h = ih) /\
  (600 < iw \/ 600 < ih -> Rmax w h = 600) /\
  (600 < iw \/ 600 < ih -> ih < iw -> w = 600 /\ h = 600 / (iw / ih)) /\
  (600 < iw \/ 600 < ih -> iw <= ih -> w = 600 * (iw / ih) /\ h = 600).
Proof.
  intros Hw Hh. unfold fitImage, MAX_DIM, Rgtb.
  destruct (Rltb 600 iw) eqn:Gw; destruct (Rltb 600 ih) eqn:Gh;
    cbn [orb]; try destruct (Rltb ih iw) eqn:G; cbn [fst snd];
    rewrite ?Rltb_true, ?Rltb_false in *.
  all: try (assert (E1 : 600 / (iw / ih) = 600 * ih / iw) by (field; lra)).
  all: try (assert (E2 : 600 * (iw / ih) = 600 * iw / ih) by (field; lra)).
  all: try (assert (P1 : 0 < 600 * ih / iw)
              by (apply Rdiv_lt_0_compat; lra)).
  all: try (assert (P2 : 0 < 600 * iw / ih)
              by (apply Rdiv_lt_0_compat; lra)).
  all: try (assert (Q1 : 600 * ih / iw * iw = 600 * ih) by (field; lra)).
  all: try (assert (Q2 : 600 * iw / ih * ih = 600 * iw) by (field; lra)).
  all: rewrite ?E1, ?E2.
  all: repeat split; try lra; try (intros; lra); try nra.
  all: try (intros _; unfold Rmax;
            match goal with |- context [Rle_dec ?a ?b] =>
              destruct (Rle_dec a b) end; nra).
Qed.

(** Importing an image.  For an image of positive width and height, the
    element put on top of the scene is never larger than the image nor than
    600 on either side; it has the image's own size when that is within 600
    by 600, and otherwise its longer side is 600 and the other one is
    obtained from the ratio of width to height.  Its origin is the centre
    the callback computes less half its size.  The new scene is the head of
    the history the callback pushed to, and the selection tool is
    chosen. *)
Theorem image_import_fits_within_600
        (captured c : Canvas) (newId data : string)
        (imgWidth imgHeight innerWidth innerHeight : R) :
  0 < imgWidth -> 0 < imgHeight -> 0 < scale captured ->
  let r := imageLoaded captured newId data imgWidth imgHeight
                       innerWidth innerHeight c in
  exists el w h,
    elements r = elements c ++ [el] /\
    id el = newId /\ type el = image /\
    width el = Some w /\ height el = Some h /\
    0 < w <= Rmin imgWidth 600 /\ 0 < h <= Rmin imgHeight 600 /\
    (imgWidth <= 600 -> imgHeight <= 600 -> w = imgWidth /\ h = imgHeight) /\
    (600 < imgWidth \/ 600 < imgHeight -> Rmax w h = 600) /\
    (600 < imgWidth \/ 600 < imgHeight -> imgHeight < imgWidth ->
     w = 600 /\ h = 600 / (imgWidth / imgHeight)) /\
    (600 < imgWidth \/ 600 < imgHeight -> imgWidth <= imgHeight ->
     w = 600 * (imgWidth / imgHeight) /\ h = 600) /\
    x el = (innerWidth / 2 - px (panOffset captured)) / scale captured
           - w / 2 /\
    y el = (innerHeight / 2 - py (panOffset captured)) / scale captured
           - h / 2 /\
    History.snapshotAt (historyIndex r) r = elements c ++ [el] /\
    tool r = selection /\
    selectedElementIds r = selectedElementIds c.
Proof.
  intros Hw Hh Hs r.
  destruct (fitImage_spec imgWidth imgHeight Hw Hh)
    as (W0 & H0 & Ww & Hhh & W6 & H6 & Hsmall & Hbig & Hwide & Htall).
  exists (imageElement captured newId data imgWidth imgHeight
                       innerWidth innerHeight),
         (fst (fitImage imgWidth imgHeight)),
         (snd (fitImage imgWidth imgHeight)).
  repeat split; try reflexivity; try assumption.
  - apply Rmin_glb; assumption.
  - apply Rmin_glb; assumption.
  - apply Hsmall; assumption.
  - apply Hsmall; assumption.
  - apply Hwide; assumption.
  - apply Hwide; assumption.
  - apply Htall; assumption.
  - apply Htall; assumption.
  - exact (GestureFacts.push_head _ captured).
Qed.

Lemma image_import_of_wide_picture :
  exists el,
    elements (imageLoaded (initialCanvas false) "7" "data" 1200 300 800 600
                          (initialCanvas false))
    = [] ++ [el] /\
    width el = Some 600 /\ height el = Some (600 / (1200 / 300)).
Proof.
  destruct (image_import_fits_within_600
              (initialCanvas false) (initialCanvas false) "7" "data"
              1200 300 800 600)
    as (el & w & h & Hels & _ & _ & Hwd & Hht & _ & _ & _ & _ & Hwide & _).
  - lra.
  - lra.
  - simpl. lra.
  - exists el. split; [exact Hels|].
    destruct Hwide as [-> ->]; [left; lra|lra|].
    split; assumption.
Defined.

End ImageFacts.

(** ** The ruler *)

Module RulerFacts.

Import Render.

Lemma growStep_spec (n : nat) :
  forall (scale step : R) (fuel : nat),
    0 < scale -> 0 < step -> 60 <= step * 2 ^ n * scale ->
    (n < fuel)%nat ->
    exists k,
      (k <= n)%nat /\
      growStep fuel scale step = Some (step * 2 ^ k) /\
      60 <= step * 2 ^ k * scale /\
      (k = 0%nat \/ step * 2 ^ k * scale < 120).
Proof.
  induction n as [|n IH]; intros scale step fuel Hs Hp Hn Hf.
  - destruct fuel as [|f]; [lia|]. exists 0%nat. simpl in *.
    destruct (Rltb (step * scale) 60) eqn:E.
    + apply Rltb_true in E. lra.
    + rewrite Rmult_1_r. repeat split; try lia; try lra.
  - destruct fuel as [|f]; [lia|]. simpl.
    destruct (Rltb (step * scale) 60) eqn:E.
    + apply Rltb_true in E.
      destruct (IH scale (step * 2) f Hs) as (k & Hk & Hg & Hlo & Hhi);
        [lra| |lia|].
      * simpl in Hn. replace (step * 2 * 2 ^ n) with (step * (2 * 2 ^ n)) by ring.
        exact Hn.
      * exists (S k). simpl.
        replace (step * (2 * 2 ^ k)) with (step * 2 * 2 ^ k) by ring.
        repeat split; try lia; try assumption.
        right. destruct Hhi as [->|Hhi]; [simpl; lra|exact Hhi].
    + apply Rltb_false in E. exists 0%nat. simpl. rewrite Rmult_1_r.
      repeat split; try lia; try lra.
Qed.

Lemma shrinkStep_spec (n : nat) :
  forall (scale step : R) (fuel : nat),
    0 < scale -> 0 < step -> step / 2 ^ n * scale <= 140 ->
    (n < fuel)%nat ->
    exists k,
      (k <= n)%nat /\
      shrinkStep fuel scale step = Some (step / 2 ^ k) /\
      step / 2 ^ k * scale <= 140 /\
      (k = 0%nat \/ 70 < step / 2 ^ k * scale).
Proof.
  induction n as [|n IH]; intros scale step fuel Hs Hp Hn Hf.
  - destruct fuel as [|f]; [lia|]. exists 0%nat. simpl in *.
    unfold Rgtb. destruct (Rltb 140 (step * scale)) eqn:E.
    + apply Rltb_true in E. lra.
    + replace (step / 1) with step by field.
      repeat split; try lia; try lra.
  - destruct fuel as [|f]; [lia|]. simpl.
    unfold Rgtb. destruct (Rltb 140 (step * scale)) eqn:E.
    + apply Rltb_true in E.
      assert (Hpow : 0 < 2 ^ n) by (apply pow_lt; lra).
      destruct (IH scale (step / 2) f Hs) as (k & Hk & Hg & Hlo & Hhi);
        [lra| |lia|].
      * simpl in Hn.
        replace (step / 2 / 2 ^ n) with (step / (2 * 2 ^ n)) by (field; lra).
        exact Hn.
      * assert (Hpk : 0 < 2 ^ k) by (apply pow_lt; lra).
        exists (S k). simpl. fold (Rgtb (step / 2 * scale) 140) in Hg.
        replace (step / (2 * 2 ^ k)) with (step / 2 / 2 ^ k) by (field; lra).
        repeat split; try lia; try assumption.
        right. destruct Hhi as [->|Hhi]; [simpl; lra|exact Hhi].
    + apply Rltb_false in E. exists 0%nat. simpl.
      replace (step / 1) with step by field.
      repeat split; try lia; try lra.
Qed.

Lemma div_le_intro (a b c : R) : 0 < c -> a <= b * c -> a / c <= b.
Proof.
  intros Hc H. apply Rmult_le_reg_r with c; [exact Hc|].
  unfold Rdiv. rewrite Rmult_assoc, Rinv_l by lra. lra.
Qed.

Lemma div_le_elim (a b c : R) : 0 < c -> a / c <= b -> a <= b * c.
Proof.
  intros Hc H. apply Rmult_le_compat_r with (r := c) in H; [|lra].
  unfold Rdiv in H. rewrite Rmult_assoc, Rinv_l in H by lra. lra.
Qed.

Lemma doublings_reach (b : R) : exists n : nat, b <= 2 ^ n.
Proof.
  destruct (Pow_x_infinity 2) with (b := b) as [N HN].
  - rewrite Rabs_pos_eq; lra.
  - exists N. specialize (HN N (le_n N)).
    rewrite Rabs_pos_eq in HN by (apply pow_le; lra). lra.
Qed.

Lemma loop_bounds (scale : R) :
  0 < scale ->
  exists n1 n2 : nat,
    60 <= 100 * 2 ^ n1 * scale /\ 100 / 2 ^ n2 * scale <= 140 /\
    (0.1 <= scale <= 5 -> (n1 <= 3)%nat /\ (n2 <= 3)%nat).
Proof.
  intros Hs.
  destruct (Rle_dec 0.1 scale) as [Hlo|Hlo];
    [destruct (Rle_dec scale 5) as [Hhi|Hhi]|].
  - exists 3%nat, 3%nat. simpl. repeat split; try lia; lra.
  - destruct (doublings_reach (100 * scale / 140)) as [n2 H2].
    assert (P2 : 0 < 2 ^ n2) by (apply pow_lt; lra).
    exists 0%nat, n2. split; [simpl; lra|]. split; [|intros; lra].
    apply div_le_elim in H2; [|lra].
    replace (100 / 2 ^ n2 * scale) with (100 * scale / 2 ^ n2)
      by (field; lra).
    apply div_le_intro; [exact P2|]. lra.
  - destruct (doublings_reach (60 / (100 * scale))) as [n1 H1].
    exists n1, 0%nat. split; [|split; [simpl; lra|intros; lra]].
    apply div_le_elim in H1; [|lra]. lra.
Qed.

(** The spacing of the ruler's ticks.  At any positive scale the two
    loops end, and the step they leave is 100 doubled or halved a number of
    times and makes ticks between 60 and 140 pixels apart on the screen.
    Within the range [0.1, 5] the zoom keeps the scale in, four tests of
    each loop condition are enough. *)
Theorem ruler_ticks_are_60_to_140_pixels_apart (scale : R) :
  0 < scale ->
  exists fuel0 : nat,
    (0.1 <= scale <= 5 -> (fuel0 <= 4)%nat) /\
    forall fuel, (fuel0 <= fuel)%nat ->
      exists step k,
        rulerStep fuel scale = Some step /\
        60 <= step * scale <= 140 /\
        (step = 100 * 2 ^ k \/ step = 100 / 2 ^ k).
Proof.
  intros Hs.
  destruct (loop_bounds scale Hs) as (n1 & n2 & H1 & H2 & Hrange).
  exists (S (Nat.max n1 n2)). split.
  - intros Hr. destruct (Hrange Hr). lia.
  - intros fuel Hfuel. unfold rulerStep.
    destruct (growStep_spec n1 scale 100 fuel Hs) as (k1 & _ & Hg & Hlo & Hhi);
      [lra|exact H1|lia|].
    rewrite Hg.
    assert (P1 : 0 < 2 ^ k1) by (apply pow_lt; lra).
    destruct Hhi as [->|Hhi].
    + simpl in Hlo |- *. rewrite Rmult_1_r in *.
      destruct (shrinkStep_spec n2 scale 100 fuel Hs)
        as (k2 & _ & Hsh & Hup & Hdown); [lra|exact H2|lia|].
      exists (100 / 2 ^ k2), k2. rewrite Hsh.
      split; [reflexivity|]. split; [split|now right].
      * destruct Hdown as [->|Hdown]; [simpl; lra|lra].
      * exact Hup.
    + destruct (shrinkStep_spec 0 scale (100 * 2 ^ k1) fuel Hs)
        as (k2 & Hk2 & Hsh & Hup & _); [nra|simpl; lra|lia|].
      assert (k2 = 0%nat) by lia. subst k2. simpl in Hsh, Hup.
      exists (100 * 2 ^ k1), k1. rewrite Hsh.
      replace (100 * 2 ^ k1 / 1) with (100 * 2 ^ k1) by field.
      split; [reflexivity|]. split; [lra|now left].
Qed.

Lemma ruler_step_at_scale_one :
  exists step k,
    rulerStep 4 1 = Some step /\ 60 <= step * 1 <= 140 /\
    (step = 100 * 2 ^ k \/ step = 100 / 2 ^ k).
Proof.
  destruct (ruler_ticks_are_60_to_140_pixels_apart 1) as (f0 & Hf & Hall);
    [lra|].
  apply Hall. apply Hf. lra.
Defined.

End RulerFacts.

(** ** The exported picture and the minimap *)

Module PictureFacts.

Import Geometry Render.











End PictureFacts.


(** ** Keyboard *)

Module KeyboardFacts.

Import Interaction Keyboard.

Lemma keyDown_space (src : Clipboard.IdSource) (confirmed : bool)
      (c : Canvas) (k : KeyEvent) :
  code k = "Space"%string -> key k = " "%string ->
  (forall t, activeTag k = Some t ->
             t <> "INPUT"%string /\ t <> "TEXTAREA"%string) ->
  handleKeyDown src confirmed c k
  = if isSpacePressed c then c else setIsSpacePressed true c.
Proof.
  intros Hcode Hkey Hfocus. unfold handleKeyDown.
  assert (Hfield : match activeTag k with
                   | Some t => String.eqb t "INPUT" || String.eqb t "TEXTAREA"
                   | None => false
                   end = false).
  { destruct (activeTag k) as [t|]; [|reflexivity].
    destruct (Hfocus t eq_refl) as [H1 H2].
    apply String.eqb_neq in H1, H2. rewrite H1, H2. reflexivity. }
  rewrite Hfield, Hcode, Hkey. cbv zeta.
  rewrite !andb_false_r. cbn [toLowerCase lowerAscii].
  destruct (keyCtrl k || keyMeta k), (isSpacePressed c); reflexivity.
Qed.

(** Panning with the space bar.  Whatever tool is chosen, pressing the
    space bar (the focus being in no input field) puts the hand tool in
    effect; a press, a move and a release of the pointer then shift the pan
    offset by the pointer's displacement on the screen and leave the scene,
    the selection, the history, the scale and the chosen tool as they were;
    releasing the space bar puts the chosen tool back in effect. *)
Theorem space_drag_pans_with_any_tool
        (src : Clipboard.IdSource) (confirmed : bool) (c : Canvas)
        (k : KeyEvent) (e1 e2 e3 : MouseEvent) :
  code k = "Space"%string -> key k = " "%string ->
  (forall t, activeTag k = Some t ->
             t <> "INPUT"%string /\ t <> "TEXTAREA"%string) ->
  isSpacePressed c = false ->
  let held := handleKeyDown src confirmed c k in
  let dragged :=
    handleMouseUp (handleMouseMove (handleMouseDown held e1) e2) e3 in
  let released := handleKeyUp dragged k in
  effectiveTool held = hand /\
  panOffset released
  = mkPoint (px (panOffset c) + (clientX e2 - clientX e1))
            (py (panOffset c) + (clientY e2 - clientY e1)) /\
  elements released = elements c /\
  selectedElementIds released = selectedElementIds c /\
  history released = history c /\
  historyIndex released = historyIndex c /\
  scale released = scale c /\
  tool released = tool c /\
  effectiveTool released = tool c /\
  mode (interactionState released) = m_none.
Proof.
  intros Hcode Hkey Hfocus Hsp held dragged released.
  assert (Hheld : held = setIsSpacePressed true c).
  { unfold held. rewrite (keyDown_space src confirmed c k Hcode Hkey Hfocus).
    rewrite Hsp. reflexivity. }
  assert (Hdown : handleMouseDown held e1
                  = setInteractionState
                      (mkInteraction m_panning None
                                     (mkPoint (clientX e1) (clientY e1))
                                     None None) held).
  { rewrite Hheld. reflexivity. }
  assert (Hmove : handleMouseMove (handleMouseDown held e1) e2
                  = setInteractionState
                      (mkInteraction m_panning None
                                     (mkPoint (clientX e2) (clientY e2))
                                     None None)
                      (setPanOffset
                         (mkPoint (px (panOffset c)
                                   + (clientX e2 - clientX e1))
                                  (py (panOffset c)
                                   + (clientY e2 - clientY e1)))
                         held)).
  { rewrite Hdown, Hheld. reflexivity. }
  assert (Hup : dragged
                = setCurrentElement None
                    (setInteractionState idle
                       (setPanOffset
                          (mkPoint (px (panOffset c)
                                    + (clientX e2 - clientX e1))
                                   (py (panOffset c)
                                    + (clientY e2 - clientY e1)))
                          held))).
  { unfold dragged. rewrite Hmove, Hheld. unfold handleMouseUp.
    cbn [lockTool setInteractionState setPanOffset setIsSpacePressed].
    destruct (lockTool c); reflexivity. }
  assert (Hrel : released = setIsSpacePressed false dragged).
  { unfold released, handleKeyUp. rewrite Hcode. reflexivity. }
  split; [rewrite Hheld; reflexivity|].
  rewrite Hrel, Hup, Hheld.
  repeat split.
Qed.

Lemma space_drag_on_fresh_canvas :
  panOffset
    (handleKeyUp
       (handleMouseUp
          (handleMouseMove
             (handleMouseDown
                (handleKeyDown stuckSource false (canvasWithTool rectangle)
                               (mkKey " " "Space" false false false None))
                (eventAt 10 10 false))
             (eventAt 30 5 false))
          (eventAt 30 5 false))
       (mkKey " " "Space" false false false None))
  = mkPoint (0 + (30 - 10)) (0 + (5 - 10)).
Proof.
  apply (space_drag_pans_with_any_tool
           stuckSource false (canvasWithTool rectangle)
           (mkKey " " "Space" false false false None)
           (eventAt 10 10 false) (eventAt 30 5 false) (eventAt 30 5 false));
    try reflexivity.
  intros t H. discriminate.
Defined.

End KeyboardFacts.

(** ** Resizing a position marker *)

Module ResizeFacts.

Import Geometry Interaction.

Lemma resizeElement_id (h : ResizeHandle) (s el : DrawingElement)
      (py dx dy : R) :
  id (resizeElement h s py dx dy el) = id el /\
  type (resizeElement h s py dx dy el) = type el.
Proof. destruct h; split; reflexivity. Qed.

Lemma mouseDown_on_handle (c : Canvas) (e : MouseEvent)
      (sel : string) (el0 : DrawingElement) (h : ResizeHandle) :
  tool c = selection -> isSpacePressed c = false ->
  selectedElementIds c = [sel] ->
  find (fun el => String.eqb (id el) sel) (elements c) = Some el0 ->
  getResizeHandleAtPosition (scale c) (px (getMousePos c e))
                            (py (getMousePos c e)) el0 = Some h ->
  handleMouseDown c e
  = setInteractionState
      (mkInteraction m_resizing (Some h)
                     (mkPoint (px (getMousePos c e)) (py (getMousePos c e)))
                     (Some el0) None) c.
Proof.
  intros Ht Hsp Hsel Hfind Hh.
  unfold handleMouseDown, effectiveTool. rewrite Hsp, Ht. cbv zeta.
  cbn [Tool_beq]. unfold selectionDown. rewrite Hsel, Hfind, Hh. reflexivity.
Qed.

Lemma mouseMove_resizing (c : Canvas) (e : MouseEvent)
      (sel : string) (el0 : DrawingElement) (h : ResizeHandle) (start : Point) :
  tool c = selection -> isSpacePressed c = false ->
  selectedElementIds c = [sel] ->
  interactionState c = mkInteraction m_resizing (Some h) start (Some el0) None ->
  handleMouseMove c e
  = setElements
      (map (fun el =>
              if String.eqb (id el) sel
              then resizeElement h el0 (py (getMousePos c e))
                                 (px (getMousePos c e) - px start)
                                 (py (getMousePos c e) - py start) el
              else el) (elements c)) c.
Proof.
  intros Ht Hsp Hsel Hst.
  unfold handleMouseMove, effectiveTool. rewrite Hsp, Ht, Hst, Hsel.
  reflexivity.
Qed.

Lemma mouseUp_resizing (c : Canvas) (e : MouseEvent) (sel : string) :
  tool c = selection -> isSpacePressed c = false ->
  selectedElementIds c = [sel] ->
  mode (interactionState c) = m_resizing ->
  handleMouseUp c e
  = let newElements :=
      map (fun el => if String.eqb (id el) sel
                     then normalizeElement el else el) (elements c) in
    setCurrentElement None
      (setInteractionState idle
         (History.pushToHistory newElements (setElements newElements c))).
Proof.
  intros Ht Hsp Hsel Hm.
  unfold handleMouseUp, effectiveTool. rewrite Hsp, Ht, Hm, Hsel.
  cbv zeta. cbn [Tool_beq Mode_beq andb negb].
  destruct (lockTool c); reflexivity.
Qed.

(** Pressing a handle of the sole selected element, moving and releasing:
    every element bearing the selected identifier is resized from the
    snapshot of the press by the displacement of the pointer and then
    normalized; the result is pushed on the history. *)
Lemma resize_gesture (c : Canvas) (e1 e2 e3 : MouseEvent)
      (sel : string) (el0 : DrawingElement) (h : ResizeHandle) :
  tool c = selection -> isSpacePressed c = false ->
  selectedElementIds c = [sel] ->
  find (fun el => String.eqb (id el) sel) (elements c) = Some el0 ->
  getResizeHandleAtPosition (scale c) (px (getMousePos c e1))
                            (py (getMousePos c e1)) el0 = Some h ->
  let r := handleMouseUp (handleMouseMove (handleMouseDown c e1) e2) e3 in
  elements r
  = map (fun el =>
           if String.eqb (id el) sel
           then normalizeElement
                  (resizeElement h el0 (py (getMousePos c e2))
                     (px (getMousePos c e2) - px (getMousePos c e1))
                     (py (getMousePos c e2) - py (getMousePos c e1)) el)
           else el) (elements c) /\
  History.snapshotAt (historyIndex r) r = elements r /\
  selectedElementIds r = [sel] /\
  mode (interactionState r) = m_none /\
  tool r = selection.
Proof.
  intros Ht Hsp Hsel Hfind Hh r.
  pose proof (mouseDown_on_handle c e1 sel el0 h Ht Hsp Hsel Hfind Hh) as H1.
  assert (H2 : handleMouseMove (handleMouseDown c e1) e2
               = setElements
                   (map (fun el =>
                           if String.eqb (id el) sel
                           then resizeElement h el0 (py (getMousePos c e2))
                                  (px (getMousePos c e2)
                                   - px (getMousePos c e1))
                                  (py (getMousePos c e2)
                                   - py (getMousePos c e1)) el
                           else el) (elements c))
                   (handleMouseDown c e1)).
  { rewrite (mouseMove_resizing (handleMouseDown c e1) e2 sel el0 h
               (mkPoint (px (getMousePos c e1)) (py (getMousePos c e1))));
      rewrite H1;
      first [exact Ht | exact Hsp | exact Hsel | reflexivity]. }
  assert (H3 : r = _)
    by (unfold r;
        apply (mouseUp_resizing _ e3 sel); rewrite H2, H1;
        first [exact Ht | exact Hsp | exact Hsel | reflexivity]).
  cbv zeta in H3. rewrite H2, H1 in H3.
  cbn [elements setElements setInteractionState] in H3.
  rewrite map_map in H3.
  assert (Hmap : forall A (f g : A -> DrawingElement) l,
             (forall a, f a = g a) -> map f l = map g l)
    by (intros; apply map_ext; assumption).
  rewrite (Hmap _ _
             (fun el =>
                if String.eqb (id el) sel
                then normalizeElement
                       (resizeElement h el0 (py (getMousePos c e2))
                          (px (getMousePos c e2) - px (getMousePos c e1))
                          (py (getMousePos c e2) - py (getMousePos c e1)) el)
                else el)) in H3.
  2:{ intros el. destruct (String.eqb (id el) sel) eqn:E.
      - rewrite (proj1 (resizeElement_id _ _ _ _ _ _)), E. reflexivity.
      - rewrite E. reflexivity. }
  rewrite H3. split; [reflexivity|]. split; [exact (GestureFacts.push_head _ _)|].
  split; [exact Hsel|]. split; [reflexivity|exact Ht].
Qed.

Lemma sole_bearer (l : list DrawingElement) (sel : string)
      (el0 : DrawingElement) (F : DrawingElement -> DrawingElement) :
  NoDup (map id l) ->
  find (fun el => String.eqb (id el) sel) l = Some el0 ->
  map (fun el => if String.eqb (id el) sel then F el else el) l
  = map (fun el => if String.eqb (id el) sel then F el0 else el) l.
Proof.
  induction l as [|a l IH]; intros Hnd Hfind; [reflexivity|].
  simpl in Hnd, Hfind |- *. inversion Hnd as [|? ? Hnotin Hnd']; subst.
  destruct (String.eqb (id a) sel) eqn:E.
  - injection Hfind as <-. f_equal.
    apply map_ext_in. intros b Hb.
    destruct (String.eqb (id b) sel) eqn:Eb; [|reflexivity].
    exfalso. apply Hnotin. apply String.eqb_eq in E, Eb.
    rewrite E, <- Eb. apply in_map, Hb.
  - f_equal. apply IH; assumption.
Qed.

Lemma handle_needs_box (scale x y : R) (el : DrawingElement)
      (h : ResizeHandle) :
  getResizeHandleAtPosition scale x y el = Some h ->
  isBoxLike (type el) = true.
Proof.
  unfold getResizeHandleAtPosition.
  destruct (isBoxLike (type el)); [reflexivity|discriminate].
Qed.

Lemma normalize_customData (e : DrawingElement) :
  customData (normalizeElement e) = customData e.
Proof.
  unfold normalizeElement.
  destruct (isBoxLike (type e)); [|reflexivity].
  destruct (Rltb _ _ || Rltb _ _); reflexivity.
Qed.

Lemma spread_keeps_ratio (e : DrawingElement) (d : option CustomData) :
  customData e = Some (spreadCustomData d) ->
  entryRatioOf e
  = match d with
    | Some c => match entryRatio c with Some r => r | None => 0.5 end
    | None => 0.5
    end.
Proof. intros H. unfold entryRatioOf. rewrite H. destruct d; reflexivity. Qed.

Lemma edge_resized_fields (h : ResizeHandle) (s el : DrawingElement)
      (py dx dy : R) :
  isBoxLike (type el) = true -> h = h_n \/ h = h_s ->
  let r := normalizeElement (resizeElement h s py dx dy el) in
  let w0 := orZero (width s) in
  let h0 := orZero (height s) in
  id r = id el /\ type r = type el /\
  x r = Rmin (x s) (x s + w0) /\ width r = Some (Rabs w0) /\
  (h = h_n -> y r = Rmin (y s + dy) (y s + dy + (h0 - dy)) /\
              height r = Some (Rabs (h0 - dy))) /\
  (h = h_s -> y r = Rmin (y s) (y s + (h0 + dy)) /\
              height r = Some (Rabs (h0 + dy))) /\
  customData r = Some (spreadCustomData (customData el)).
Proof.
  intros Hbox [-> | ->]; cbv zeta.
  - destruct (GestureFacts.normalize_box_fields
                (resizeElement h_n s py dx dy el) _ _ Hbox eq_refl eq_refl)
      as (Nid & Nty & Nx & Ny & Nw & Nh).
    rewrite Nid, Nty, Nx, Ny, Nw, Nh, normalize_customData.
    cbn [id type x y resizeElement elX elY].
    repeat split; try reflexivity; try discriminate.
  - destruct (GestureFacts.normalize_box_fields
                (resizeElement h_s s py dx dy el) _ _ Hbox eq_refl eq_refl)
      as (Nid & Nty & Nx & Ny & Nw & Nh).
    rewrite Nid, Nty, Nx, Ny, Nw, Nh, normalize_customData.
    repeat split; try reflexivity; try discriminate.
Qed.

(** Resizing a position marker by its top or bottom handle.  With the
    selection tool, distinct identifiers and the marker the sole selection,
    a press on its north or south handle, a move and a release replace the
    marker by one resized from the snapshot of the press by the pointer's
    vertical displacement [dy] and normalized.  From the north handle the
    top has moved by [dy] and the height is less by [dy]; from the south
    handle the top has stayed and the height is more by [dy]; when the
    height so obtained is negative the release flips it, the origin being
    the smaller of the top and the top plus the height and the height its
    absolute value.  Horizontal extent, kind, identifier and entry ratio
    are kept, every other element is untouched, and the new scene is the
    head of the history.  The scale is positive, as the view keeps it. *)
Theorem edge_handle_drag_moves_one_side
        (c : Canvas) (e1 e2 e3 : MouseEvent)
        (sel : string) (el0 : DrawingElement) (h : ResizeHandle) :
  0 < scale c ->
  tool c = selection -> isSpacePressed c = false ->
  NoDup (map id (elements c)) ->
  selectedElementIds c = [sel] ->
  find (fun el => String.eqb (id el) sel) (elements c) = Some el0 ->
  getResizeHandleAtPosition (scale c) (px (getMousePos c e1))
                            (py (getMousePos c e1)) el0 = Some h ->
  h = h_n \/ h = h_s ->
  let r := handleMouseUp (handleMouseMove (handleMouseDown c e1) e2) e3 in
  let w0 := orZero (width el0) in
  let h0 := orZero (height el0) in
  let dy := py (getMousePos c e2) - py (getMousePos c e1) in
  exists el,
    elements r
    = map (fun a => if String.eqb (id a) sel then el else a) (elements c) /\
    id el = sel /\ type el = type el0 /\
    x el = Rmin (x el0) (x el0 + w0) /\ width el = Some (Rabs w0) /\
    (h = h_n -> y el = Rmin (y el0 + dy) (y el0 + dy + (h0 - dy)) /\
                height el = Some (Rabs (h0 - dy))) /\
    (h = h_s -> y el = Rmin (y el0) (y el0 + (h0 + dy)) /\
                height el = Some (Rabs (h0 + dy))) /\
    entryRatioOf el = entryRatioOf el0 /\
    History.snapshotAt (historyIndex r) r = elements r /\
    selectedElementIds r = [sel] /\
    mode (interactionState r) = m_none.
Proof.
  intros Hscale Ht Hsp Hnd Hsel Hfind Hh Hedge r w0 h0 dy. subst w0 h0 dy.
  destruct (resize_gesture c e1 e2 e3 sel el0 h Ht Hsp Hsel Hfind Hh)
    as (Hels & Hhist & Hsel' & Hmode & _).
  fold r in Hels, Hhist, Hsel', Hmode.
  rewrite (sole_bearer (elements c) sel el0
             (fun el => normalizeElement
                          (resizeElement h el0 (py (getMousePos c e2))
                             (px (getMousePos c e2) - px (getMousePos c e1))
                             (py (getMousePos c e2) - py (getMousePos c e1))
                             el)) Hnd Hfind) in Hels.
  pose proof (handle_needs_box _ _ _ _ _ Hh) as Hbox.
  assert (Hid : id el0 = sel).
  { apply find_some in Hfind. apply String.eqb_eq, Hfind. }
  destruct (edge_resized_fields h el0 el0 (py (getMousePos c e2))
              (px (getMousePos c e2) - px (getMousePos c e1))
              (py (getMousePos c e2) - py (getMousePos c e1)) Hbox Hedge)
    as (Fid & Fty & Fx & Fw & Fn & Fs & Fcd).
  eexists. split; [exact Hels|].
  rewrite Fid, Fty, Fx, Fw.
  repeat split; try assumption; try reflexivity.
  - apply Fn; assumption.
  - apply Fn; assumption.
  - apply Fs; assumption.
  - apply Fs; assumption.
  - apply (spread_keeps_ratio _ (customData el0)). exact Fcd.
Qed.

Lemma north_handle_drag_of_marker :
  exists el,
    elements
      (handleMouseUp
         (handleMouseMove
            (handleMouseDown
               (canvasWith [shape "m" long_position 0 0 100 100]
                           ["m"%string] [])
               (eventAt 50 0 false))
            (eventAt 50 20 false))
         (eventAt 50 20 false))
    = [el] /\
    y el = 20 /\ height el = Some 80.
Proof.
  destruct (edge_handle_drag_moves_one_side
              (canvasWith [shape "m" long_position 0 0 100 100]
                          ["m"%string] [])
              (eventAt 50 0 false) (eventAt 50 20 false)
              (eventAt 50 20 false) "m"
              (shape "m" long_position 0 0 100 100) h_n)
    as (el & Hels & _ & _ & _ & _ & Hn & _); try reflexivity.
  - simpl. lra.
  - simpl. constructor; [intros []|constructor].
  - unfold getResizeHandleAtPosition, near, HANDLE_SIZE. simpl. reval.
  - left. reflexivity.
  - exists el. split; [exact Hels|].
    destruct (Hn eq_refl) as [Hy Hh]. rewrite Hy, Hh. simpl.
    split; [|f_equal]; reval.
Defined.

Lemma normalize_withCustomData (d : option CustomData) (e : DrawingElement) :
  normalizeElement (withCustomData d e)
  = withCustomData d (normalizeElement e).
Proof.
  unfold normalizeElement. cbn [type withCustomData x y width height].
  destruct (isBoxLike (type e)); [|reflexivity].
  destruct (Rltb _ _ || Rltb _ _); reflexivity.
Qed.

(** Dragging the entry handle of a position marker.  With the selection
    tool, distinct identifiers and the marker the sole selection, a press on
    its entry handle, a move and a release change the marker's entry ratio
    and nothing else of it beyond the normalization of the release: the
    ratio is the pointer's height above the marker's origin over the
    absolute value of the marker's height, kept within [0.05, 0.95].  Every
    other element is untouched and the new scene is the head of the
    history.  The scale is positive and the marker's height is not
    zero. *)
Theorem entry_handle_drag_sets_clamped_ratio
        (c : Canvas) (e1 e2 e3 : MouseEvent)
        (sel : string) (el0 : DrawingElement) :
  0 < scale c -> orZero (height el0) <> 0 ->
  tool c = selection -> isSpacePressed c = false ->
  NoDup (map id (elements c)) ->
  selectedElementIds c = [sel] ->
  find (fun el => String.eqb (id el) sel) (elements c) = Some el0 ->
  getResizeHandleAtPosition (scale c) (px (getMousePos c e1))
                            (py (getMousePos c e1)) el0 = Some h_entry ->
  let r := handleMouseUp (handleMouseMove (handleMouseDown c e1) e2) e3 in
  let h0 := orZero (height el0) in
  let ratio :=
    Rmin (Rmax ((py (getMousePos c e2) - y el0) / Rabs h0) 0.05) 0.95 in
  exists el,
    elements r
    = map (fun a => if String.eqb (id a) sel then el else a) (elements c) /\
    el = withCustomData (Some (mkCustomData (Some ratio)))
                        (normalizeElement el0) /\
    entryRatioOf el = ratio /\ 0.05 <= ratio <= 0.95 /\
    History.snapshotAt (historyIndex r) r = elements r /\
    selectedElementIds r = [sel] /\
    mode (interactionState r) = m_none.
Proof.
  intros Hscale Hh0 Ht Hsp Hnd Hsel Hfind Hh r h0 ratio.
  destruct (resize_gesture c e1 e2 e3 sel el0 h_entry Ht Hsp Hsel Hfind Hh)
    as (Hels & Hhist & Hsel' & Hmode & _).
  fold r in Hels, Hhist, Hsel', Hmode.
  rewrite (sole_bearer (elements c) sel el0
             (fun el => normalizeElement
                          (resizeElement h_entry el0 (py (getMousePos c e2))
                             (px (getMousePos c e2) - px (getMousePos c e1))
                             (py (getMousePos c e2) - py (getMousePos c e1))
                             el)) Hnd Hfind) in Hels.
  change (resizeElement h_entry el0 (py (getMousePos c e2))
            (px (getMousePos c e2) - px (getMousePos c e1))
            (py (getMousePos c e2) - py (getMousePos c e1)) el0)
    with (withCustomData (Some (mkCustomData (Some ratio))) el0) in Hels.
  rewrite normalize_withCustomData in Hels.
  eexists. split; [exact Hels|]. split; [reflexivity|].
  assert (Hrange : 0.05 <= ratio <= 0.95).
  { unfold ratio. split.
    - apply Rmin_glb; [apply Rmax_r|lra].
    - apply Rmin_r. }
  split; [reflexivity|]. split; [exact Hrange|].
  repeat split; assumption.
Qed.

Lemma entry_handle_drag_of_marker :
  exists el,
    elements
      (handleMouseUp
         (handleMouseMove
            (handleMouseDown
               (canvasWith [shape "m" long_position 0 0 100 100]
                           ["m"%string] [])
               (eventAt 100 50 false))
            (eventAt 100 30 false))
         (eventAt 100 30 false))
    = [el] /\
    0.05 <= entryRatioOf el <= 0.95.
Proof.
  destruct (entry_handle_drag_sets_clamped_ratio
              (canvasWith [shape "m" long_position 0 0 100 100]
                          ["m"%string] [])
              (eventAt 100 50 false) (eventAt 100 30 false)
              (eventAt 100 30 false) "m"
              (shape "m" long_position 0 0 100 100))
    as (el & Hels & _ & Hr & Hrange & _); try reflexivity.
  - simpl. lra.
  - simpl. lra.
  - simpl. constructor; [intros []|constructor].
  - unfold getResizeHandleAtPosition, near, HANDLE_SIZE. simpl. reval.
  - exists el. split; [exact Hels|]. rewrite Hr. exact Hrange.
Defined.

End ResizeFacts.

(** ** Dragging the selection *)

Module DragFacts.

Import Geometry Interaction.

(** A run of pointer-moves while moving leaves what its last move alone
    would leave. *)
Lemma moves_while_moving (ms : list MouseEvent) :
  forall (c : Canvas) (e : MouseEvent) (m : ElementMap),
    mode (interactionState c) = m_moving ->
    startElementSnapshots (interactionState c) = Some m ->
    keyedById m ->
    fold_left handleMouseMove (ms ++ [e]) c = handleMouseMove c e.
Proof.
  induction ms as [|a ms IH]; intros c e m Hmode Hsnap Hkey; [reflexivity|].
  cbn [app fold_left].
  rewrite (MoveFacts.mouseMove_moving c a m Hmode Hsnap).
  rewrite (IH _ e m); [|exact Hmode|exact Hsnap|exact Hkey].
  rewrite (MoveFacts.mouseMove_moving _ e m); [|exact Hmode|exact Hsnap].
  rewrite (MoveFacts.mouseMove_moving c e m Hmode Hsnap).
  cbn [elements setElements interactionState]. unfold setElements at 1.
  cbn [tool lockTool currentElement clipboard history historyIndex style
       eraserSize panOffset scale isSpacePressed selectedElementIds
       selectionBox interactionState isDarkMode setElements].
  unfold setElements. f_equal.
  rewrite map_map. apply map_ext. intros el.
  destruct (mapGet (id el) m) as [s|] eqn:G.
  - rewrite MoveFacts.moveBy_id, (Hkey _ _ G), G. reflexivity.
  - rewrite G. reflexivity.
Qed.

(** With distinct identifiers, the snapshots of a press hold each selected
    element of the scene under its identifier and nothing else. *)
Lemma snapshot_of_each_selected (sel : list string)
      (els : list DrawingElement) (el : DrawingElement) :
  NoDup (map id els) -> In el els ->
  mapGet (id el)
         (fold_left (fun m a => if existsb (String.eqb (id a)) sel
                                then mapSet (id a) a m else m) els [])
  = if existsb (String.eqb (id el)) sel then Some el else None.
Proof.
  intros Hnd Hin.
  destruct (ClickFacts.snapshots_of_selection sel els [])
    as (Hkey & Hdom & Hval).
  cbv zeta in Hkey, Hdom, Hval.
  match goal with
  | |- context [fold_left ?f els []] => set (m := fold_left f els []) in *
  end.
  assert (Hk : keyedById m) by (apply Hkey; intros k v H; discriminate H).
  destruct (existsb (String.eqb (id el)) sel) eqn:E.
  - apply CommitFacts.selected_iff in E.
    destruct (mapGet (id el) m) as [v|] eqn:G.
    + f_equal. destruct (Hval _ _ G) as [H|Hv]; [discriminate H|].
      pose proof (Hk _ _ G) as Hid.
      clear - Hnd Hin Hv Hid.
      induction els as [|a els IH]; [contradiction|].
      simpl in Hnd. inversion Hnd as [|? ? Hnotin Hnd']; subst.
      destruct Hin as [<-|Hin], Hv as [<-|Hv]; try reflexivity.
      * exfalso. apply Hnotin. rewrite <- Hid. apply in_map, Hv.
      * exfalso. apply Hnotin. rewrite Hid. apply in_map, Hin.
      * apply IH; assumption.
    + exfalso. apply (proj2 (Hdom (id el))); [|exact G].
      right. split; [exact E|]. exists el. split; [exact Hin|reflexivity].
  - destruct (mapGet (id el) m) as [v|] eqn:G; [|reflexivity].
    exfalso. assert (Hne : mapGet (id el) m <> None) by (rewrite G; discriminate).
    apply Hdom in Hne. destruct Hne as [H|(Hsel & _)]; [apply H; reflexivity|].
    apply CommitFacts.selected_iff in Hsel. congruence.
Qed.

Lemma mouseUp_moving (c : Canvas) (e : MouseEvent) :
  effectiveTool c = selection ->
  mode (interactionState c) = m_moving ->
  handleMouseUp c e
  = setCurrentElement None
      (setInteractionState idle
         (if sceneReplaced e then History.pushToHistory (elements c) c
          else c)).
Proof.
  intros Heff Hmode. unfold handleMouseUp. rewrite Heff, Hmode.
  cbv zeta. cbn [Tool_beq Mode_beq andb negb].
  destruct (selectionBox c) as [[s1 s2]|], (currentElement c),
    (selectedElementIds c) as [|i [|j l]], (sceneReplaced e), (lockTool c);
    reflexivity.
Qed.

(** Dragging an element.  With the selection tool, distinct identifiers and
    no handle under the pointer, a press without shift on an element
    selects it alone, unless it is part of the selection already, which is
    then kept; the moves and the release that follow leave every selected
    element translated from where it was at the press by the displacement
    of the pointer between the press and the last move, and every other
    element as it was, in the same order.  The selection stays, the
    interaction is over, and the new scene becomes the head of the history
    when the release finds the scene replaced; otherwise the history is
    untouched.  The scale is positive, as the view keeps it. *)
Theorem drag_translates_the_selection
        (c : Canvas) (e1 e2 e3 : MouseEvent) (moves : list MouseEvent)
        (i : string) :
  0 < scale c ->
  tool c = selection -> isSpacePressed c = false ->
  NoDup (map id (elements c)) ->
  noHandleUnder c (px (getMousePos c e1)) (py (getMousePos c e1)) ->
  topmostAt c (px (getMousePos c e1)) (py (getMousePos c e1)) = Some i ->
  i <> ""%string -> shiftKey e1 = false ->
  let r := handleMouseUp
             (fold_left handleMouseMove (moves ++ [e2])
                        (handleMouseDown c e1)) e3 in
  let sel := if existsb (String.eqb i) (selectedElementIds c)
             then selectedElementIds c else [i] in
  let dx := px (getMousePos c e2) - px (getMousePos c e1) in
  let dy := py (getMousePos c e2) - py (getMousePos c e1) in
  elements r
  = map (fun el => if existsb (String.eqb (id el)) sel
                   then moveBy dx dy el else el) (elements c) /\
  selectedElementIds r = sel /\
  mode (interactionState r) = m_none /\
  (sceneReplaced e3 = true ->
   History.snapshotAt (historyIndex r) r = elements r) /\
  (sceneReplaced e3 = false ->
   history r = history c /\ historyIndex r = historyIndex c).
Proof.
  intros Hscale Ht Hsp Hnd Hno Htop Hi Hshift r sel dx dy.
  assert (Heff : effectiveTool c = selection)
    by (unfold effectiveTool; rewrite Hsp; exact Ht).
  pose proof (ClickFacts.press_on_element_cases c e1 i Heff Hno Htop Hi)
    as Hdown.
  cbv zeta in Hdown. rewrite Hshift in Hdown. cbn [andb] in Hdown.
  fold sel in Hdown.
  set (snaps := fold_left
                  (fun m el => if existsb (String.eqb (id el)) sel
                               then mapSet (id el) el m else m)
                  (elements c) []) in *.
  assert (Hkey : keyedById snaps).
  { destruct (ClickFacts.snapshots_of_selection sel (elements c) [])
      as (Hk & _). apply Hk. intros k v H. discriminate H. }
  assert (Hmoves : fold_left handleMouseMove (moves ++ [e2])
                             (handleMouseDown c e1)
                   = setElements
                       (map (fun el => if existsb (String.eqb (id el)) sel
                                       then moveBy dx dy el else el)
                            (elements c))
                       (handleMouseDown c e1)).
  { rewrite (moves_while_moving moves _ e2 snaps);
      try (rewrite Hdown; first [reflexivity | exact Hkey]); [|exact Hkey].
    rewrite (MoveFacts.mouseMove_moving _ e2 snaps);
      try (rewrite Hdown; reflexivity).
    f_equal. rewrite Hdown.
    cbn [elements setInteractionState setSelectedElementIds interactionState
         startMousePos].
    apply map_ext_in. intros el Hin. unfold snaps.
    rewrite (snapshot_of_each_selected sel (elements c) el Hnd Hin).
    destruct (existsb (String.eqb (id el)) sel); reflexivity. }
  assert (Hup : r = _)
    by (unfold r; rewrite Hmoves;
        apply (mouseUp_moving _ e3); rewrite Hdown; first [exact Heff | reflexivity]).
  rewrite Hup, Hdown.
  destruct (sceneReplaced e3).
  - repeat split; try reflexivity; try discriminate.
    intros _. exact (GestureFacts.push_head _ _).
  - repeat split; try reflexivity; discriminate.
Qed.

Lemma drag_of_one_square :
  elements
    (handleMouseUp
       (fold_left handleMouseMove ([eventAt 7 7 false] ++ [eventAt 25 35 false])
                  (handleMouseDown
                     (canvasWith [shape "a" rectangle 0 0 10 10] [] [])
                     (eventAt 5 5 false)))
       (eventAt 25 35 false))
  = map (fun el =>
           if existsb (String.eqb (id el)) ["a"%string]
           then moveBy
                  (px (getMousePos
                         (canvasWith [shape "a" rectangle 0 0 10 10] [] [])
                         (eventAt 25 35 false))
                   - px (getMousePos
                           (canvasWith [shape "a" rectangle 0 0 10 10] [] [])
                           (eventAt 5 5 false)))
                  (py (getMousePos
                         (canvasWith [shape "a" rectangle 0 0 10 10] [] [])
                         (eventAt 25 35 false))
                   - py (getMousePos
                           (canvasWith [shape "a" rectangle 0 0 10 10] [] [])
                           (eventAt 5 5 false))) el
           else el)
        [shape "a" rectangle 0 0 10 10].
Proof.
  apply (drag_translates_the_selection
           (canvasWith [shape "a" rectangle 0 0 10 10] [] [])
           (eventAt 5 5 false) (eventAt 25 35 false) (eventAt 25 35 false)
           [eventAt 7 7 false] "a"%string).
  - simpl. lra.
  - reflexivity.
  - reflexivity.
  - simpl. constructor; [intros []|constructor].
  - intros sel el Hsel. discriminate Hsel.
  - unfold topmostAt, isPointInElement, getElementBounds. simpl. reval.
  - discriminate.
  - reflexivity.
Defined.

End DragFacts.
